(** * The light-wallet node: header ingestion, cache bookkeeping and sync

    A shallow embedding of [src/wallet/wallet_node.py] (class [WalletNode]).

    Conventions.
    - Python [int] values (heights, weights, iteration counts) are [Z]; the
      [uint32]/[uint64]/[uint128] wrappers are subclasses of [int] whose
      arithmetic yields a plain [int], so subtraction can go negative.  The
      wrappers' constructors are taken as the identity.
    - [bytes32] values are 256-bit numbers, kept as [N].
    - A Python [dict] is a [gmap]; a Python [list] is a [list] read with
      [py_index], which implements Python's negative indices and raises
      [IndexError] when out of range.
    - Methods are written in a state-and-exception monad [M] over a [World]:
      the node object, the list of effects emitted so far, the records handed
      to [receive_block], and a counter of scheduling points.  A [while True]
      loop is cut off by a bound on its turns ([Fuel]).
    - [assert] statements raise [AssertionError].
    - The state manager ([WalletStateManager]) is not part of the sources; it
      is the interface [StateManager], and every method is generic in it.
    - Wall-clock time, the other tasks of the event loop and the random
      sampler are oracles of the [_sync] run. *)

From stdpp Require Import gmap strings list fin_maps sorting relations.
From Stdlib Require Import ZArith.
From Stdlib.Strings Require Import Byte.

Local Open Scope Z_scope.

(** ** Data model *)

Abbreviation bytes32 := N (only parsing).
Abbreviation bytes := (list Byte.byte) (only parsing).

(** [src/types/coin.py] is outside the sources; a coin is its three fields. *)
Record Coin := { parent_coin_info : bytes32; puzzle_hash : bytes32; amount : Z }.

Module BlockRecord.
Record t := {
  header_hash : bytes32;
  prev_header_hash : bytes32;
  height : Z;
  weight : Z;
  additions : option (list Coin);
  removals : option (list bytes32);
  total_iters : option Z;
  new_challenge_hash : option bytes32;
  timestamp : Z;
}.
End BlockRecord.

(** The fields and derived properties of a header block that the node reads:
    [header_hash], [prev_header_hash], [height], [weight],
    [header.data.total_iters], [challenge.get_hash()] and
    [header.data.timestamp]. *)
Module HeaderBlock.
Record t := {
  header_hash : bytes32;
  prev_header_hash : bytes32;
  height : Z;
  weight : Z;
  total_iters : Z;
  challenge_hash : bytes32;
  timestamp : Z;
}.
End HeaderBlock.

Inductive ReceiveBlockResult :=
| ADDED_TO_HEAD
| ADDED_AS_ORPHAN
| INVALID_BLOCK
| ALREADY_HAVE_BLOCK
| DISCONNECTED_BLOCK.

Record RespondHeader := {
  header_block : HeaderBlock.t;
  transactions_filter : bytes;
}.

(** Messages the node emits ([Message(name, payload)]). *)
Inductive Message :=
| request_all_header_hashes_after (starting_height : Z) (challenge : bytes32)
| request_all_proof_hashes
| request_header (height : Z) (header_hash : bytes32)
| request_additions (height : Z) (header_hash : bytes32) (puzzle_hashes : list bytes32)
| send_transaction (spend_bundle : N)
| request_generator (height : Z) (header_hash : bytes32).

Record TransactionRecord := {
  tx_name : bytes32;
  spend_bundle : option N;
}.

Record WalletAction := {
  action_name : string;
  action_data : string;
}.

Record PeerInfo := { host : string; port : Z }.

#[global] Instance PeerInfo_eq_dec : EqDecision PeerInfo.
Proof. solve_decision. Defined.

Record WSChiaConnection := {
  connection_id : N;
  get_peer_info : PeerInfo;
}.

Record ChiaServer := { get_full_node_connections : list WSChiaConnection }.

(** The keys of [self.config] that the modelled methods read or write. *)
Record Config := {
  starting_height : Z;
  start_height_buffer : Z;
  num_sync_batches : Z;
  full_node_peer : option PeerInfo;
}.

Abbreviation ProofHashTriple := (bytes32 * option Z * option Z)%type (only parsing).

Abbreviation CachedEntry := (BlockRecord.t * HeaderBlock.t * bytes)%type (only parsing).

(** The interface of [WalletStateManager] consumed by the node.  [W] is the
    state of the manager; the async methods are state transformers. *)
Class StateManager (W : Type) := {
  block_records : W → gmap bytes32 BlockRecord.t;
  lca : W → bytes32;
  sync_mode : W → bool;
  new_wallet : W → bool;
  height_to_hash : W → gmap Z bytes32;
  tx_store_get_not_sent : W → list TransactionRecord;
  action_store_get_all_pending_actions : W → list WalletAction;
  receive_block : W → BlockRecord.t → option HeaderBlock.t → W * ReceiveBlockResult;
  get_filter_additions_removals :
    W → BlockRecord.t → bytes → list bytes32 * list bytes32;
  validate_select_proofs :
    W → list ProofHashTriple → list Z → gmap bytes32 CachedEntry → gmap Z bytes32 → bool;
  find_fork_point_alternate_chain : W → list bytes32 → Z;
}.

(** The fields of [WalletNode]. An [asyncio.Event] is its flag. *)
Record WalletNode (W : Type) := {
  config : Config;
  server : option ChiaServer;
  wallet_state_manager : option W;
  backup_initialized : bool;
  cached_blocks : gmap bytes32 CachedEntry;
  future_block_hashes : gmap bytes32 bytes32;
  proof_hashes : list ProofHashTriple;
  header_hashes : list bytes32;
  header_hashes_error : bool;
  potential_blocks_received : gmap Z bool;
  potential_header_hashes : gmap Z bytes32;
  short_sync_threshold : Z;
  _shut_down : bool;
}.

Arguments config {W} _.
Arguments server {W} _.
Arguments wallet_state_manager {W} _.
Arguments backup_initialized {W} _.
Arguments cached_blocks {W} _.
Arguments future_block_hashes {W} _.
Arguments proof_hashes {W} _.
Arguments header_hashes {W} _.
Arguments header_hashes_error {W} _.
Arguments potential_blocks_received {W} _.
Arguments potential_header_hashes {W} _.
Arguments short_sync_threshold {W} _.
Arguments _shut_down {W} _.

(** [WalletNode.__init__]. *)
Definition __init__ {W} (cfg : Config) : WalletNode W := {|
  config := cfg;
  server := None;
  wallet_state_manager := None;
  backup_initialized := false;
  cached_blocks := ∅;
  future_block_hashes := ∅;
  proof_hashes := [];
  header_hashes := [];
  header_hashes_error := false;
  potential_blocks_received := ∅;
  potential_header_hashes := ∅;
  short_sync_threshold := 15;
  _shut_down := false;
|}.

Section Setters.
Context {W : Type}.
Implicit Type self : WalletNode W.

Definition set_config (f : Config → Config) self : WalletNode W :=
  {| config := f (config self); server := server self;
     wallet_state_manager := wallet_state_manager self;
     backup_initialized := backup_initialized self;
     cached_blocks := cached_blocks self;
     future_block_hashes := future_block_hashes self;
     proof_hashes := proof_hashes self; header_hashes := header_hashes self;
     header_hashes_error := header_hashes_error self;
     potential_blocks_received := potential_blocks_received self;
     potential_header_hashes := potential_header_hashes self;
     short_sync_threshold := short_sync_threshold self;
     _shut_down := _shut_down self |}.

Definition set_wallet_state_manager (w : option W) self : WalletNode W :=
  {| config := config self; server := server self;
     wallet_state_manager := w;
     backup_initialized := backup_initialized self;
     cached_blocks := cached_blocks self;
     future_block_hashes := future_block_hashes self;
     proof_hashes := proof_hashes self; header_hashes := header_hashes self;
     header_hashes_error := header_hashes_error self;
     potential_blocks_received := potential_blocks_received self;
     potential_header_hashes := potential_header_hashes self;
     short_sync_threshold := short_sync_threshold self;
     _shut_down := _shut_down self |}.

Definition set_cached_blocks (m : gmap bytes32 CachedEntry) self : WalletNode W :=
  {| config := config self; server := server self;
     wallet_state_manager := wallet_state_manager self;
     backup_initialized := backup_initialized self;
     cached_blocks := m;
     future_block_hashes := future_block_hashes self;
     proof_hashes := proof_hashes self; header_hashes := header_hashes self;
     header_hashes_error := header_hashes_error self;
     potential_blocks_received := potential_blocks_received self;
     potential_header_hashes := potential_header_hashes self;
     short_sync_threshold := short_sync_threshold self;
     _shut_down := _shut_down self |}.

Definition set_future_block_hashes (m : gmap bytes32 bytes32) self : WalletNode W :=
  {| config := config self; server := server self;
     wallet_state_manager := wallet_state_manager self;
     backup_initialized := backup_initialized self;
     cached_blocks := cached_blocks self;
     future_block_hashes := m;
     proof_hashes := proof_hashes self; header_hashes := header_hashes self;
     header_hashes_error := header_hashes_error self;
     potential_blocks_received := potential_blocks_received self;
     potential_header_hashes := potential_header_hashes self;
     short_sync_threshold := short_sync_threshold self;
     _shut_down := _shut_down self |}.

Definition set_proof_hashes (l : list ProofHashTriple) self : WalletNode W :=
  {| config := config self; server := server self;
     wallet_state_manager := wallet_state_manager self;
     backup_initialized := backup_initialized self;
     cached_blocks := cached_blocks self;
     future_block_hashes := future_block_hashes self;
     proof_hashes := l; header_hashes := header_hashes self;
     header_hashes_error := header_hashes_error self;
     potential_blocks_received := potential_blocks_received self;
     potential_header_hashes := potential_header_hashes self;
     short_sync_threshold := short_sync_threshold self;
     _shut_down := _shut_down self |}.

Definition set_header_hashes (l : list bytes32) self : WalletNode W :=
  {| config := config self; server := server self;
     wallet_state_manager := wallet_state_manager self;
     backup_initialized := backup_initialized self;
     cached_blocks := cached_blocks self;
     future_block_hashes := future_block_hashes self;
     proof_hashes := proof_hashes self; header_hashes := l;
     header_hashes_error := header_hashes_error self;
     potential_blocks_received := potential_blocks_received self;
     potential_header_hashes := potential_header_hashes self;
     short_sync_threshold := short_sync_threshold self;
     _shut_down := _shut_down self |}.

Definition set_header_hashes_error (b : bool) self : WalletNode W :=
  {| config := config self; server := server self;
     wallet_state_manager := wallet_state_manager self;
     backup_initialized := backup_initialized self;
     cached_blocks := cached_blocks self;
     future_block_hashes := future_block_hashes self;
     proof_hashes := proof_hashes self; header_hashes := header_hashes self;
     header_hashes_error := b;
     potential_blocks_received := potential_blocks_received self;
     potential_header_hashes := potential_header_hashes self;
     short_sync_threshold := short_sync_threshold self;
     _shut_down := _shut_down self |}.

Definition set_potential_blocks_received (m : gmap Z bool) self : WalletNode W :=
  {| config := config self; server := server self;
     wallet_state_manager := wallet_state_manager self;
     backup_initialized := backup_initialized self;
     cached_blocks := cached_blocks self;
     future_block_hashes := future_block_hashes self;
     proof_hashes := proof_hashes self; header_hashes := header_hashes self;
     header_hashes_error := header_hashes_error self;
     potential_blocks_received := m;
     potential_header_hashes := potential_header_hashes self;
     short_sync_threshold := short_sync_threshold self;
     _shut_down := _shut_down self |}.

Definition set_potential_header_hashes (m : gmap Z bytes32) self : WalletNode W :=
  {| config := config self; server := server self;
     wallet_state_manager := wallet_state_manager self;
     backup_initialized := backup_initialized self;
     cached_blocks := cached_blocks self;
     future_block_hashes := future_block_hashes self;
     proof_hashes := proof_hashes self; header_hashes := header_hashes self;
     header_hashes_error := header_hashes_error self;
     potential_blocks_received := potential_blocks_received self;
     potential_header_hashes := m;
     short_sync_threshold := short_sync_threshold self;
     _shut_down := _shut_down self |}.
End Setters.

(** ** Effects, exceptions and the monad *)

(** The two log lines of [has_full_node]; the other log calls of the class
    have no bearing on its behaviour and are left out. *)
Inductive LogLine :=
| already_connected_to (p : PeerInfo)
| closing_unnecessary_connection_to (p : PeerInfo).

Inductive Effect :=
| peer_send_message (msg : Message)
| server_send_to_all (msg : Message)
| connection_close (c : WSChiaConnection)
| log_info (line : LogLine).

(** The connections a trace schedules for closing, in order. *)
Definition closed_connections (effects : list Effect) : list WSChiaConnection :=
  omap (λ e, match e with connection_close c => Some c | _ => None end) effects.

Inductive exn :=
| KeyError | IndexError | AssertionError | ValueError | TimeoutError
| AttributeError | OSError.

(** How a piece of a method body ends: with a value, with [return] (for the
    methods that return [None]), with an exception, or because the bound on
    loop iterations of the model was reached. *)
Inductive outcome (A : Type) :=
| Val (a : A)
| Exit
| Raise (e : exn)
| Fuel.
Arguments Val {A} _.
Arguments Exit {A}.
Arguments Raise {A} _.
Arguments Fuel {A}.

Record World (W : Type) := {
  node : WalletNode W;
  trace : list Effect;
  submitted : list (BlockRecord.t * option HeaderBlock.t);
  ticks : nat;
}.
Arguments node {W} _.
Arguments trace {W} _.
Arguments submitted {W} _.
Arguments ticks {W} _.

Definition M (W A : Type) : Type := World W → outcome A * World W.

Section Monad.
Context {W : Type}.

Definition ret {A} (a : A) : M W A := λ w, (Val a, w).

Definition bind {A B} (m : M W A) (k : A → M W B) : M W B := λ w,
  match m w with
  | (Val a, w') => k a w'
  | (Exit, w') => (Exit, w')
  | (Raise e, w') => (Raise e, w')
  | (Fuel, w') => (Fuel, w')
  end.

Definition exit {A} : M W A := λ w, (Exit, w).
Definition raise {A} (e : exn) : M W A := λ w, (Raise e, w).
Definition out_of_fuel {A} : M W A := λ w, (Fuel, w).

(** A method whose [return] statements carry no value. *)
Definition proc (m : M W unit) : M W unit := λ w,
  match m w with
  | (Exit, w') => (Val tt, w')
  | r => r
  end.

Definition get_self : M W (WalletNode W) := λ w, (Val (node w), w).

Definition modify_self (f : WalletNode W → WalletNode W) : M W unit := λ w,
  (Val tt, {| node := f (node w); trace := trace w;
              submitted := submitted w; ticks := ticks w |}).

Definition emit (e : Effect) : M W unit := λ w,
  (Val tt, {| node := node w; trace := trace w ++ [e];
              submitted := submitted w; ticks := ticks w |}).

Definition assert_ (b : bool) : M W unit :=
  if b then ret tt else raise AssertionError.

(** [self.wallet_state_manager.<attr>]: an [AttributeError] on [None]. *)
Definition get_wsm : M W W := λ w,
  match wallet_state_manager (node w) with
  | Some s => (Val s, w)
  | None => (Raise AttributeError, w)
  end.

(** [d[k]] on a dict. *)
Definition dict_get `{Countable K} {V} (d : gmap K V) (k : K) : M W V :=
  match d !! k with
  | Some v => ret v
  | None => raise KeyError
  end.

(** [for x in xs: body x]. *)
Fixpoint for_each {A} (xs : list A) (body : A → M W unit) : M W unit :=
  match xs with
  | [] => ret tt
  | x :: xs' => bind (body x) (λ _, for_each xs' body)
  end.
End Monad.

Notation "'let*' x ':=' m 'in' k" := (bind m (λ x, k))
  (at level 10, x pattern, m at level 100, k at level 200, only parsing).
Notation "'do' m 'then' k" := (bind m (λ _, k))
  (at level 10, m at level 100, k at level 200, only parsing).

(** [l[i]] on a list, with Python's negative indices. *)
Definition py_index {A} (l : list A) (i : Z) : option A :=
  if decide (0 ≤ i) then l !! Z.to_nat i
  else if decide (0 ≤ Z.of_nat (length l) + i)
       then l !! Z.to_nat (Z.of_nat (length l) + i)
       else None.

Definition list_get {W A} (l : list A) (i : Z) : M W A :=
  match py_index l i with
  | Some a => ret a
  | None => raise IndexError
  end.

(** [range(a, b)]. *)
Definition range (a b : Z) : list Z := seqZ a (b - a).

(** A computation that hands nothing to [receive_block]. *)
Definition keeps_submitted {W A} (m : M W A) : Prop :=
  ∀ w, submitted (m w).2 = submitted w.

(** The world with another node object. *)
Definition with_node {W} (self : WalletNode W) (w : World W) : World W :=
  {| node := self; trace := trace w; submitted := submitted w; ticks := ticks w |}.

(** The world after one more effect. *)
Definition with_effects {W} (es : list Effect) (w : World W) : World W :=
  {| node := node w; trace := trace w ++ es; submitted := submitted w;
     ticks := ticks w |}.

(** ** Cache bookkeeping: [_block_finished] *)

Section BlockFinished.
Context {W : Type} `{StateManager W}.

(** [await self.wallet_state_manager.receive_block(record, header_block)]. *)
Definition call_receive_block (br : BlockRecord.t) (hb : option HeaderBlock.t)
  : M W ReceiveBlockResult := λ w,
  match wallet_state_manager (node w) with
  | None => (Raise AttributeError, w)
  | Some s =>
      let '(s', res) := receive_block s br hb in
      (Val res,
       {| node := set_wallet_state_manager (Some s') (node w);
          trace := trace w;
          submitted := submitted w ++ [(br, hb)];
          ticks := ticks w |})
  end.

(** The first loop of the eviction: the keys whose record lies more than
    100 below the finished block. *)
Definition remove_header_hashes (block_height : Z)
    (cached : gmap bytes32 CachedEntry) : list bytes32 :=
  (filter (λ kv : bytes32 * CachedEntry,
             block_height - BlockRecord.height kv.2.1.1 > 100)
          (map_to_list cached)).*1.

(** The second loop: [del self.cached_blocks[header_hash]] for each. *)
Definition evict_outdated (block_height : Z)
    (cached : gmap bytes32 CachedEntry) : gmap bytes32 CachedEntry :=
  foldl (λ m hh, delete hh m) cached (remove_header_hashes block_height cached).

(** The tail of [_block_finished]: hand back the queued successor. *)
Definition next_block (br : BlockRecord.t) : M W (option RespondHeader) :=
  let* self := get_self in
  match future_block_hashes self !! BlockRecord.header_hash br with
  | Some new_hh =>
      let* entry := dict_get (cached_blocks self) new_hh in
      let '(_, new_hb, new_tfilter) := entry in
      ret (Some {| header_block := new_hb; transactions_filter := new_tfilter |})
  | None => ret None
  end.

(** The five results of [receive_block] are all there are, so the closing
    [else: raise RuntimeError("Invalid state")] has no counterpart here. *)
Definition _block_finished (block_record : BlockRecord.t)
    (header_block : HeaderBlock.t) (transaction_filter : option bytes)
  : M W (option RespondHeader) :=
  let* self := get_self in
  match wallet_state_manager self, backup_initialized self with
  | None, _ | _, false => ret None
  | Some wsm, true =>
      do assert_ (bool_decide
           (is_Some (block_records wsm !! BlockRecord.prev_header_hash block_record)))
      then
      do assert_ (bool_decide (is_Some (BlockRecord.additions block_record))
                  && bool_decide (is_Some (BlockRecord.removals block_record)))
      then
      let* res := call_receive_block block_record (Some header_block) in
      match res with
      | DISCONNECTED_BLOCK => ret None
      | INVALID_BLOCK => ret None
      | ALREADY_HAVE_BLOCK => ret None
      | ADDED_AS_ORPHAN => next_block block_record
      | ADDED_TO_HEAD =>
          let* wsm' := get_wsm in
          do (if sync_mode wsm' then ret tt
              else modify_self (λ self,
                     set_cached_blocks
                       (evict_outdated (BlockRecord.height block_record)
                                       (cached_blocks self)) self))
          then
          next_block block_record
      end
  end.
End BlockFinished.

(** ** Header handler: [_respond_header]

    The handler runs in one piece: no other task is scheduled at its
    [await]s. *)

Section RespondHeader.
Context {W : Type} `{StateManager W}.

(** [BlockRecord(block.header_hash, ..., None, None, ...)]. *)
Definition record_of_header (block : HeaderBlock.t) : BlockRecord.t := {|
  BlockRecord.header_hash := HeaderBlock.header_hash block;
  BlockRecord.prev_header_hash := HeaderBlock.prev_header_hash block;
  BlockRecord.height := HeaderBlock.height block;
  BlockRecord.weight := HeaderBlock.weight block;
  BlockRecord.additions := None;
  BlockRecord.removals := None;
  BlockRecord.total_iters := Some (HeaderBlock.total_iters block);
  BlockRecord.new_challenge_hash := Some (HeaderBlock.challenge_hash block);
  BlockRecord.timestamp := HeaderBlock.timestamp block |}.

(** The same record with [additions] and [removals] set to [[]]. *)
Definition without_transactions (block_record : BlockRecord.t) : BlockRecord.t := {|
  BlockRecord.header_hash := BlockRecord.header_hash block_record;
  BlockRecord.prev_header_hash := BlockRecord.prev_header_hash block_record;
  BlockRecord.height := BlockRecord.height block_record;
  BlockRecord.weight := BlockRecord.weight block_record;
  BlockRecord.additions := Some [];
  BlockRecord.removals := Some [];
  BlockRecord.total_iters := BlockRecord.total_iters block_record;
  BlockRecord.new_challenge_hash := BlockRecord.new_challenge_hash block_record;
  BlockRecord.timestamp := BlockRecord.timestamp block_record |}.

(** [if uint32(block.height) in self.potential_blocks_received: ...]:
    set the signal and note the hash. *)
Definition mark_received (block : HeaderBlock.t) (self : WalletNode W)
  : WalletNode W :=
  match potential_blocks_received self !! HeaderBlock.height block with
  | Some _ =>
      set_potential_header_hashes
        (<[HeaderBlock.height block := HeaderBlock.header_hash block]>
           (potential_header_hashes self))
        (set_potential_blocks_received
           (<[HeaderBlock.height block := true]>
              (potential_blocks_received self)) self)
  | None => self
  end.

(** [if self.wallet_state_manager.sync_mode: ...]: the signal is only
    touched in sync mode. *)
Definition arrive (sync : bool) (block : HeaderBlock.t) (self : WalletNode W)
  : WalletNode W :=
  if sync then mark_received block self else self.

(** [self.cached_blocks[block_record.header_hash] = (...)]. *)
Definition cache_response (response : RespondHeader) (self : WalletNode W)
  : WalletNode W :=
  set_cached_blocks
    (<[HeaderBlock.header_hash (header_block response) :=
         (record_of_header (header_block response), header_block response,
          transactions_filter response)]>
       (cached_blocks self)) self.

(** [self.future_block_hashes[block.prev_header_hash] = block.header_hash]. *)
Definition defer_to_parent (block : HeaderBlock.t) (self : WalletNode W)
  : WalletNode W :=
  set_future_block_hashes
    (<[HeaderBlock.prev_header_hash block := HeaderBlock.header_hash block]>
       (future_block_hashes self)) self.

(** One turn of the [while True] loop; [exit] is the handler's [return],
    a value is the response the next turn works on. *)
Definition respond_header_turn (response : RespondHeader) : M W RespondHeader :=
  let* self := get_self in
  if _shut_down self then exit else
  let block := header_block response in
  let* wsm := get_wsm in
  if bool_decide (is_Some (block_records wsm !! HeaderBlock.header_hash block))
  then exit else
  if bool_decide (HeaderBlock.height block < 1) then exit else
  let block_record := record_of_header block in
  do modify_self (arrive (sync_mode wsm) block) then
  do modify_self (cache_response response) then
  match block_records wsm !! HeaderBlock.prev_header_hash block with
  | None =>
      do modify_self (defer_to_parent block) then
      let* lca_record := dict_get (block_records wsm) (lca wsm) in
      let* self := get_self in
      do (if bool_decide (BlockRecord.height block_record
                            - BlockRecord.height lca_record
                          < short_sync_threshold self)
             && negb (sync_mode wsm)
          then emit (peer_send_message
                       (request_header (BlockRecord.height block_record - 1)
                          (BlockRecord.prev_header_hash block_record)))
          else ret tt)
      then exit
  | Some _ =>
      let '(additions, removals) :=
        get_filter_additions_removals wsm block_record
          (transactions_filter response) in
      if bool_decide (0 < length additions)%nat
         || bool_decide (0 < length removals)%nat
      then
        do emit (peer_send_message
                   (request_additions (HeaderBlock.height block)
                      (HeaderBlock.header_hash block) additions))
        then exit
      else
        let* respond_header_msg :=
          _block_finished (without_transactions block_record) block
            (Some (transactions_filter response)) in
        match respond_header_msg with
        | None => exit
        | Some next => ret next
        end
  end.

(** The [while True] loop, cut off after [fuel] turns. *)
Fixpoint respond_header_loop (fuel : nat) (response : RespondHeader) : M W unit :=
  match fuel with
  | O => out_of_fuel
  | S fuel' =>
      let* next := respond_header_turn response in
      respond_header_loop fuel' next
  end.

Definition _respond_header (fuel : nat) (response : RespondHeader) : M W unit :=
  proc (
    let* self := get_self in
    match wallet_state_manager self, backup_initialized self with
    | None, _ | _, false => exit
    | Some _, true => respond_header_loop fuel response
    end).

(** The node is started in [w'] as it was in [w], the shutdown flag is the
    same, and what was committed in [w] is committed in [w']. *)
Definition extends (w w' : World W) : Prop :=
  backup_initialized (node w') = backup_initialized (node w)
  ∧ _shut_down (node w') = _shut_down (node w)
  ∧ ∃ s s', wallet_state_manager (node w) = Some s
            ∧ wallet_state_manager (node w') = Some s'
            ∧ ∀ k, is_Some (block_records s !! k) → is_Some (block_records s' !! k).
End RespondHeader.

(** ** Resend loop and peer policy *)

Section Resend.
Context {W : Type} `{StateManager W}.

(** [json.loads(action.data)["data"]["action_data"]], read as the two
    fields the node uses ([header_hash], [height]); [None] stands for a
    parse or lookup failure, which the model reports as [ValueError]. *)
Variable action_data_of : string → option (option bytes32 * option Z).

(** [x is None] for a flag that [__init__] and [_start] only ever set to
    [True] or [False]. *)
Definition flag_is_None (b : bool) : bool := false.

Definition _messages_to_resend : M W (list Message) :=
  let* self := get_self in
  match wallet_state_manager self with
  | None => ret []
  | Some wsm =>
      if negb (backup_initialized self) || _shut_down self then ret [] else
      let records := tx_store_get_not_sent wsm in
      ret (omap (λ record,
                   match spend_bundle record with
                   | None => None
                   | Some sb => Some (send_transaction sb)
                   end) records)
  end.

Fixpoint action_messages_loop (actions : list WalletAction) (result : list Message)
  : M W (list Message) :=
  match actions with
  | [] => ret result
  | action :: rest =>
      match action_data_of (action_data action) with
      | None => raise ValueError
      | Some (hh, ht) =>
          if String.eqb (action_name action) "request_generator" then
            match hh, ht with
            | Some header_hash, Some height =>
                action_messages_loop rest
                  (result ++ [request_generator height header_hash])
            | _, _ => raise ValueError
            end
          else action_messages_loop rest result
      end
  end.

Definition _action_messages : M W (list Message) :=
  let* self := get_self in
  match wallet_state_manager self, backup_initialized self with
  | None, _ | _, false => ret []
  | Some wsm, true =>
      action_messages_loop (action_store_get_all_pending_actions wsm) []
  end.

(** [x is None] for an optional attribute. *)
Definition is_None {A} (x : option A) : bool :=
  match x with
  | None => true
  | Some _ => false
  end.

(** The guard repeated throughout [_resend_queue]. *)
Definition resend_guard (self : WalletNode W) : bool :=
  _shut_down self
  || is_None (server self)
  || is_None (wallet_state_manager self)
  || flag_is_None (backup_initialized self).

Definition resend_each (msgs : list Message) : M W unit :=
  for_each msgs (λ msg,
    let* self := get_self in
    if resend_guard self then exit
    else emit (server_send_to_all msg)).

Definition _resend_queue : M W unit :=
  proc (
    let* self := get_self in
    if resend_guard self then exit else
    let* msgs := _messages_to_resend in
    do resend_each msgs then
    let* msgs := _action_messages in
    resend_each msgs).

Definition _on_connect : M W unit :=
  proc (
    let* self := get_self in
    match wallet_state_manager self, backup_initialized self with
    | None, _ | _, false => exit
    | Some _, true =>
        let* messages := _messages_to_resend in
        for_each messages (λ msg, emit (peer_send_message msg))
    end).
End Resend.

Section PeerPolicy.
Context {W : Type}.

(** [socket.gethostbyname]; [None] when resolution fails. *)
Variable gethostbyname : string → option string.

Definition has_full_node : M W bool :=
  let* self := get_self in
  match server self with
  | None => raise AssertionError
  | Some srv =>
      match full_node_peer (config self) with
      | None => ret false
      | Some full_node_peer =>
          let peers := get_peer_info <$> get_full_node_connections srv in
          match gethostbyname (host full_node_peer) with
          | None => raise OSError
          | Some resolved_host =>
              let full_node_resolved :=
                {| host := resolved_host; port := port full_node_peer |} in
              if bool_decide (full_node_peer ∈ peers)
                 || bool_decide (full_node_resolved ∈ peers)
              then
                do emit (log_info (already_connected_to full_node_peer)) then
                do for_each (get_full_node_connections srv) (λ connection,
                     do (if bool_decide (get_peer_info connection ≠ full_node_peer)
                            && bool_decide (get_peer_info connection ≠ full_node_resolved)
                         then emit (log_info (closing_unnecessary_connection_to
                                                (get_peer_info connection)))
                         else ret tt)
                     then emit (connection_close connection))
                then ret true
              else ret false
          end
      end
  end.
End PeerPolicy.

(** ** Sync orchestrator: [_sync]

    [_sync] interleaves with the rest of the node at its [await]s: the
    replies of the peer are stored by other handlers while it sleeps.  The
    environment of a run is given by three oracles.  Handlers that [_sync]
    calls itself run to completion in one piece. *)

Section Sync.
Context {W : Type} `{StateManager W}.

(** The counter [ticks] of the world advances at every scheduling point and
    at every reading of the clock. *)

(** What the other tasks do to the node when [_sync] is suspended at tick
    [n]. *)
Variable deliver : nat → WalletNode W → WalletNode W.
(** [time.time()] read at tick [n], in milliseconds. *)
Variable clock : nat → Z.
(** [random.choices(population, weights, k=k)]; [None] when it raises. *)
Variable random_choices : list Z → list Z → nat → option (list Z).
(** [FullBlock.from_bytes(constants.GENESIS_BLOCK).proof_of_space.challenge_hash]
    and [constants.DIFFICULTY_STARTING]. *)
Variable genesis_challenge : bytes32.
Variable DIFFICULTY_STARTING : Z.

Definition timeout : Z := 50.
Definition sleep_interval : Z := 3.
Definition sleep_interval_short : Z := 1.

Definition suspend : M W unit := λ w,
  (Val tt, {| node := deliver (ticks w) (node w); trace := trace w;
              submitted := submitted w; ticks := S (ticks w) |}).

Definition time_time : M W Z := λ w,
  (Val (clock (ticks w)),
   {| node := node w; trace := trace w;
      submitted := submitted w; ticks := S (ticks w) |}).

(** [await peer.send_message(msg)]. *)
Definition peer_send (msg : Message) : M W unit :=
  do emit (peer_send_message msg) then suspend.

(** [await self.server.send_to_all([msg], NodeType.FULL_NODE)]. *)
Definition send_to_all (msg : Message) : M W unit :=
  let* self := get_self in
  match server self with
  | None => raise AttributeError
  | Some _ => do emit (server_send_to_all msg) then suspend
  end.

(** [for x in xs] with the local variables of the enclosing scope threaded
    through as [s]. *)
Fixpoint for_fold {A S} (xs : list A) (s : S) (body : S → A → M W S) : M W S :=
  match xs with
  | [] => ret s
  | x :: xs' => let* s' := body s x in for_fold xs' s' body
  end.

(** *** Phase A: skeleton *)

(** The four assignments that open the run. *)
Definition sync_reset (self : WalletNode W) : WalletNode W :=
  set_potential_header_hashes ∅
    (set_proof_hashes []
       (set_header_hashes_error false
          (set_header_hashes [] self))).

Fixpoint wait_header_hashes (fuel : nat) (start_wait : Z) : M W unit :=
  match fuel with
  | O => out_of_fuel
  | S fuel' =>
      let* now := time_time in
      if bool_decide (now - start_wait < 1000 * timeout) then
        let* self := get_self in
        if _shut_down self then exit else
        if header_hashes_error self then raise ValueError else
        if bool_decide (0 < length (header_hashes self))%nat then ret tt else
        do suspend then wait_header_hashes fuel' start_wait
      else ret tt
  end.

(** *** Phase B: fork point and target *)

Definition tip_height (header_hashes : list bytes32) : Z :=
  if bool_decide (Z.of_nat (length header_hashes) > 5)
  then Z.of_nat (length header_hashes) - 5
  else Z.of_nat (length header_hashes).

(** [for height in range(0, tip_height + 1):
       self.potential_blocks_received[uint32(height)] = asyncio.Event()]. *)
Definition fresh_events (tip : Z) (events : gmap Z bool) : gmap Z bool :=
  foldl (λ m height, <[height := false]> m) events (range 0 (tip + 1)).

(** The opening of the run: the guards, the reset of the sync data and the
    request for the skeleton. *)
Definition sync_request_skeleton : M W unit :=
  let* self := get_self in
  match server self with
  | None => exit
  | Some _ =>
  match wallet_state_manager self, backup_initialized self with
  | None, _ | _, false => exit
  | Some _, true =>
      do modify_self sync_reset then
      peer_send (request_all_header_hashes_after 0 genesis_challenge)
  end
  end.

(** Phases A and B; the result is [fork_point_height], [fork_point_hash]
    and [tip_height]. *)
Definition sync_skeleton (fuel : nat) : M W (Z * bytes32 * Z) :=
  do sync_request_skeleton then
  let* start_wait := time_time in
  do wait_header_hashes fuel start_wait then
  let* self := get_self in
  if bool_decide (length (header_hashes self) = 0%nat) then raise TimeoutError else
  let* wsm := get_wsm in
  let fork_point_height :=
    find_fork_point_alternate_chain wsm (header_hashes self) in
  let* fork_point_hash := list_get (header_hashes self) fork_point_height in
  let tip := tip_height (header_hashes self) in
  do (if new_wallet wsm && bool_decide (fork_point_height = 0) then
        modify_self (set_config (λ c,
          {| starting_height := Z.max 0 (tip - start_height_buffer c);
             start_height_buffer := start_height_buffer c;
             num_sync_batches := num_sync_batches c;
             full_node_peer := full_node_peer c |}))
      else ret tt)
  then
  do modify_self (λ self,
       set_potential_blocks_received
         (fresh_events tip (potential_blocks_received self)) self)
  then ret (fork_point_height, fork_point_hash, tip).

(** *** Phase C: proof sampling *)

Fixpoint wait_proof_hashes (fuel : nat) (start_wait : Z) : M W unit :=
  match fuel with
  | O => out_of_fuel
  | S fuel' =>
      let* now := time_time in
      if bool_decide (now - start_wait < 1000 * timeout) then
        let* self := get_self in
        if _shut_down self then exit else
        if bool_decide (0 < length (proof_hashes self))%nat then ret tt else
        do suspend then wait_proof_hashes fuel' start_wait
      else ret tt
  end.

(** The map from height to difficulty: the candidate heights and their
    weights ([heights], [difficulty_weights]). *)
Definition difficulty_map (fork_point_height tip : Z)
    (proofs : list ProofHashTriple) : M W (list Z * list Z) :=
  let* r :=
    for_fold (range 0 tip) ([], [], 0)
      (λ '(heights, difficulty_weights, difficulty) i,
         let* triple := list_get proofs i in
         let difficulty :=
           match triple.1.2 with
           | Some d => d
           | None => difficulty
           end in
         if bool_decide (i > fork_point_height + 1) && bool_decide (i `mod` 2 = 1)
         then ret (heights ++ [i], difficulty_weights ++ [difficulty], difficulty)
         else ret (heights, difficulty_weights, difficulty)) in
  ret (r.1.1, r.1.2).

(** [sorted(list(set(xs)))]. *)
Definition sorted_set (xs : list Z) : list Z :=
  merge_sort Z.le (remove_dups xs).

Definition expand_query_heights (query_heights_odd : list Z) : list Z :=
  foldl (λ query_heights odd_height,
           query_heights ++ [odd_height - 1; odd_height])
        [] query_heights_odd.

(** The local variables of the two request loops. *)
Record RequestState := {
  last_request_time : Z;
  highest_height_requested : Z;
  request_made : bool;
}.

Definition is_set (events : gmap Z bool) (h : Z) : M W bool :=
  dict_get events h.

(** [await asyncio.wait_for(event.wait(), timeout=sleep_interval)]: the
    event object is looked up, the task is suspended, and the wait ends
    with the flag set ([true]) or with a timeout ([false]). *)
Definition wait_for_event (h : Z) : M W bool :=
  let* self := get_self in
  let* _ := is_set (potential_blocks_received self) h in
  do suspend then
  let* self := get_self in
  ret (default false (potential_blocks_received self !! h)).

Definition sample_batch (query_heights : list Z) (rs : RequestState)
    (batch_start_index : Z) : M W RequestState :=
  let* self := get_self in
  if _shut_down self then exit else
  let* q := list_get query_heights batch_start_index in
  let* flag := is_set (potential_blocks_received self) q in
  let blocks_missing := negb flag in
  let* now := time_time in
  if (bool_decide (now - last_request_time rs > 1000 * sleep_interval)
      && blocks_missing)
     || bool_decide (q > highest_height_requested rs)
  then
    let highest :=
      if bool_decide (q > highest_height_requested rs) then q
      else highest_height_requested rs in
    let* hh := list_get (header_hashes self) q in
    do send_to_all (request_header q hh) then
    ret {| last_request_time := last_request_time rs;
           highest_height_requested := highest;
           request_made := true |}
  else ret rs.

Fixpoint sample_wait (fuel : nat) (query_heights : list Z) (height_index : Z)
    (total_time_slept : Z) (rs : RequestState) : M W RequestState :=
  match fuel with
  | O => out_of_fuel
  | S fuel' =>
      let* self := get_self in
      if _shut_down self then exit else
      if bool_decide (total_time_slept > timeout) then raise TimeoutError else
      let* rs :=
        for_fold
          (range height_index
             (Z.min (height_index + num_sync_batches (config self))
                    (Z.of_nat (length query_heights))))
          rs (sample_batch query_heights) in
      let* rs :=
        if request_made rs then
          let* now := time_time in
          ret {| last_request_time := now;
                 highest_height_requested := highest_height_requested rs;
                 request_made := false |}
        else ret rs in
      let* q := list_get query_heights height_index in
      let* arrived := wait_for_event q in
      if arrived then ret rs
      else sample_wait fuel' query_heights height_index
             (total_time_slept + sleep_interval) rs
  end.

(** Phase C up to the validation: the result is [query_heights_odd]. *)
Definition sync_sample (fuel : nat) (fork_point_height tip : Z) : M W (list Z) :=
  do peer_send request_all_proof_hashes then
  let* start_wait := time_time in
  do wait_proof_hashes fuel start_wait then
  let* self := get_self in
  if bool_decide (length (proof_hashes self) = 0%nat) then raise TimeoutError else
  if bool_decide (Z.of_nat (length (proof_hashes self)) < tip) then raise ValueError else
  let* (heights, difficulty_weights) :=
    difficulty_map fork_point_height tip (proof_hashes self) in
  match random_choices heights difficulty_weights
          (Nat.min 100 (length heights)) with
  | None => raise IndexError
  | Some chosen =>
      let query_heights_odd := sorted_set chosen in
      let query_heights := expand_query_heights query_heights_odd in
      let* _ :=
        for_fold (range 0 (Z.of_nat (length query_heights)))
          {| last_request_time := 0; highest_height_requested := 0;
             request_made := false |}
          (λ rs height_index, sample_wait fuel query_heights height_index 0 rs) in
      ret query_heights_odd
  end.

(** [await self.wallet_state_manager.receive_block(block_record, None)]
    followed by the assertion on its result. *)
Definition submit_synthesized (block_record : BlockRecord.t) : M W unit :=
  let* res := call_receive_block block_record None in
  do suspend then
  assert_ (match res with
           | ADDED_TO_HEAD | ADDED_AS_ORPHAN => true
           | _ => false
           end).

(** Phase C from the validation on: the assertion on the sampler's verdict
    and the loop that adds block records up to the starting height.  The
    result is [header_validate_start_height]. *)
Definition sync_fast_forward (fork_point_height : Z) (fork_point_hash : bytes32)
    (tip : Z) (query_heights_odd : list Z) : M W Z :=
  let* self := get_self in
  let* wsm := get_wsm in
  do assert_ (validate_select_proofs wsm (proof_hashes self) query_heights_odd
                (cached_blocks self) (potential_header_hashes self))
  then
  let* fork_record := dict_get (block_records wsm) fork_point_hash in
  let weight := BlockRecord.weight fork_record in
  let header_validate_start_height :=
    Z.min (Z.max fork_point_height (starting_height (config self) - 1)) (tip + 1) in
  let* difficulty :=
    if bool_decide (fork_point_height = 0) then ret DIFFICULTY_STARTING
    else
      let fork_point_parent_hash := BlockRecord.prev_header_hash fork_record in
      let* fork_point_parent_weight :=
        dict_get (block_records wsm) fork_point_parent_hash in
      ret (weight - BlockRecord.weight fork_point_parent_weight) in
  let* _ :=
    for_fold (range (fork_point_height + 1) (header_validate_start_height + 1))
      (weight, difficulty)
      (λ '(weight, difficulty) height,
         let* self := get_self in
         let* triple := list_get (proof_hashes self) height in
         let '(_, difficulty_change, total_iters) := triple in
         let difficulty :=
           match difficulty_change with
           | Some d => d
           | None => difficulty
           end in
         let weight := difficulty + weight in
         let* hh := list_get (header_hashes self) height in
         let* prev_hh := list_get (header_hashes self) (height - 1) in
         let block_record := {|
           BlockRecord.header_hash := hh;
           BlockRecord.prev_header_hash := prev_hh;
           BlockRecord.height := height;
           BlockRecord.weight := weight;
           BlockRecord.additions := Some [];
           BlockRecord.removals := Some [];
           BlockRecord.total_iters := total_iters;
           BlockRecord.new_challenge_hash := None;
           BlockRecord.timestamp := 0 |} in
         do submit_synthesized block_record then
         ret (weight, difficulty)) in
  ret header_validate_start_height.

(** *** Phase D: forward pipeline *)

Definition forward_batch (tip total_time_slept : Z) (rs : RequestState)
    (batch_start : Z) : M W RequestState :=
  let* self := get_self in
  if _shut_down self then exit else
  if bool_decide (total_time_slept > timeout) then raise TimeoutError else
  let batch_end := Z.min (batch_start + 1) (tip + 1) in
  let* blocks_missing :=
    for_fold (range batch_start batch_end) false
      (λ missing h,
         let* flag := is_set (potential_blocks_received self) h in
         ret (missing || negb flag)) in
  let* now := time_time in
  if (bool_decide (now - last_request_time rs > 1000 * sleep_interval)
      && blocks_missing)
     || bool_decide (batch_end - 1 > highest_height_requested rs)
  then
    let highest :=
      if bool_decide (batch_end - 1 > highest_height_requested rs)
      then batch_end - 1 else highest_height_requested rs in
    let* hh := list_get (header_hashes self) batch_start in
    do send_to_all (request_header batch_start hh) then
    ret {| last_request_time := last_request_time rs;
           highest_height_requested := highest;
           request_made := true |}
  else ret rs.

Fixpoint forward_wait (fuel : nat) (tip height_checkpoint total_time_slept : Z)
    (rs : RequestState) : M W RequestState :=
  match fuel with
  | O => out_of_fuel
  | S fuel' =>
      let* self := get_self in
      let* rs :=
        for_fold
          (range height_checkpoint
             (Z.min (height_checkpoint + num_sync_batches (config self)) (tip + 1)))
          rs (forward_batch tip total_time_slept) in
      let* rs :=
        if request_made rs then
          let* now := time_time in
          ret {| last_request_time := now;
                 highest_height_requested := highest_height_requested rs;
                 request_made := false |}
        else ret rs in
      let* arrived := wait_for_event height_checkpoint in
      if negb arrived then
        forward_wait fuel' tip height_checkpoint
          (total_time_slept + sleep_interval) rs
      else
        let* self := get_self in
        let* hh := dict_get (potential_header_hashes self) height_checkpoint in
        let* wsm := get_wsm in
        if bool_decide (is_Some (block_records wsm !! hh)) then ret rs else
        do suspend then
        let* self := get_self in
        if _shut_down self then exit else
        let total_time_slept := total_time_slept + sleep_interval_short in
        let* wsm := get_wsm in
        if bool_decide (is_Some (block_records wsm !! hh)) then ret rs else
        let* entry := dict_get (cached_blocks self) hh in
        let '(_, hb, tfilter) := entry in
        do _respond_header fuel
             {| header_block := hb; transactions_filter := tfilter |}
        then forward_wait fuel' tip height_checkpoint total_time_slept rs
  end.

Definition sync_forward (fuel : nat) (header_validate_start_height tip : Z)
  : M W unit :=
  let* _ :=
    for_fold (range (header_validate_start_height + 1) (tip + 1))
      {| last_request_time := 0; highest_height_requested := 0;
         request_made := false |}
      (λ rs height_checkpoint, forward_wait fuel tip height_checkpoint 0 rs) in
  (* the closing log line takes max() of the committed heights *)
  let* wsm := get_wsm in
  if bool_decide (height_to_hash wsm = ∅) then raise ValueError else ret tt.

(** *** The whole run *)

Definition _sync (fuel : nat) : M W unit :=
  proc (
    let* (fork_point_height, fork_point_hash, tip) := sync_skeleton fuel in
    let* self := get_self in
    let* header_validate_start_height :=
      if bool_decide (starting_height (config self) = 0)
      then ret fork_point_height
      else
        let* query_heights_odd := sync_sample fuel fork_point_height tip in
        sync_fast_forward fork_point_height fork_point_hash tip query_heights_odd
    in
    sync_forward fuel header_validate_start_height tip).
End Sync.

(** ** A reference state manager

    Used to run the handlers on concrete inputs. *)

(** Modelled from the spec: the [WalletStateManager] facade of §6, whose
    source ([src/wallet/wallet_state_manager.py]) is not available.  Blocks
    are committed only on top of a committed parent; the LCA is the heaviest
    committed block; the sampler's verdict is the [total_iters] check of
    §4.4 (2); no coin is being watched. *)
Module Reference.
Record t := {
  records : gmap bytes32 BlockRecord.t;
  tip : bytes32;
  syncing : bool;
  fresh_wallet : bool;
  heights : gmap Z bytes32;
  not_sent : list TransactionRecord;
  pending_actions : list WalletAction;
}.

Definition receive (s : t) (br : BlockRecord.t) (hb : option HeaderBlock.t)
  : t * ReceiveBlockResult :=
  match records s !! BlockRecord.header_hash br with
  | Some _ => (s, ALREADY_HAVE_BLOCK)
  | None =>
      match records s !! BlockRecord.prev_header_hash br with
      | None => (s, DISCONNECTED_BLOCK)
      | Some _ =>
          let records' := <[BlockRecord.header_hash br := br]> (records s) in
          let tip_weight :=
            default 0 (BlockRecord.weight <$> records s !! tip s) in
          if bool_decide (BlockRecord.weight br > tip_weight) then
            ({| records := records';
                tip := BlockRecord.header_hash br;
                syncing := syncing s; fresh_wallet := fresh_wallet s;
                heights := <[BlockRecord.height br := BlockRecord.header_hash br]>
                             (heights s);
                not_sent := not_sent s;
                pending_actions := pending_actions s |}, ADDED_TO_HEAD)
          else
            ({| records := records'; tip := tip s;
                syncing := syncing s; fresh_wallet := fresh_wallet s;
                heights := heights s; not_sent := not_sent s;
                pending_actions := pending_actions s |}, ADDED_AS_ORPHAN)
      end
  end.

Definition validate (s : t) (proofs : list ProofHashTriple)
    (query_heights_odd : list Z) (cached : gmap bytes32 CachedEntry)
    (hashes : gmap Z bytes32) : bool :=
  forallb (λ h,
    match hashes !! h with
    | None => false
    | Some hh =>
        match cached !! hh, py_index proofs h with
        | Some (_, hb, _), Some (_, _, Some iters) =>
            bool_decide (iters = HeaderBlock.total_iters hb)
        | _, _ => false
        end
    end) query_heights_odd.

Fixpoint agreeing_prefix (s : t) (height : Z) (header_hashes : list bytes32) : Z :=
  match header_hashes with
  | [] => 0
  | hh :: rest =>
      if bool_decide (heights s !! height = Some hh)
      then 1 + agreeing_prefix s (height + 1) rest
      else 0
  end.

Definition fork_point (s : t) (header_hashes : list bytes32) : Z :=
  Z.max 0 (agreeing_prefix s 0 header_hashes - 1).

#[global] Instance manager : StateManager t := {|
  block_records := records;
  lca := tip;
  sync_mode := syncing;
  new_wallet := fresh_wallet;
  height_to_hash := heights;
  tx_store_get_not_sent := not_sent;
  action_store_get_all_pending_actions := pending_actions;
  receive_block := receive;
  get_filter_additions_removals := λ _ _ _, ([], []);
  validate_select_proofs := validate;
  find_fork_point_alternate_chain := fork_point;
|}.
End Reference.

(** ** Concrete runs

    A small chain on which the handlers are evaluated: the block at height
    [n] has hash [1000 + n] and weight [n + 1]. *)

Module Scenario.
Definition hash_at (n : Z) : bytes32 := Z.to_N (1000 + n).

Definition header (n : Z) : HeaderBlock.t := {|
  HeaderBlock.header_hash := hash_at n;
  HeaderBlock.prev_header_hash := hash_at (n - 1);
  HeaderBlock.height := n;
  HeaderBlock.weight := n + 1;
  HeaderBlock.total_iters := 10 * n;
  HeaderBlock.challenge_hash := Z.to_N (3000 + n);
  HeaderBlock.timestamp := n |}.

(** The record [_respond_header] builds from [header n]. *)
Definition pending_record (n : Z) : BlockRecord.t := {|
  BlockRecord.header_hash := hash_at n;
  BlockRecord.prev_header_hash := hash_at (n - 1);
  BlockRecord.height := n;
  BlockRecord.weight := n + 1;
  BlockRecord.additions := None;
  BlockRecord.removals := None;
  BlockRecord.total_iters := Some (10 * n);
  BlockRecord.new_challenge_hash := Some (Z.to_N (3000 + n));
  BlockRecord.timestamp := n |}.

(** The same record once its additions and removals are known to be empty. *)
Definition finished_record (n : Z) : BlockRecord.t := {|
  BlockRecord.header_hash := hash_at n;
  BlockRecord.prev_header_hash := hash_at (n - 1);
  BlockRecord.height := n;
  BlockRecord.weight := n + 1;
  BlockRecord.additions := Some [];
  BlockRecord.removals := Some [];
  BlockRecord.total_iters := Some (10 * n);
  BlockRecord.new_challenge_hash := Some (Z.to_N (3000 + n));
  BlockRecord.timestamp := n |}.

Definition respond (n : Z) : RespondHeader :=
  {| header_block := header n; transactions_filter := [] |}.

Definition cache_entry (n : Z) : CachedEntry := (pending_record n, header n, []).

(** A manager whose only committed block, and LCA, is the one at [n]. *)
Definition manager_at (n : Z) : Reference.t := {|
  Reference.records := {[hash_at n := finished_record n]};
  Reference.tip := hash_at n;
  Reference.syncing := false;
  Reference.fresh_wallet := false;
  Reference.heights := {[n := hash_at n]};
  Reference.not_sent := [];
  Reference.pending_actions := [] |}.

Definition pinned : PeerInfo := {| host := "node.example"; port := 8444 |}.
Definition pinned_resolved : PeerInfo := {| host := "10.0.0.1"; port := 8444 |}.
Definition stranger : PeerInfo := {| host := "10.0.0.2"; port := 8444 |}.
Definition pinned_connection : WSChiaConnection :=
  {| connection_id := 1; get_peer_info := pinned_resolved |}.
Definition stranger_connection : WSChiaConnection :=
  {| connection_id := 2; get_peer_info := stranger |}.
Definition resolver (h : string) : option string :=
  if String.eqb h "node.example" then Some "10.0.0.1"%string else Some h.

Definition settings (start : Z) : Config := {|
  starting_height := start;
  start_height_buffer := 0;
  num_sync_batches := 2;
  full_node_peer := Some pinned |}.

(** A started node on top of [manager_at n] with the given cache. *)
Definition started_node (start n : Z) (cached : gmap bytes32 CachedEntry)
    (future : gmap bytes32 bytes32) : WalletNode Reference.t := {|
  config := settings start;
  server := Some {| get_full_node_connections :=
                      [pinned_connection; stranger_connection] |};
  wallet_state_manager := Some (manager_at n);
  backup_initialized := true;
  cached_blocks := cached;
  future_block_hashes := future;
  proof_hashes := [];
  header_hashes := [];
  header_hashes_error := false;
  potential_blocks_received := ∅;
  potential_header_hashes := ∅;
  short_sync_threshold := 15;
  _shut_down := false |}.

Definition world_of (self : WalletNode Reference.t) : World Reference.t :=
  {| node := self; trace := []; submitted := []; ticks := 0 |}.

(** Steady state at LCA height 200, nothing cached. *)
Definition steady : World Reference.t := world_of (started_node 0 200 ∅ ∅).

(** Steady state at LCA height 200 with the block at 202 waiting for 201,
    and two old entries at heights 100 and 101. *)
Definition waiting : World Reference.t :=
  world_of (started_node 0 200
    (<[hash_at 202 := cache_entry 202]>
       (<[hash_at 101 := cache_entry 101]> {[hash_at 100 := cache_entry 100]}))
    {[hash_at 201 := hash_at 202]}).

(** A node whose state manager is open and holds an unsent transaction
    and a pending action, while the backup decision is still outstanding
    (as in [_start] before it gives up). *)
Definition awaiting_backup : World Reference.t :=
  world_of {|
    config := settings 0;
    server := Some {| get_full_node_connections := [pinned_connection] |};
    wallet_state_manager := Some {|
      Reference.records := {[hash_at 200 := finished_record 200]};
      Reference.tip := hash_at 200;
      Reference.syncing := false;
      Reference.fresh_wallet := false;
      Reference.heights := {[200 := hash_at 200]};
      Reference.not_sent := [{| tx_name := 7%N; spend_bundle := Some 77%N |}];
      Reference.pending_actions :=
        [{| action_name := "request_generator"; action_data := "{}" |}] |};
    backup_initialized := false;
    cached_blocks := ∅;
    future_block_hashes := ∅;
    proof_hashes := [];
    header_hashes := [];
    header_hashes_error := false;
    potential_blocks_received := ∅;
    potential_header_hashes := ∅;
    short_sync_threshold := 15;
    _shut_down := false |}.

Definition parse_action (data : string) : option (option N * option Z) :=
  Some (Some (hash_at 200), Some 200).

(** *** An environment for [_sync] *)

Definition chain : list bytes32 := hash_at <$> seqZ 0 10.
Definition proofs : list ProofHashTriple :=
  (λ n, (Z.to_N (2000 + n), None, Some (10 * n))) <$> seqZ 0 10.

(** The header the peer serves at height 3 reports [bad_iters] iterations. *)
Definition served (bad_iters : Z) (n : Z) : CachedEntry :=
  let hb := header n in
  let hb' := {|
    HeaderBlock.header_hash := HeaderBlock.header_hash hb;
    HeaderBlock.prev_header_hash := HeaderBlock.prev_header_hash hb;
    HeaderBlock.height := n;
    HeaderBlock.weight := HeaderBlock.weight hb;
    HeaderBlock.total_iters := if bool_decide (n = 3) then bad_iters else 10 * n;
    HeaderBlock.challenge_hash := HeaderBlock.challenge_hash hb;
    HeaderBlock.timestamp := n |} in
  (pending_record n, hb', []).

(** The peer answers every request before the orchestrator resumes. *)
Definition peer_answers (bad_iters : Z) (t : nat) (self : WalletNode Reference.t)
  : WalletNode Reference.t :=
  set_potential_header_hashes {[2 := hash_at 2; 3 := hash_at 3]}
    (set_cached_blocks
       (<[hash_at 2 := served bad_iters 2]> {[hash_at 3 := served bad_iters 3]})
       (set_potential_blocks_received
          ((λ _, true) <$> potential_blocks_received self)
          (set_proof_hashes proofs (set_header_hashes chain self)))).

(** Another task shuts the node down at the first scheduling point. *)
Definition shut_down_at_once (t : nat) (self : WalletNode Reference.t)
  : WalletNode Reference.t := {|
  config := config self; server := server self;
  wallet_state_manager := wallet_state_manager self;
  backup_initialized := backup_initialized self;
  cached_blocks := cached_blocks self;
  future_block_hashes := future_block_hashes self;
  proof_hashes := proof_hashes self; header_hashes := header_hashes self;
  header_hashes_error := header_hashes_error self;
  potential_blocks_received := potential_blocks_received self;
  potential_header_hashes := potential_header_hashes self;
  short_sync_threshold := short_sync_threshold self;
  _shut_down := true |}.

(** A peer that serves a skeleton and nothing else. *)
Definition skeleton_only (skeleton : list N) (t : nat)
    (self : WalletNode Reference.t) : WalletNode Reference.t :=
  set_header_hashes skeleton self.

Definition wall_clock (t : nat) : Z := Z.of_nat t.
Definition first_k (population weights : list Z) (k : nat) : option (list Z) :=
  match population with
  | [] => None
  | _ => Some (take k population)
  end.

(** A node at genesis that is asked to start validating at height 3. *)
Definition at_genesis : World Reference.t := world_of (started_node 3 0 ∅ ∅).

(** The worlds a run reaches from [at_genesis] against a peer whose header
    at height 3 reports 31 iterations: after phases A and B, and after the
    sample has been downloaded. *)
Definition after_skeleton : World Reference.t :=
  (sync_skeleton (peer_answers 31) wall_clock 0%N 20 at_genesis).2.
Definition after_sample : World Reference.t :=
  (sync_sample (peer_answers 31) wall_clock first_k 20 0 5 after_skeleton).2.

(** The same node with a signal left over from an earlier run. *)
Definition stale : World Reference.t :=
  world_of (set_potential_blocks_received {[7 := true]} (started_node 3 0 ∅ ∅)).
End Scenario.

(** ** Vocabulary of the further properties *)

(** Every signal that is set has its header hash noted. *)
Definition signals_noted {W} (self : WalletNode W) : Prop :=
  ∀ h, potential_blocks_received self !! h = Some true →
       is_Some (potential_header_hashes self !! h).

(** The two requests the header handler sends to the peer. *)
Definition handler_request (e : Effect) : bool :=
  match e with
  | peer_send_message (request_header _ _) => true
  | peer_send_message (request_additions _ _ _) => true
  | _ => false
  end.

(** A record as the header handler commits it: built from the header block
    that accompanies it, with empty additions and removals. *)
Definition bare_commit (entry : BlockRecord.t * option HeaderBlock.t) : Prop :=
  ∃ block, entry = (without_transactions (record_of_header block), Some block).

(** The hash of the header block kept in a cache entry. *)
Definition cached_header_hash (entry : CachedEntry) : bytes32 :=
  HeaderBlock.header_hash entry.1.2.

(** Every header block in the cache is committed or has its hash in [X]. *)
Definition backlog_within {W} `{StateManager W} (X : gset bytes32) (w : World W)
  : Prop :=
  ∀ wsm k e,
    wallet_state_manager (node w) = Some wsm →
    cached_blocks (node w) !! k = Some e →
    is_Some (block_records wsm !! cached_header_hash e) ∨ cached_header_hash e ∈ X.

(** A manager that watches one puzzle hash: it is the reference manager,
    except that a block whose transactions filter is not empty is taken to
    pay to the watched puzzle hash. *)
Module Watching.
Record t := { inner : Reference.t; watched : bytes32 }.

Definition receive (s : t) (br : BlockRecord.t) (hb : option HeaderBlock.t)
  : t * ReceiveBlockResult :=
  let '(i, res) := Reference.receive (inner s) br hb in
  ({| inner := i; watched := watched s |}, res).

#[global] Instance manager : StateManager t := {|
  block_records := λ s, Reference.records (inner s);
  lca := λ s, Reference.tip (inner s);
  sync_mode := λ s, Reference.syncing (inner s);
  new_wallet := λ s, Reference.fresh_wallet (inner s);
  height_to_hash := λ s, Reference.heights (inner s);
  tx_store_get_not_sent := λ s, Reference.not_sent (inner s);
  action_store_get_all_pending_actions := λ s, Reference.pending_actions (inner s);
  receive_block := receive;
  get_filter_additions_removals := λ s _ filter,
    match filter with
    | [] => ([], [])
    | _ :: _ => ([watched s], [])
    end;
  validate_select_proofs := λ s, Reference.validate (inner s);
  find_fork_point_alternate_chain := λ s, Reference.fork_point (inner s);
|}.
End Watching.

Module MoreScenario.
(** Steady state at LCA height 200 of a wallet that watches puzzle hash 77. *)
Definition watching : World Watching.t :=
  {| node := {|
       config := Scenario.settings 0;
       server := Some {| get_full_node_connections := [Scenario.pinned_connection] |};
       wallet_state_manager :=
         Some {| Watching.inner := Scenario.manager_at 200; Watching.watched := 77%N |};
       backup_initialized := true;
       cached_blocks := ∅;
       future_block_hashes := ∅;
       proof_hashes := [];
       header_hashes := [];
       header_hashes_error := false;
       potential_blocks_received := ∅;
       potential_header_hashes := ∅;
       short_sync_threshold := 15;
       _shut_down := false |};
     trace := []; submitted := []; ticks := 0 |}.

(** The block at [n] with a transactions filter that is not empty. *)
Definition respond_with_filter (n : Z) : RespondHeader :=
  {| header_block := Scenario.header n; transactions_filter := [Byte.x01] |}.

(** Steady state at LCA height 200, where the block at 1201 is queued
    behind 201 but cached with a record at height 100 (101 below 201). *)
Definition stale_successor : World Reference.t :=
  Scenario.world_of (Scenario.started_node 0 200
    {[Scenario.hash_at 1201 := Scenario.cache_entry 100]}
    {[Scenario.hash_at 201 := Scenario.hash_at 1201]}).

(** A sync run of the manager at 200 that waits for the blocks at 201 and
    202 and has seen the one at 201. *)
Definition syncing_manager : Reference.t := {|
  Reference.records := {[Scenario.hash_at 200 := Scenario.finished_record 200]};
  Reference.tip := Scenario.hash_at 200;
  Reference.syncing := true;
  Reference.fresh_wallet := false;
  Reference.heights := {[200 := Scenario.hash_at 200]};
  Reference.not_sent := [];
  Reference.pending_actions := [] |}.

Definition mid_sync : World Reference.t :=
  Scenario.world_of
    (set_potential_header_hashes {[201 := Scenario.hash_at 201]}
       (set_potential_blocks_received {[201 := true; 202 := false]}
          (set_wallet_state_manager (Some syncing_manager)
             (Scenario.started_node 0 200 ∅ ∅)))).

(** A started node with three unsent transactions, one of them without a
    spend bundle, and the given pending actions. *)
Definition queue_manager (actions : list WalletAction) : Reference.t := {|
  Reference.records := {[Scenario.hash_at 200 := Scenario.finished_record 200]};
  Reference.tip := Scenario.hash_at 200;
  Reference.syncing := false;
  Reference.fresh_wallet := false;
  Reference.heights := {[200 := Scenario.hash_at 200]};
  Reference.not_sent :=
    [{| tx_name := 7%N; spend_bundle := Some 77%N |};
     {| tx_name := 8%N; spend_bundle := None |};
     {| tx_name := 9%N; spend_bundle := Some 99%N |}];
  Reference.pending_actions := actions |}.

Definition with_queue (actions : list WalletAction) : World Reference.t :=
  Scenario.world_of
    (set_wallet_state_manager (Some (queue_manager actions))
       (Scenario.started_node 0 200 ∅ ∅)).

Definition generator_action : WalletAction :=
  {| action_name := "request_generator"; action_data := "ok" |}.
Definition other_action : WalletAction :=
  {| action_name := "other"; action_data := "ok" |}.
Definition garbled_action : WalletAction :=
  {| action_name := "other"; action_data := "garbled" |}.

(** Action data that reads as the block at 200 unless it is garbled. *)
Definition read_action (data : string) : option (option N * option Z) :=
  if String.eqb data "ok" then Some (Some (Scenario.hash_at 200), Some 200)
  else None.

(** Proof hashes with a difficulty change at heights 1 and 4. *)
Definition proofs_with_changes : list ProofHashTriple :=
  [(2000%N, None, Some 0); (2001%N, Some 7, Some 10); (2002%N, None, Some 20);
   (2003%N, None, Some 30); (2004%N, Some 9, Some 40); (2005%N, None, Some 50);
   (2006%N, None, Some 60)].

(** No task but the caller touches the node. *)
Definition nobody (t : nat) (self : WalletNode Reference.t) : WalletNode Reference.t :=
  self.

(** A clock that advances by 30 seconds at every reading. *)
Definition slow_clock (t : nat) : Z := 30000 * Z.of_nat t.

(** A started node configured without sync batches, waiting for the block
    at height 5. *)
Definition no_batches : World Reference.t :=
  Scenario.world_of
    (set_potential_blocks_received {[5 := false]}
       (set_config (λ c, {| starting_height := starting_height c;
                            start_height_buffer := start_height_buffer c;
                            num_sync_batches := 0;
                            full_node_peer := full_node_peer c |})
          (Scenario.started_node 0 0 ∅ ∅))).
End MoreScenario.

Section ActionReading.
Variable action_data_of : string → option (option bytes32 * option Z).

(** An action whose data cannot be read: the JSON does not parse or lacks
    [data.action_data], or a [request_generator] action lacks one of the
    two fields read from it. *)
Definition malformed (action : WalletAction) : Prop :=
  match action_data_of (action_data action) with
  | None => True
  | Some (hh, ht) =>
      action_name action = "request_generator"%string ∧ (hh = None ∨ ht = None)
  end.

(** The message a well-formed [request_generator] action stands for. *)
Definition generator_request (action : WalletAction) : option Message :=
  if String.eqb (action_name action) "request_generator" then
    match action_data_of (action_data action) with
    | Some (Some header_hash, Some height) =>
        Some (request_generator height header_hash)
    | _ => None
    end
  else None.
End ActionReading.

(** The unsent transactions as messages. *)
Definition unsent_transactions `{StateManager W} (wsm : W) : list Message :=
  send_transaction <$> omap spend_bundle (tx_store_get_not_sent wsm).

(** The difficulty in force at height [i]: the last change recorded in the
    proof hashes up to and including [i], and 0 before the first. *)
Definition difficulty_at (proofs : list ProofHashTriple) (i : Z) : Z :=
  foldl (λ difficulty (triple : ProofHashTriple), default difficulty triple.1.2)
        0 (take (Z.to_nat (i + 1)) proofs).

(** The heights the sampler draws from: odd and more than one above the
    fork point. *)
Definition candidate (fork_point_height i : Z) : Prop :=
  i > fork_point_height + 1 ∧ i `mod` 2 = 1.

#[global] Instance candidate_dec fork_point_height i :
  Decision (candidate fork_point_height i).
Proof. unfold candidate. apply _. Defined.


(** A record as the fast sync builds it from the proof hashes: without a
    header block, with empty additions and removals, no challenge hash and
    timestamp 0. *)
Definition synthesized (entry : BlockRecord.t * option HeaderBlock.t) : Prop :=
  entry.2 = None
  ∧ BlockRecord.additions entry.1 = Some []
  ∧ BlockRecord.removals entry.1 = Some []
  ∧ BlockRecord.new_challenge_hash entry.1 = None
  ∧ BlockRecord.timestamp entry.1 = 0.

(** ** Keys and life cycle: [get_key_for_fingerprint], [_start], [_close],
    [_await_closed], [_set_server], [_pending_tx_handler],
    [_set_state_changed_callback], [_periodically_check_full_node] *)

(** A [PrivateKey], a callback and a backup file are handled by the node
    as opaque values. *)
Abbreviation PrivateKey := N (only parsing).
Abbreviation Callback := N (only parsing).
Abbreviation BackupFile := string (only parsing).

Section KeySelection.
(** [sk.get_g1().get_fingerprint()]. *)
Variable get_fingerprint : PrivateKey → Z.

(** [for sk, _ in private_keys: if ... == fingerprint: private_key = sk; break]. *)
Fixpoint first_with_fingerprint (fingerprint : Z)
    (private_keys : list (PrivateKey * bytes)) : option PrivateKey :=
  match private_keys with
  | [] => None
  | (sk, _) :: rest =>
      if bool_decide (get_fingerprint sk = fingerprint) then Some sk
      else first_with_fingerprint fingerprint rest
  end.

(** [private_keys] is the answer of [self.keychain.get_all_private_keys()];
    the warning logged when it is empty is left out. *)
Definition get_key_for_fingerprint (private_keys : list (PrivateKey * bytes))
    (fingerprint : option Z) : option PrivateKey :=
  if bool_decide (length private_keys = 0%nat) then None else
  match fingerprint with
  | Some fingerprint => first_with_fingerprint fingerprint private_keys
  | None =>
      match private_keys with
      | (sk, _) :: _ => Some sk
      | [] => None
      end
  end.
End KeySelection.

(** The part of [WalletStateManager], of its [user_settings] and of
    [open_backup_file] that the life cycle of the node relies on; these
    calls are taken to succeed, except the reading of the backup file. *)
Class Launcher (W : Type) := {
  (** [await WalletStateManager.create(private_key, config, path, constants)] *)
  create : PrivateKey → Config → W;
  private_key : W → PrivateKey;
  (** [user_settings.get_backup_settings().user_initialized] *)
  user_initialized : W → bool;
  user_created_new_wallet : W → W;
  (** [wallet_state_manager.new_wallet = True] *)
  mark_new_wallet : W → W;
  user_skipped_backup_import : W → W;
  import_backup_info : BackupFile → W → W;
  set_callback : Callback → W → W;
  (** [set_pending_callback(self._pending_tx_handler)] *)
  set_pending_callback : W → W;
  (** [open_backup_file(backup_file, private_key)["data"]] read at
      ["start_height"]: [None] when the file cannot be read, [Some None]
      when the key is absent. *)
  open_backup_file : BackupFile → PrivateKey → option (option Z);
}.

(** The coroutines the node hands to the event loop or awaits. *)
Inductive Task (W : Type) :=
| close_all_stores (wsm : W)
| wallet_peers_start
| wallet_peers_ensure_is_closed
| periodically_check_full_node
| resend_queue.
Arguments close_all_stores {W} _.
Arguments wallet_peers_start {W}.
Arguments wallet_peers_ensure_is_closed {W}.
Arguments periodically_check_full_node {W}.
Arguments resend_queue {W}.

(** The node together with the attributes that only the life cycle
    touches.  [wallet_peers] is [None] until [_set_server] assigns it;
    [created] lists the tasks that [_set_server], [_close], [_start] and
    [_pending_tx_handler] pass to [asyncio.create_task] or
    [asyncio.ensure_future], [awaited] the coroutines and tasks awaited to
    their end, both in order.  The [asyncio.ensure_future(connection.close())]
    of [has_full_node] is not listed there: it is the effect
    [connection_close] in the trace of the world. *)
Record Runtime (W : Type) := {
  world : World W;
  keychain : list (PrivateKey * bytes);
  state_changed_callback : option Callback;
  wsm_close_task : option (Task W);
  wallet_peers : option ChiaServer;
  wallet_peers_task : option (Task W);
  created : list (Task W);
  awaited : list (Task W);
}.
Arguments world {W} _.
Arguments keychain {W} _.
Arguments state_changed_callback {W} _.
Arguments wsm_close_task {W} _.
Arguments wallet_peers {W} _.
Arguments wallet_peers_task {W} _.
Arguments created {W} _.
Arguments awaited {W} _.

Section LifeCycle.
Context {W : Type} `{StateManager W} `{Launcher W}.
Implicit Type rt : Runtime W.

Definition set_server (s : option ChiaServer) (self : WalletNode W) : WalletNode W :=
  {| config := config self; server := s;
     wallet_state_manager := wallet_state_manager self;
     backup_initialized := backup_initialized self;
     cached_blocks := cached_blocks self;
     future_block_hashes := future_block_hashes self;
     proof_hashes := proof_hashes self; header_hashes := header_hashes self;
     header_hashes_error := header_hashes_error self;
     potential_blocks_received := potential_blocks_received self;
     potential_header_hashes := potential_header_hashes self;
     short_sync_threshold := short_sync_threshold self;
     _shut_down := _shut_down self |}.

Definition set_backup_initialized (b : bool) (self : WalletNode W) : WalletNode W :=
  {| config := config self; server := server self;
     wallet_state_manager := wallet_state_manager self;
     backup_initialized := b;
     cached_blocks := cached_blocks self;
     future_block_hashes := future_block_hashes self;
     proof_hashes := proof_hashes self; header_hashes := header_hashes self;
     header_hashes_error := header_hashes_error self;
     potential_blocks_received := potential_blocks_received self;
     potential_header_hashes := potential_header_hashes self;
     short_sync_threshold := short_sync_threshold self;
     _shut_down := _shut_down self |}.

Definition set__shut_down (b : bool) (self : WalletNode W) : WalletNode W :=
  {| config := config self; server := server self;
     wallet_state_manager := wallet_state_manager self;
     backup_initialized := backup_initialized self;
     cached_blocks := cached_blocks self;
     future_block_hashes := future_block_hashes self;
     proof_hashes := proof_hashes self; header_hashes := header_hashes self;
     header_hashes_error := header_hashes_error self;
     potential_blocks_received := potential_blocks_received self;
     potential_header_hashes := potential_header_hashes self;
     short_sync_threshold := short_sync_threshold self;
     _shut_down := b |}.

(** The runtime with the node changed by [f]. *)
Definition on_node (f : WalletNode W → WalletNode W) rt : Runtime W :=
  {| world := with_node (f (node (world rt))) (world rt);
     keychain := keychain rt;
     state_changed_callback := state_changed_callback rt;
     wsm_close_task := wsm_close_task rt;
     wallet_peers := wallet_peers rt;
     wallet_peers_task := wallet_peers_task rt;
     created := created rt; awaited := awaited rt |}.

(** [asyncio.create_task(task)] and [asyncio.ensure_future(task)]. *)
Definition create_task (task : Task W) rt : Runtime W :=
  {| world := world rt; keychain := keychain rt;
     state_changed_callback := state_changed_callback rt;
     wsm_close_task := wsm_close_task rt;
     wallet_peers := wallet_peers rt;
     wallet_peers_task := wallet_peers_task rt;
     created := created rt ++ [task]; awaited := awaited rt |}.

(** [await task]. *)
Definition await (task : Task W) rt : Runtime W :=
  {| world := world rt; keychain := keychain rt;
     state_changed_callback := state_changed_callback rt;
     wsm_close_task := wsm_close_task rt;
     wallet_peers := wallet_peers rt;
     wallet_peers_task := wallet_peers_task rt;
     created := created rt; awaited := awaited rt ++ [task] |}.

Definition set_state_changed_callback (c : option Callback) rt : Runtime W :=
  {| world := world rt; keychain := keychain rt;
     state_changed_callback := c;
     wsm_close_task := wsm_close_task rt;
     wallet_peers := wallet_peers rt;
     wallet_peers_task := wallet_peers_task rt;
     created := created rt; awaited := awaited rt |}.

Definition set_wsm_close_task (t : option (Task W)) rt : Runtime W :=
  {| world := world rt; keychain := keychain rt;
     state_changed_callback := state_changed_callback rt;
     wsm_close_task := t;
     wallet_peers := wallet_peers rt;
     wallet_peers_task := wallet_peers_task rt;
     created := created rt; awaited := awaited rt |}.

Definition set_wallet_peers (p : option ChiaServer) rt : Runtime W :=
  {| world := world rt; keychain := keychain rt;
     state_changed_callback := state_changed_callback rt;
     wsm_close_task := wsm_close_task rt;
     wallet_peers := p;
     wallet_peers_task := wallet_peers_task rt;
     created := created rt; awaited := awaited rt |}.

Definition set_wallet_peers_task (t : option (Task W)) rt : Runtime W :=
  {| world := world rt; keychain := keychain rt;
     state_changed_callback := state_changed_callback rt;
     wsm_close_task := wsm_close_task rt;
     wallet_peers := wallet_peers rt;
     wallet_peers_task := t;
     created := created rt; awaited := awaited rt |}.

(** [WalletNode.__init__] with its keychain. *)
Definition init_runtime (cfg : Config) (keys : list (PrivateKey * bytes)) : Runtime W :=
  {| world := {| node := __init__ cfg; trace := []; submitted := []; ticks := 0 |};
     keychain := keys;
     state_changed_callback := None;
     wsm_close_task := None;
     wallet_peers := None;
     wallet_peers_task := None;
     created := []; awaited := [] |}.

(** A method of the node run on the runtime. *)
Definition lift {A} (m : M W A) rt : outcome A * Runtime W :=
  let '(r, w) := m (world rt) in
  (r, {| world := w; keychain := keychain rt;
         state_changed_callback := state_changed_callback rt;
         wsm_close_task := wsm_close_task rt;
         wallet_peers := wallet_peers rt;
         wallet_peers_task := wallet_peers_task rt;
         created := created rt; awaited := awaited rt |}).

(** The arguments [config["target_peer_count"]] and the like of
    [WalletPeers(...)] are taken to be present. *)
Definition _set_server (srv : ChiaServer) rt : outcome unit * Runtime W :=
  let rt := on_node (set_server (Some srv)) rt in
  let rt := set_wallet_peers (Some srv) rt in
  (Val tt, create_task wallet_peers_start rt).

Definition _close rt : outcome unit * Runtime W :=
  let rt := on_node (set__shut_down true) rt in
  match wallet_state_manager (node (world rt)) with
  | None => (Val tt, rt)
  | Some wsm =>
      let rt := set_wsm_close_task (Some (close_all_stores wsm))
                  (create_task (close_all_stores wsm) rt) in
      match wallet_peers rt with
      | None => (Raise AttributeError, rt)
      | Some _ =>
          (Val tt,
           set_wallet_peers_task (Some wallet_peers_ensure_is_closed)
             (create_task wallet_peers_ensure_is_closed rt))
      end
  end.

Definition _await_closed rt : outcome unit * Runtime W :=
  match wallet_state_manager (node (world rt)), backup_initialized (node (world rt)) with
  | None, _ | _, false => (Val tt, rt)
  | Some _, true =>
      let rt :=
        match wsm_close_task rt with
        | Some task => set_wsm_close_task None (await task rt)
        | None => rt
        end in
      (Val tt, on_node (set_wallet_state_manager None) rt)
  end.

Definition _pending_tx_handler rt : outcome unit * Runtime W :=
  match wallet_state_manager (node (world rt)), backup_initialized (node (world rt)) with
  | None, _ | _, false => (Val tt, rt)
  | Some _, true => (Val tt, create_task resend_queue rt)
  end.

Definition _set_state_changed_callback (callback : Callback) rt
  : outcome unit * Runtime W :=
  let rt := set_state_changed_callback (Some callback) rt in
  match wallet_state_manager (node (world rt)) with
  | None => (Val tt, rt)
  | Some wsm =>
      (Val tt,
       on_node (set_wallet_state_manager
                  (Some (set_pending_callback (set_callback callback wsm)))) rt)
  end.

Section Periodic.
Variable gethostbyname : string → option string.
Variable deliver : nat → WalletNode W → WalletNode W.

(** [while not self._shut_down and tries < 5], cut off after [fuel] turns. *)
Fixpoint check_full_node_loop (fuel : nat) (tries : Z) rt
  : outcome unit * Runtime W :=
  match fuel with
  | O => (Fuel, rt)
  | S fuel' =>
      if negb (_shut_down (node (world rt))) && bool_decide (tries < 5) then
        match lift (has_full_node gethostbyname) rt with
        | (Val true, rt) =>
            match wallet_peers rt with
            | None => (Raise AttributeError, rt)
            | Some _ => (Val tt, await wallet_peers_ensure_is_closed rt)
            end
        | (Val false, rt) =>
            match lift (suspend deliver) rt with
            | (_, rt) => check_full_node_loop fuel' (tries + 1) rt
            end
        | (Exit, rt) => (Exit, rt)
        | (Raise e, rt) => (Raise e, rt)
        | (Fuel, rt) => (Fuel, rt)
        end
      else (Val tt, rt)
  end.

Definition _periodically_check_full_node (fuel : nat) rt : outcome unit * Runtime W :=
  check_full_node_loop fuel 0 rt.
End Periodic.

Section Start.
Variable get_fingerprint : PrivateKey → Z.

Definition _start (fingerprint : option Z) (new_wallet : bool)
    (backup_file : option BackupFile) (skip_backup_import : bool) rt
  : outcome bool * Runtime W :=
  match get_key_for_fingerprint get_fingerprint (keychain rt) fingerprint with
  | None => (Val false, rt)
  | Some private_key_ =>
      let wsm := create private_key_ (config (node (world rt))) in
      let rt := on_node (set_wallet_state_manager (Some wsm)) rt in
      let rt := set_wsm_close_task None rt in
      let initialized :=
        if user_initialized wsm then Some wsm
        else if new_wallet then Some (mark_new_wallet (user_created_new_wallet wsm))
        else if skip_backup_import then Some (user_skipped_backup_import wsm)
        else match backup_file with
             | Some file => Some (import_backup_info file wsm)
             | None => None
             end in
      match initialized with
      | None =>
          let rt := on_node (set_backup_initialized false) rt in
          let rt := await (close_all_stores wsm) rt in
          (Val false, on_node (set_wallet_state_manager None) rt)
      | Some wsm =>
          let rt := on_node (set_wallet_state_manager (Some wsm)) rt in
          let rt := on_node (set_backup_initialized true) rt in
          let starting :=
            match backup_file with
            | Some file =>
                match open_backup_file file (private_key wsm) with
                | None => None
                | Some (Some start_height) =>
                    Some (Z.max 0 (start_height
                                   - start_height_buffer (config (node (world rt)))))
                | Some None => Some 0
                end
            | None => Some 0
            end in
          match starting with
          | None => (Raise ValueError, rt)
          | Some height =>
              let rt :=
                on_node (set_config (λ c,
                  {| starting_height := height;
                     start_height_buffer := start_height_buffer c;
                     num_sync_batches := num_sync_batches c;
                     full_node_peer := full_node_peer c |})) rt in
              let wsm :=
                match state_changed_callback rt with
                | Some callback => set_callback callback wsm
                | None => wsm
                end in
              let rt :=
                on_node (set_wallet_state_manager
                           (Some (set_pending_callback wsm))) rt in
              let rt := on_node (set__shut_down false) rt in
              (Val true, create_task periodically_check_full_node rt)
          end
      end
  end.
End Start.
End LifeCycle.

Module LifeScenario.
(** The steady node of [Scenario] with the attributes of the life cycle:
    peer discovery is set up or not, and nothing is pending. *)
Definition running (discovery : option ChiaServer) : Runtime Reference.t := {|
  world := Scenario.steady;
  keychain := [(11%N, []); (12%N, [])];
  state_changed_callback := None;
  wsm_close_task := None;
  wallet_peers := discovery;
  wallet_peers_task := None;
  created := [];
  awaited := [] |}.

Definition the_server : ChiaServer :=
  {| get_full_node_connections :=
       [Scenario.pinned_connection; Scenario.stranger_connection] |}.

(** A launcher for concrete runs: every wallet opens on the manager at
    height 0 with the backup decision outstanding, a new wallet is marked
    as such, callbacks leave no trace in the manager, and every backup
    file reports start height 120. *)
#[global] Instance launcher : Launcher Reference.t := {|
  create := λ _ _, Scenario.manager_at 0;
  private_key := λ _, 11%N;
  user_initialized := λ _, false;
  user_created_new_wallet := λ s, s;
  mark_new_wallet := λ s,
    {| Reference.records := Reference.records s;
       Reference.tip := Reference.tip s;
       Reference.syncing := Reference.syncing s;
       Reference.fresh_wallet := true;
       Reference.heights := Reference.heights s;
       Reference.not_sent := Reference.not_sent s;
       Reference.pending_actions := Reference.pending_actions s |};
  user_skipped_backup_import := λ s, s;
  import_backup_info := λ _ s, s;
  set_callback := λ _ s, s;
  set_pending_callback := λ s, s;
  open_backup_file := λ _ _, Some (Some 120);
|}.

(** The fingerprint of a key is its number. *)
Definition fingerprint_of (sk : PrivateKey) : Z := Z.of_N sk.
End LifeScenario.

(** ** Vocabulary of the queue of successors *)

(** [k'] is queued behind [k]: the entry of [future_block_hashes] under
    [k] is [k']. *)
Definition queued_behind (m : gmap bytes32 bytes32) (k k' : bytes32) : Prop :=
  m !! k = Some k'.

(** No chain of entries leads from a hash back to itself. *)
Definition acyclic (m : gmap bytes32 bytes32) : Prop :=
  ∀ k, ¬ tc (queued_behind m) k k.

Section Linking.
Context {W : Type}.
(** An order on hashes along which blocks are linked to their parents. *)
Variable rank : bytes32 → nat.

(** The hash of the block ranks above the hash of its parent. *)
Definition ranked (block : HeaderBlock.t) : Prop :=
  (rank (HeaderBlock.prev_header_hash block)
   < rank (HeaderBlock.header_hash block))%nat.

(** Every entry of [future_block_hashes] leads to a hash of higher rank,
    and every cached header block is ranked. *)
Definition linked (self : WalletNode W) : Prop :=
  (∀ k v, future_block_hashes self !! k = Some v → (rank k < rank v)%nat)
  ∧ (∀ k e, cached_blocks self !! k = Some e → ranked e.1.2).
End Linking.



(** ** A sync run next to the header handler

    The wallet has committed the blocks at heights 0 and 1 of
    [Scenario.chain] and is in sync mode; the peer's replies to the header
    requests of the run go through [_respond_header]. *)
Module SyncScenario.
Definition manager_behind : Reference.t := {|
  Reference.records :=
    <[Scenario.hash_at 1 := Scenario.finished_record 1]>
      {[Scenario.hash_at 0 := Scenario.finished_record 0]};
  Reference.tip := Scenario.hash_at 1;
  Reference.syncing := true;
  Reference.fresh_wallet := false;
  Reference.heights := <[1 := Scenario.hash_at 1]> {[0 := Scenario.hash_at 0]};
  Reference.not_sent := [];
  Reference.pending_actions := [] |}.

(** A node on top of [manager_behind] that is asked to start validating
    at height 3. *)
Definition behind : World Reference.t :=
  Scenario.world_of
    (set_wallet_state_manager (Some manager_behind)
       (Scenario.started_node 3 0 ∅ ∅)).

(** The reply of the peer to the request for the header at [n]; the one at
    height 3 reports 31 iterations where the proof hashes say 30. *)
Definition reply (n : Z) : RespondHeader :=
  {| header_block := (Scenario.served 31 n).1.2; transactions_filter := [] |}.

(** The header handler run on the reply for height [n] as a task of its
    own. *)
Definition handle (n : Z) (self : WalletNode Reference.t)
  : WalletNode Reference.t :=
  node (_respond_header 5 (reply n) (Scenario.world_of self)).2.

(** What the other tasks do while [_sync] is suspended: the skeleton is
    stored at the first scheduling point (tick 0, after the request for
    it), the proof hashes after their request (tick 3), and the replies to
    the requests for the headers at 2 and 3 (ticks 7 and 9) are handled by
    [_respond_header]. *)
Definition peer_through_handler (t : nat) (self : WalletNode Reference.t)
  : WalletNode Reference.t :=
  match t with
  | 0%nat => set_header_hashes Scenario.chain self
  | 3%nat => set_proof_hashes Scenario.proofs self
  | 7%nat => handle 2 self
  | 9%nat => handle 3 self
  | _ => self
  end.
End SyncScenario.

(** ** Properties *)

(** *** Running the monad *)

Section MonadFacts.
Context {W : Type}.

Lemma bind_val {A B} (m : M W A) (k : A → M W B) w b w' :
  bind m k w = (Val b, w') →
  ∃ a w1, m w = (Val a, w1) ∧ k a w1 = (Val b, w').
Proof.
  unfold bind. destruct (m w) as [[a| |e|] w1]; try discriminate.
  intros Hk. eauto.
Qed.

Lemma bind_eq {A B} (m : M W A) (k : A → M W B) w a w1 :
  m w = (Val a, w1) → bind m k w = k a w1.
Proof. unfold bind. by intros ->. Qed.

Lemma get_self_val (w : World W) a w1 :
  get_self w = (Val a, w1) → a = node w ∧ w1 = w.
Proof. by intros [= <- <-]. Qed.

Lemma get_wsm_val (w : World W) a w1 :
  get_wsm w = (Val a, w1) → wallet_state_manager (node w) = Some a ∧ w1 = w.
Proof.
  unfold get_wsm. destruct (wallet_state_manager (node w)); [|discriminate].
  by intros [= <- <-].
Qed.

Lemma list_get_val {A} (l : list A) i (w : World W) a w1 :
  list_get l i w = (Val a, w1) → py_index l i = Some a ∧ w1 = w.
Proof.
  unfold list_get. destruct (py_index l i); [|discriminate].
  by intros [= <- <-].
Qed.

Lemma modify_self_val f (w : World W) a w1 :
  modify_self f w = (Val a, w1) →
  w1 = {| node := f (node w); trace := trace w;
          submitted := submitted w; ticks := ticks w |}.
Proof. by intros [= _ <-]. Qed.

Lemma foldl_delete_lookup `{Countable K} {V} (l : list K) (m : gmap K V) k :
  foldl (λ m h, delete h m) m l !! k
  = if decide (k ∈ l) then None else m !! k.
Proof.
  revert m. induction l as [|x l IH]; intros m.
  - rewrite decide_False; [done | apply not_elem_of_nil].
  - change (foldl (λ m h, delete h m) (delete x m) l !! k = 
            if decide (k ∈ x :: l) then None else m !! k).
    rewrite IH. destruct (decide (k = x)) as [->|Hne].
    + rewrite lookup_delete_eq. rewrite (decide_True (P := x ∈ x :: l)) by left.
      by destruct (decide (x ∈ l)).
    + rewrite lookup_delete_ne by done.
      destruct (decide (k ∈ l)) as [Hin|Hin].
      * rewrite decide_True; [done | by right].
      * rewrite decide_False; [done|]. rewrite elem_of_cons. tauto.
Qed.
End MonadFacts.

(** *** Eviction *)

Section Eviction.
Context {W : Type} `{StateManager W}.

Lemma elem_of_remove_header_hashes (H0 : Z) (cached : gmap bytes32 CachedEntry) hh :
  hh ∈ remove_header_hashes H0 cached ↔
  ∃ e, cached !! hh = Some e ∧ H0 - BlockRecord.height e.1.1 > 100.
Proof.
  unfold remove_header_hashes. rewrite list_elem_of_fmap. split.
  - intros [[k e] [-> Hin]]. apply list_elem_of_filter in Hin as [Hp Hin].
    apply elem_of_map_to_list in Hin. eauto.
  - intros (e & Hl & Hp). exists (hh, e). split; [done|].
    apply list_elem_of_filter. split; [done|]. by apply elem_of_map_to_list.
Qed.

Lemma evict_outdated_lookup (H0 : Z) (cached : gmap bytes32 CachedEntry) hh :
  evict_outdated H0 cached !! hh
  = match cached !! hh with
    | Some e => if decide (H0 - BlockRecord.height e.1.1 > 100) then None else Some e
    | None => None
    end.
Proof.
  unfold evict_outdated. rewrite foldl_delete_lookup.
  destruct (cached !! hh) as [e|] eqn:He.
  - case_decide as Hin.
    + apply elem_of_remove_header_hashes in Hin as (e' & He' & Hp).
      rewrite He in He'. injection He' as <-. by rewrite decide_True.
    + case_decide as Hp; [|done]. exfalso. apply Hin.
      apply elem_of_remove_header_hashes. eauto.
  - by case_decide.
Qed.
End Eviction.

(** *** [_block_finished] *)

Section BlockFinishedFacts.
Context {W : Type} `{StateManager W}.

(** What the tail of [_block_finished] returns; it leaves the world as it
    found it. *)
Lemma next_block_eq (br : BlockRecord.t) (w : World W) :
  next_block br w
  = (match future_block_hashes (node w) !! BlockRecord.header_hash br with
     | None => Val None
     | Some new_hh =>
         match cached_blocks (node w) !! new_hh with
         | Some (_, new_hb, new_tfilter) =>
             Val (Some {| header_block := new_hb;
                          transactions_filter := new_tfilter |})
         | None => Raise KeyError
         end
     end, w).
Proof.
  unfold next_block, bind, get_self, dict_get.
  destruct (future_block_hashes (node w) !! BlockRecord.header_hash br) as [new_hh|];
    [|done].
  by destruct (cached_blocks (node w) !! new_hh) as [[[? ?] ?]|].
Qed.

(** The run of [_block_finished] on a started node whose preconditions
    hold, in terms of the state manager's answer. *)
Lemma block_finished_eq (w : World W) (br : BlockRecord.t) (hb : HeaderBlock.t)
    (tf : option bytes) (wsm wsm' : W) (res : ReceiveBlockResult) :
  wallet_state_manager (node w) = Some wsm →
  backup_initialized (node w) = true →
  is_Some (block_records wsm !! BlockRecord.prev_header_hash br) →
  is_Some (BlockRecord.additions br) →
  is_Some (BlockRecord.removals br) →
  receive_block wsm br (Some hb) = (wsm', res) →
  let received := {|
    node := set_wallet_state_manager (Some wsm') (node w);
    trace := trace w;
    submitted := submitted w ++ [(br, Some hb)];
    ticks := ticks w |} in
  _block_finished br hb tf w
  = match res with
    | DISCONNECTED_BLOCK | INVALID_BLOCK | ALREADY_HAVE_BLOCK =>
        (Val None, received)
    | ADDED_AS_ORPHAN => next_block br received
    | ADDED_TO_HEAD =>
        if sync_mode wsm' then next_block br received
        else next_block br {|
               node := set_cached_blocks
                         (evict_outdated (BlockRecord.height br)
                            (cached_blocks (node w)))
                         (node received);
               trace := trace w;
               submitted := submitted w ++ [(br, Some hb)];
               ticks := ticks w |}
    end.
Proof.
  intros Hw Hb Hprev Ha Hr Hrecv received.
  unfold _block_finished, bind, get_self. simpl.
  rewrite Hw, Hb. rewrite !bool_decide_eq_true_2 by done. simpl.
  unfold call_receive_block. rewrite Hw, Hrecv.
  destruct res; try done. simpl. by destruct (sync_mode wsm').
Qed.

(** C5. When the state manager answers [ADDED_TO_HEAD] for a block at
    height [H] and is not in sync mode, [_block_finished] removes from
    [cached_blocks] exactly the entries whose record lies more than 100
    below [H]: no entry with height [< H - 100] remains, every entry with
    [H - height > 100] is removed, and every other entry, in particular
    one at height [H - 100], is kept as it was. *)
Theorem block_finished_evicts_beyond_horizon
    (w : World W) (br : BlockRecord.t) (hb : HeaderBlock.t) (tf : option bytes)
    (wsm wsm' : W) (out : outcome (option RespondHeader)) (w' : World W) :
  wallet_state_manager (node w) = Some wsm →
  backup_initialized (node w) = true →
  is_Some (block_records wsm !! BlockRecord.prev_header_hash br) →
  is_Some (BlockRecord.additions br) →
  is_Some (BlockRecord.removals br) →
  receive_block wsm br (Some hb) = (wsm', ADDED_TO_HEAD) →
  sync_mode wsm' = false →
  _block_finished br hb tf w = (out, w') →
  let H0 := BlockRecord.height br in
  (∀ hh e, cached_blocks (node w') !! hh = Some e →
           ¬ BlockRecord.height e.1.1 < H0 - 100)
  ∧ (∀ hh e, cached_blocks (node w) !! hh = Some e →
             H0 - BlockRecord.height e.1.1 > 100 →
             cached_blocks (node w') !! hh = None)
  ∧ (∀ hh e, cached_blocks (node w) !! hh = Some e →
             H0 - BlockRecord.height e.1.1 ≤ 100 →
             cached_blocks (node w') !! hh = Some e)
  ∧ (∀ hh, cached_blocks (node w) !! hh = None →
           cached_blocks (node w') !! hh = None).
Proof.
  intros Hw Hb Hprev Ha Hr Hrecv Hsync Hrun H0.
  rewrite (block_finished_eq w br hb tf wsm wsm' ADDED_TO_HEAD) in Hrun by done.
  rewrite Hsync, next_block_eq in Hrun. injection Hrun as _ <-. simpl.
  repeat split; intros hh; [intros e | intros e | intros e | ];
    rewrite evict_outdated_lookup.
  - destruct (cached_blocks (node w) !! hh) as [e'|]; [|done].
    case_decide; [done|]. intros [= <-]. subst H0. lia.
  - intros -> Hold. by rewrite decide_True.
  - intros -> Hyoung. rewrite decide_False; [done | subst H0; lia].
  - by intros ->.
Qed.

(** C1 (as amended). On a started node whose preconditions hold:
    if [future_block_hashes] has no entry for the record's hash,
    [_block_finished] returns none; if the state manager answers
    [ADDED_TO_HEAD] or [ADDED_AS_ORPHAN], the entry exists and its target
    is cached (and not beyond the eviction horizon), the function returns
    the [RespondHeader] built from the target's cached header block and
    filter, and the target's entry is still in [cached_blocks] afterwards:
    it is read, not removed.  For [DISCONNECTED_BLOCK] and [INVALID_BLOCK]
    the function returns none. *)
Theorem block_finished_hands_back_successor
    (w : World W) (br : BlockRecord.t) (hb : HeaderBlock.t) (tf : option bytes)
    (wsm wsm' : W) (res : ReceiveBlockResult)
    (out : outcome (option RespondHeader)) (w' : World W) :
  wallet_state_manager (node w) = Some wsm →
  backup_initialized (node w) = true →
  is_Some (block_records wsm !! BlockRecord.prev_header_hash br) →
  is_Some (BlockRecord.additions br) →
  is_Some (BlockRecord.removals br) →
  receive_block wsm br (Some hb) = (wsm', res) →
  _block_finished br hb tf w = (out, w') →
  (future_block_hashes (node w) !! BlockRecord.header_hash br = None →
   out = Val None)
  ∧ (∀ new_hh r new_hb new_tfilter,
       res = ADDED_TO_HEAD ∨ res = ADDED_AS_ORPHAN →
       future_block_hashes (node w) !! BlockRecord.header_hash br = Some new_hh →
       cached_blocks (node w) !! new_hh = Some (r, new_hb, new_tfilter) →
       (res = ADDED_TO_HEAD → sync_mode wsm' = false →
        BlockRecord.height br - BlockRecord.height r ≤ 100) →
       out = Val (Some {| header_block := new_hb;
                          transactions_filter := new_tfilter |})
       ∧ cached_blocks (node w') !! new_hh = Some (r, new_hb, new_tfilter))
  ∧ (res = DISCONNECTED_BLOCK ∨ res = INVALID_BLOCK → out = Val None).
Proof.
  intros Hw Hb Hprev Ha Hr Hrecv Hrun.
  rewrite (block_finished_eq w br hb tf wsm wsm' res) in Hrun by done.
  split; [|split].
  - intros Hnone.
    destruct res; try (by injection Hrun as <- _);
      [destruct (sync_mode wsm')|];
      rewrite next_block_eq in Hrun; simpl in Hrun;
      rewrite Hnone in Hrun; by injection Hrun as <- _.
  - intros new_hh r new_hb new_tfilter Hres Hfut Hcached Hhorizon.
    destruct Hres as [-> | ->].
    + destruct (sync_mode wsm') eqn:Hsync;
        rewrite next_block_eq in Hrun; simpl in Hrun; rewrite Hfut in Hrun.
      * rewrite Hcached in Hrun. by injection Hrun as <- <-.
      * rewrite evict_outdated_lookup, Hcached in Hrun. simpl in Hrun.
        rewrite decide_False in Hrun by (specialize (Hhorizon eq_refl eq_refl); lia).
        injection Hrun as <- <-. simpl.
        rewrite evict_outdated_lookup, Hcached. simpl.
        rewrite decide_False by (specialize (Hhorizon eq_refl eq_refl); lia).
        done.
    + rewrite next_block_eq in Hrun; simpl in Hrun.
      rewrite Hfut, Hcached in Hrun. by injection Hrun as <- <-.
  - intros [-> | ->]; by injection Hrun as <- _.
Qed.

(** [_block_finished] never touches [future_block_hashes]. *)
Lemma block_finished_future (br : BlockRecord.t) (hb : HeaderBlock.t)
    (tf : option bytes) (w : World W) :
  future_block_hashes (node (_block_finished br hb tf w).2)
  = future_block_hashes (node w).
Proof.
  unfold _block_finished, bind, get_self. simpl.
  destruct (wallet_state_manager (node w)) as [wsm|] eqn:Hw; [|done].
  destruct (backup_initialized (node w)); [|done].
  unfold assert_. case_bool_decide; [|done]. simpl.
  destruct (_ && _); [|done]. simpl.
  unfold call_receive_block. rewrite Hw.
  destruct (receive_block wsm br (Some hb)) as [wsm' res].
  destruct res; try done; simpl.
  - destruct (sync_mode wsm'); simpl; by rewrite next_block_eq.
  - by rewrite next_block_eq.
Qed.
End BlockFinishedFacts.

(** At LCA height 200 the block at 201 becomes the head: the cached entry at
    height 100 goes, the one at height 101 stays. *)
Lemma block_finished_evicts_beyond_horizon_witness :
  let run := _block_finished (Scenario.finished_record 201) (Scenario.header 201)
               None Scenario.waiting in
  cached_blocks (node run.2) !! Scenario.hash_at 100 = None
  ∧ cached_blocks (node run.2) !! Scenario.hash_at 101
    = Some (Scenario.cache_entry 101).
Proof.
  intros run.
  destruct (block_finished_evicts_beyond_horizon
              Scenario.waiting (Scenario.finished_record 201) (Scenario.header 201)
              None (Scenario.manager_at 200)
              (Reference.receive (Scenario.manager_at 200)
                 (Scenario.finished_record 201) (Some (Scenario.header 201))).1
              run.1 run.2)
    as (_ & Hgone & Hkept & _).
  - reflexivity.
  - reflexivity.
  - vm_compute. eexists. reflexivity.
  - vm_compute. eexists. reflexivity.
  - vm_compute. eexists. reflexivity.
  - vm_compute. reflexivity.
  - vm_compute. reflexivity.
  - vm_compute. reflexivity.
  - split.
    + apply (Hgone _ (Scenario.cache_entry 100)); [vm_compute; reflexivity|].
      vm_compute. reflexivity.
    + apply Hkept; [vm_compute; reflexivity|]. vm_compute. discriminate.
Defined.

(** At LCA height 200 with 202 waiting for 201: finishing 201 hands back
    202, whose cache entry is still there. *)
Lemma block_finished_hands_back_successor_witness :
  let run := _block_finished (Scenario.finished_record 201) (Scenario.header 201)
               None Scenario.waiting in
  run.1 = Val (Some (Scenario.respond 202))
  ∧ cached_blocks (node run.2) !! Scenario.hash_at 202
    = Some (Scenario.cache_entry 202).
Proof.
  intros run.
  destruct (block_finished_hands_back_successor
              Scenario.waiting (Scenario.finished_record 201) (Scenario.header 201)
              None (Scenario.manager_at 200)
              (Reference.receive (Scenario.manager_at 200)
                 (Scenario.finished_record 201) (Some (Scenario.header 201))).1
              ADDED_TO_HEAD run.1 run.2)
    as (_ & Hnext & _).
  - reflexivity.
  - reflexivity.
  - vm_compute. eexists. reflexivity.
  - vm_compute. eexists. reflexivity.
  - vm_compute. eexists. reflexivity.
  - vm_compute. reflexivity.
  - vm_compute. reflexivity.
  - apply (Hnext (Scenario.hash_at 202) (Scenario.pending_record 202)
             (Scenario.header 202) []).
    + by left.
    + vm_compute. reflexivity.
    + vm_compute. reflexivity.
    + intros _ _. vm_compute. discriminate.
Defined.

(** C1 as stated fails: in the same run the successor 202 is handed back, and
    its entry has not been removed from [cached_blocks]. *)
Lemma block_finished_does_not_pop :
  let run := _block_finished (Scenario.finished_record 201) (Scenario.header 201)
               None Scenario.waiting in
  future_block_hashes (node Scenario.waiting) !! Scenario.hash_at 201
  = Some (Scenario.hash_at 202)
  ∧ run.1 = Val (Some (Scenario.respond 202))
  ∧ cached_blocks (node run.2) !! Scenario.hash_at 202 ≠ None.
Proof. vm_compute. repeat split; discriminate. Qed.


(** *** [_respond_header] *)

Section RespondHeaderFacts.
Context {W : Type} `{StateManager W}.

(** C6. On a started, running node, a [RespondHeader] whose block is not
    committed, has height at least 1 and whose [prev_hash] is not committed
    makes [_respond_header] insert the block into [cached_blocks], set
    [future_block_hashes[prev_hash] = header_hash], send
    [RequestHeader(height - 1, prev_hash)] to the peer exactly when sync
    mode is off and [height - lca.height < short_sync_threshold], and
    return: the state manager is left as it was and nothing is handed to
    [receive_block]. *)
Theorem respond_header_missing_ancestor
    (fuel : nat) (w : World W) (response : RespondHeader) (wsm : W)
    (lca_record : BlockRecord.t) :
  let block := header_block response in
  wallet_state_manager (node w) = Some wsm →
  backup_initialized (node w) = true →
  _shut_down (node w) = false →
  block_records wsm !! HeaderBlock.header_hash block = None →
  1 ≤ HeaderBlock.height block →
  block_records wsm !! HeaderBlock.prev_header_hash block = None →
  block_records wsm !! lca wsm = Some lca_record →
  ∃ w',
    _respond_header (S fuel) response w = (Val tt, w')
    ∧ cached_blocks (node w')
      = <[HeaderBlock.header_hash block :=
            (record_of_header block, block, transactions_filter response)]>
          (cached_blocks (node w))
    ∧ future_block_hashes (node w')
      = <[HeaderBlock.prev_header_hash block := HeaderBlock.header_hash block]>
          (future_block_hashes (node w))
    ∧ trace w'
      = trace w ++
        (if bool_decide (HeaderBlock.height block - BlockRecord.height lca_record
                         < short_sync_threshold (node w))
            && negb (sync_mode wsm)
         then [peer_send_message
                 (request_header (HeaderBlock.height block - 1)
                    (HeaderBlock.prev_header_hash block))]
         else [])
    ∧ wallet_state_manager (node w') = Some wsm
    ∧ submitted w' = submitted w.
Proof.
  intros block Hw Hb Hrun Hnew Hheight Hprev Hlca.
  unfold _respond_header, proc, bind, get_self. simpl.
  rewrite Hw, Hb. unfold respond_header_turn, bind, get_self, get_wsm. simpl.
  rewrite Hrun, Hw. fold block.
  rewrite bool_decide_eq_false_2 by (rewrite Hnew; by intros [? ?]).
  rewrite bool_decide_eq_false_2 by lia.
  rewrite Hprev. unfold dict_get. rewrite Hlca. simpl.
  assert (short_sync_threshold (arrive (sync_mode wsm) block (node w))
          = short_sync_threshold (node w)
          ∧ cached_blocks (arrive (sync_mode wsm) block (node w))
            = cached_blocks (node w)
          ∧ future_block_hashes (arrive (sync_mode wsm) block (node w))
            = future_block_hashes (node w)
          ∧ wallet_state_manager (arrive (sync_mode wsm) block (node w))
            = wallet_state_manager (node w)) as (Hthreshold & Hcached & Hfuture & Hwsm).
  { unfold arrive, mark_received. destruct (sync_mode wsm); [|done].
    by destruct (potential_blocks_received (node w) !! HeaderBlock.height block). }
  rewrite Hthreshold.
  destruct (_ && _); simpl; eexists; (split; [reflexivity|]); simpl;
    rewrite Hcached, Hfuture, Hwsm, ?app_nil_r; done.
Qed.

(** One turn of the handler on a started node, by cases. *)
Lemma respond_header_turn_cases (response : RespondHeader) (w : World W) (wsm : W) :
  wallet_state_manager (node w) = Some wsm →
  let block := header_block response in
  let cached :=
    cache_response response (arrive (sync_mode wsm) block (node w)) in
  respond_header_turn response w
  = if _shut_down (node w) then (Exit, w) else
    if bool_decide (is_Some (block_records wsm !! HeaderBlock.header_hash block))
    then (Exit, w) else
    if bool_decide (HeaderBlock.height block < 1) then (Exit, w) else
    match block_records wsm !! HeaderBlock.prev_header_hash block with
    | None =>
        let deferred := with_node (defer_to_parent block cached) w in
        match block_records wsm !! lca wsm with
        | None => (Raise KeyError, deferred)
        | Some lca_record =>
            (Exit,
             with_effects
               (if bool_decide (HeaderBlock.height block
                                  - BlockRecord.height lca_record
                                < short_sync_threshold (node w))
                   && negb (sync_mode wsm)
                then [peer_send_message
                        (request_header (HeaderBlock.height block - 1)
                           (HeaderBlock.prev_header_hash block))]
                else [])
               deferred)
        end
    | Some _ =>
        let filtered :=
          get_filter_additions_removals wsm (record_of_header block)
            (transactions_filter response) in
        if bool_decide (0 < length filtered.1)%nat
           || bool_decide (0 < length filtered.2)%nat
        then
          (Exit,
           with_effects
             [peer_send_message
                (request_additions (HeaderBlock.height block)
                   (HeaderBlock.header_hash block) filtered.1)]
             (with_node cached w))
        else
          match _block_finished (without_transactions (record_of_header block))
                  block (Some (transactions_filter response))
                  (with_node cached w) with
          | (Val (Some next), w') => (Val next, w')
          | (Val None, w') => (Exit, w')
          | (Exit, w') => (Exit, w')
          | (Raise e, w') => (Raise e, w')
          | (Fuel, w') => (Fuel, w')
          end
    end.
Proof.
  intros Hw block cached.
  unfold respond_header_turn, bind, get_self, get_wsm. simpl.
  destruct (_shut_down (node w)); [done|]. rewrite Hw. fold block.
  destruct (bool_decide (is_Some (block_records wsm !! HeaderBlock.header_hash block)));
    [done|].
  destruct (bool_decide (HeaderBlock.height block < 1)); [done|].
  subst cached. unfold with_effects, with_node, dict_get. simpl.
  destruct (block_records wsm !! HeaderBlock.prev_header_hash block).
  - destruct (get_filter_additions_removals wsm (record_of_header block)
                (transactions_filter response)) as [additions removals].
    simpl. destruct (_ || _); [done|].
    by destruct (_block_finished _ _ _ _) as [[[next|]| |e|] w'].
  - destruct (block_records wsm !! lca wsm); [|done]. simpl.
    assert (short_sync_threshold (arrive (sync_mode wsm) block (node w))
            = short_sync_threshold (node w)) as ->.
    { unfold arrive, mark_received. destruct (sync_mode wsm); [|done].
      by destruct (potential_blocks_received (node w) !! HeaderBlock.height block). }
    destruct (_ && _); simpl; by rewrite ?app_nil_r.
Qed.

(** [arrive] only touches the two maps of signals. *)
Lemma arrive_frame (sync : bool) (block : HeaderBlock.t) (self : WalletNode W) :
  wallet_state_manager (arrive sync block self) = wallet_state_manager self
  ∧ backup_initialized (arrive sync block self) = backup_initialized self
  ∧ _shut_down (arrive sync block self) = _shut_down self
  ∧ cached_blocks (arrive sync block self) = cached_blocks self
  ∧ future_block_hashes (arrive sync block self) = future_block_hashes self.
Proof.
  unfold arrive, mark_received. destruct sync; [|done].
  by destruct (potential_blocks_received self !! HeaderBlock.height block).
Qed.

(** [_block_finished] keeps the state manager open and the flags as they
    were. *)
Lemma block_finished_frame (br : BlockRecord.t) (hb : HeaderBlock.t)
    (tf : option bytes) (w : World W) (wsm : W) :
  wallet_state_manager (node w) = Some wsm →
  let w' := (_block_finished br hb tf w).2 in
  is_Some (wallet_state_manager (node w'))
  ∧ backup_initialized (node w') = backup_initialized (node w)
  ∧ _shut_down (node w') = _shut_down (node w).
Proof.
  intros Hw. unfold _block_finished, bind, get_self. simpl. rewrite Hw.
  destruct (backup_initialized (node w)) eqn:Hb; [|simpl; rewrite Hw; eauto].
  unfold assert_. case_bool_decide; [|simpl; rewrite Hw; eauto]. simpl.
  destruct (_ && _); [|simpl; rewrite Hw; eauto]. simpl.
  unfold call_receive_block. rewrite Hw.
  destruct (receive_block wsm br (Some hb)) as [wsm' res].
  destruct res; simpl; rewrite ?next_block_eq; simpl; eauto.
  destruct (sync_mode wsm'); simpl; rewrite next_block_eq; simpl; eauto.
Qed.

(** One turn either leaves [future_block_hashes] alone, or ends the handler
    having queued the block behind a parent that is not committed. *)
Lemma respond_header_turn_future (response : RespondHeader) (w w' : World W)
    (wsm : W) (r : outcome RespondHeader) :
  wallet_state_manager (node w) = Some wsm →
  respond_header_turn response w = (r, w') →
  is_Some (wallet_state_manager (node w'))
  ∧ (future_block_hashes (node w') = future_block_hashes (node w)
     ∨ ((∀ next, r ≠ Val next)
        ∧ wallet_state_manager (node w') = Some wsm
        ∧ block_records wsm !! HeaderBlock.prev_header_hash (header_block response) = None
        ∧ future_block_hashes (node w')
          = <[HeaderBlock.prev_header_hash (header_block response) :=
                HeaderBlock.header_hash (header_block response)]>
              (future_block_hashes (node w)))).
Proof.
  intros Hw. rewrite (respond_header_turn_cases response w wsm Hw). cbv zeta.
  set (block := header_block response).
  pose proof (arrive_frame (sync_mode wsm) block (node w))
    as (Haw & _ & _ & _ & Haf).
  destruct (_shut_down (node w)); [intros [= <- <-]; rewrite Hw; eauto|].
  destruct (bool_decide _); [intros [= <- <-]; rewrite Hw; eauto|].
  destruct (bool_decide _); [intros [= <- <-]; rewrite Hw; eauto|].
  destruct (block_records wsm !! HeaderBlock.prev_header_hash block) eqn:Hprev.
  - destruct (_ || _).
    + intros [= <- <-]. simpl. rewrite Haw, Haf, Hw. eauto.
    + pose proof (block_finished_frame (without_transactions (record_of_header block))
                    block (Some (transactions_filter response))
                    (with_node (cache_response response
                                  (arrive (sync_mode wsm) block (node w))) w) wsm)
        as Hframe.
      pose proof (block_finished_future (without_transactions (record_of_header block))
                    block (Some (transactions_filter response))
                    (with_node (cache_response response
                                  (arrive (sync_mode wsm) block (node w))) w))
        as Hfuture.
      simpl in Hframe, Hfuture. rewrite Haw in Hframe. specialize (Hframe Hw).
      rewrite Haf in Hfuture.
      destruct (_block_finished _ _ _ _) as [[[next|]| |e|] w1];
        intros [= <- <-]; simpl in *; split; try tauto.
  - destruct (block_records wsm !! lca wsm);
      intros [= <- <-]; simpl; rewrite Haw, Haf, Hw; split; eauto;
      right; repeat split; done.
Qed.

(** Adding an entry under a key that is not committed. *)
Lemma future_entries_step (records : gmap N BlockRecord.t) (m m' : gmap N N)
    (prev hh : N) :
  m' = m ∨ (records !! prev = None ∧ m' = <[prev := hh]> m) →
  (∀ k v, m !! k = Some v → is_Some (m' !! k))
  ∧ (∀ k, m' !! k ≠ m !! k → records !! k = None).
Proof.
  intros [-> | [Hprev ->]]; [split; [eauto | done]|]. split.
  - intros k v Hk. destruct (decide (prev = k)) as [<-|Hne].
    + rewrite lookup_insert_eq. eauto.
    + rewrite lookup_insert_ne by done. eauto.
  - intros k Hk. destruct (decide (prev = k)) as [<-|Hne]; [done|].
    by rewrite lookup_insert_ne in Hk.
Qed.

(** Over the whole loop: no key is lost, and a key whose entry changed is
    not committed when the handler stops. *)
Lemma respond_header_loop_future (fuel : nat) :
  ∀ (response : RespondHeader) (w w' : World W) (wsm : W) (r : outcome unit),
    wallet_state_manager (node w) = Some wsm →
    respond_header_loop fuel response w = (r, w') →
    (∀ k v, future_block_hashes (node w) !! k = Some v →
            is_Some (future_block_hashes (node w') !! k))
    ∧ (∀ k, future_block_hashes (node w') !! k ≠ future_block_hashes (node w) !! k →
            ∃ wsm', wallet_state_manager (node w') = Some wsm'
                    ∧ block_records wsm' !! k = None).
Proof.
  induction fuel as [|fuel IH]; intros response w w' wsm r Hw Hrun.
  - injection Hrun as <- <-. split; [eauto | done].
  - simpl in Hrun. unfold bind in Hrun.
    destruct (respond_header_turn response w) as [rt wt] eqn:Hturn.
    destruct (respond_header_turn_future response w wt wsm rt Hw Hturn)
      as ([wsmt Hwt] & Hfuture).
    assert ((∀ next, rt ≠ Val next) → w' = wt →
            (∀ k v, future_block_hashes (node w) !! k = Some v →
                    is_Some (future_block_hashes (node w') !! k))
            ∧ (∀ k, future_block_hashes (node w') !! k
                    ≠ future_block_hashes (node w) !! k →
                    ∃ wsm', wallet_state_manager (node w') = Some wsm'
                            ∧ block_records wsm' !! k = None)) as Hstop.
    { intros Hrt ->.
      destruct (future_entries_step (block_records wsm)
                  (future_block_hashes (node w)) (future_block_hashes (node wt))
                  (HeaderBlock.prev_header_hash (header_block response))
                  (HeaderBlock.header_hash (header_block response)))
        as [Hkept Hnew]; [tauto|].
      split; [done|]. intros k Hk.
      destruct Hfuture as [Hsame | (_ & Hsame & _)]; [by rewrite Hsame in Hk|].
      eauto. }
    destruct rt as [next| |e|]; try (injection Hrun as <- <-; by apply Hstop).
    destruct Hfuture as [Hsame | (Hrt & _)]; [|by destruct (Hrt next)].
    rewrite <- Hsame. by apply (IH next wt w' wsmt r).
Qed.


(** **** Replaying a delivery *)

(** Caching a response a second time changes nothing. *)
Lemma cache_arrive_twice (sync : bool) (response : RespondHeader) (self : WalletNode W) :
  let block := header_block response in
  let once := cache_response response (arrive sync block self) in
  cache_response response (arrive sync block once) = once.
Proof.
  intros block once. subst once block.
  destruct self
    as [cfg srv mgr bi cached future proofs hashes herr signals noted sst sd].
  destruct sync;
    cbv [arrive mark_received cache_response defer_to_parent
         set_cached_blocks set_future_block_hashes set_potential_header_hashes
         set_potential_blocks_received set_wallet_state_manager
         config server wallet_state_manager backup_initialized cached_blocks
         future_block_hashes proof_hashes header_hashes header_hashes_error
         potential_blocks_received potential_header_hashes short_sync_threshold
         _shut_down];
    try (destruct (signals !! _) eqn:Hsignal;
         cbv [set_cached_blocks set_future_block_hashes
              set_potential_header_hashes set_potential_blocks_received
              set_wallet_state_manager
              config server wallet_state_manager backup_initialized cached_blocks
              future_block_hashes proof_hashes header_hashes header_hashes_error
              potential_blocks_received potential_header_hashes
              short_sync_threshold _shut_down];
         rewrite ?lookup_insert_eq, ?Hsignal;
         cbv [set_cached_blocks set_future_block_hashes
              set_potential_header_hashes set_potential_blocks_received
              set_wallet_state_manager
              config server wallet_state_manager backup_initialized cached_blocks
              future_block_hashes proof_hashes header_hashes header_hashes_error
              potential_blocks_received potential_header_hashes
              short_sync_threshold _shut_down]);
    rewrite ?insert_insert_eq; reflexivity.
Qed.

Lemma defer_cache_arrive_twice (sync : bool) (response : RespondHeader)
    (self : WalletNode W) :
  let block := header_block response in
  let once := defer_to_parent block (cache_response response (arrive sync block self)) in
  defer_to_parent block (cache_response response (arrive sync block once)) = once.
Proof.
  intros block once. subst once block.
  destruct self
    as [cfg srv mgr bi cached future proofs hashes herr signals noted sst sd].
  destruct sync;
    cbv [arrive mark_received cache_response defer_to_parent
         set_cached_blocks set_future_block_hashes set_potential_header_hashes
         set_potential_blocks_received set_wallet_state_manager
         config server wallet_state_manager backup_initialized cached_blocks
         future_block_hashes proof_hashes header_hashes header_hashes_error
         potential_blocks_received potential_header_hashes short_sync_threshold
         _shut_down];
    try (destruct (signals !! _) eqn:Hsignal;
         cbv [set_cached_blocks set_future_block_hashes
              set_potential_header_hashes set_potential_blocks_received
              set_wallet_state_manager
              config server wallet_state_manager backup_initialized cached_blocks
              future_block_hashes proof_hashes header_hashes header_hashes_error
              potential_blocks_received potential_header_hashes
              short_sync_threshold _shut_down];
         rewrite ?lookup_insert_eq, ?Hsignal;
         cbv [set_cached_blocks set_future_block_hashes
              set_potential_header_hashes set_potential_blocks_received
              set_wallet_state_manager
              config server wallet_state_manager backup_initialized cached_blocks
              future_block_hashes proof_hashes header_hashes header_hashes_error
              potential_blocks_received potential_header_hashes
              short_sync_threshold _shut_down]);
    rewrite ?insert_insert_eq; reflexivity.
Qed.

Lemma receive_cache_arrive_twice (sync : bool) (response : RespondHeader)
    (self : WalletNode W) (wsm : option W) :
  let block := header_block response in
  let once :=
    set_wallet_state_manager wsm (cache_response response (arrive sync block self)) in
  set_wallet_state_manager wsm (cache_response response (arrive sync block once))
  = once.
Proof.
  intros block once. subst once block.
  destruct self
    as [cfg srv mgr bi cached future proofs hashes herr signals noted sst sd].
  destruct sync;
    cbv [arrive mark_received cache_response defer_to_parent
         set_cached_blocks set_future_block_hashes set_potential_header_hashes
         set_potential_blocks_received set_wallet_state_manager
         config server wallet_state_manager backup_initialized cached_blocks
         future_block_hashes proof_hashes header_hashes header_hashes_error
         potential_blocks_received potential_header_hashes short_sync_threshold
         _shut_down];
    try (destruct (signals !! _) eqn:Hsignal;
         cbv [set_cached_blocks set_future_block_hashes
              set_potential_header_hashes set_potential_blocks_received
              set_wallet_state_manager
              config server wallet_state_manager backup_initialized cached_blocks
              future_block_hashes proof_hashes header_hashes header_hashes_error
              potential_blocks_received potential_header_hashes
              short_sync_threshold _shut_down];
         rewrite ?lookup_insert_eq, ?Hsignal;
         cbv [set_cached_blocks set_future_block_hashes
              set_potential_header_hashes set_potential_blocks_received
              set_wallet_state_manager
              config server wallet_state_manager backup_initialized cached_blocks
              future_block_hashes proof_hashes header_hashes header_hashes_error
              potential_blocks_received potential_header_hashes
              short_sync_threshold _shut_down]);
    rewrite ?insert_insert_eq; reflexivity.
Qed.

(** *** Redelivery *)

Section Redelivery.
(** What the handler relies on from the state manager: an accepted block is
    committed, a rejected one changes nothing, and no commit is undone. *)
Hypothesis Haccepted : ∀ s br hb s' res,
  receive_block s br hb = (s', res) →
  res = ADDED_TO_HEAD ∨ res = ADDED_AS_ORPHAN →
  is_Some (block_records s' !! BlockRecord.header_hash br).
Hypothesis Hrejected : ∀ s br hb s' res,
  receive_block s br hb = (s', res) →
  res ≠ ADDED_TO_HEAD → res ≠ ADDED_AS_ORPHAN → s' = s.
Hypothesis Hkept : ∀ s br hb s' res k,
  receive_block s br hb = (s', res) →
  is_Some (block_records s !! k) → is_Some (block_records s' !! k).

Lemma extends_refl w s : wallet_state_manager (node w) = Some s → extends w w.
Proof. intros Hw. repeat split. exists s, s. eauto. Qed.

Lemma extends_trans w1 w2 w3 : extends w1 w2 → extends w2 w3 → extends w1 w3.
Proof.
  intros (Hb1 & Hs1 & s1 & s2 & Hw1 & Hw2 & Hm1) (Hb2 & Hs2 & s2' & s3 & Hw2' & Hw3 & Hm2).
  rewrite Hw2 in Hw2'. injection Hw2' as <-.
  repeat split; [congruence.. |]. exists s1, s3. eauto.
Qed.

Lemma block_finished_extends (br : BlockRecord.t) (hb : HeaderBlock.t)
    (tf : option bytes) (w : World W) (s : W) :
  wallet_state_manager (node w) = Some s →
  extends w (_block_finished br hb tf w).2.
Proof using Hkept.
  intros Hw. unfold _block_finished, bind, get_self. simpl. rewrite Hw.
  destruct (backup_initialized (node w)) eqn:Hb; [|by apply (extends_refl w s)].
  unfold assert_. case_bool_decide; [|by apply (extends_refl w s)]. simpl.
  destruct (_ && _); [|by apply (extends_refl w s)]. simpl.
  unfold call_receive_block. rewrite Hw.
  destruct (receive_block s br (Some hb)) as [s' res] eqn:Hrecv.
  assert (∀ cached : gmap N (BlockRecord.t * HeaderBlock.t * list Byte.byte),
            extends w {| node := set_cached_blocks cached
                                   (set_wallet_state_manager (Some s') (node w));
                         trace := trace w;
                         submitted := submitted w ++ [(br, Some hb)];
                         ticks := ticks w |}) as Hext.
  { intros cached. repeat split. exists s, s'. repeat split; [done|]. intros k.
    by apply (Hkept s br (Some hb) s' res). }
  assert (extends w {| node := set_wallet_state_manager (Some s') (node w);
                       trace := trace w;
                       submitted := submitted w ++ [(br, Some hb)];
                       ticks := ticks w |}) as Hext'.
  { repeat split. exists s, s'. repeat split; [done|]. intros k.
    by apply (Hkept s br (Some hb) s' res). }
  destruct res; simpl; rewrite ?next_block_eq; simpl; try done.
  destruct (sync_mode s'); simpl; rewrite next_block_eq; simpl; [done|apply Hext].
Qed.

Lemma respond_header_turn_extends (response : RespondHeader) (w w' : World W)
    (s : W) (r : outcome RespondHeader) :
  wallet_state_manager (node w) = Some s →
  respond_header_turn response w = (r, w') →
  extends w w'.
Proof using Hkept.
  intros Hw. rewrite (respond_header_turn_cases response w s Hw). cbv zeta.
  set (block := header_block response).
  pose proof (arrive_frame (sync_mode s) block (node w))
    as (Haw & Hab & Has & _ & _).
  assert (extends w (with_node (cache_response response
                                  (arrive (sync_mode s) block (node w))) w))
    as Hcached.
  { repeat split; simpl; [done..|]. exists s, s. rewrite Haw. eauto. }
  destruct (_shut_down (node w)); [intros [= <- <-]; by apply (extends_refl w s)|].
  destruct (bool_decide _); [intros [= <- <-]; by apply (extends_refl w s)|].
  destruct (bool_decide _); [intros [= <- <-]; by apply (extends_refl w s)|].
  destruct (block_records s !! HeaderBlock.prev_header_hash block) eqn:Hprev.
  - destruct (_ || _); [by intros [= <- <-]|].
    pose proof (block_finished_extends (without_transactions (record_of_header block))
                  block (Some (transactions_filter response))
                  (with_node (cache_response response
                                (arrive (sync_mode s) block (node w))) w) s)
      as Hfinished.
    simpl in Hfinished. rewrite Haw in Hfinished. specialize (Hfinished Hw).
    destruct (_block_finished _ _ _ _) as [[[next|]| |e|] w1];
      intros [= <- <-]; by apply (extends_trans _ _ _ Hcached).
  - destruct (block_records s !! lca s); by intros [= <- <-].
Qed.

Lemma respond_header_loop_extends (fuel : nat) :
  ∀ (response : RespondHeader) (w w' : World W) (s : W) (r : outcome unit),
    wallet_state_manager (node w) = Some s →
    respond_header_loop fuel response w = (r, w') →
    extends w w'.
Proof using Hkept.
  induction fuel as [|fuel IH]; intros response w w' s r Hw Hrun.
  - injection Hrun as <- <-. by apply (extends_refl w s).
  - simpl in Hrun. unfold bind in Hrun.
    destruct (respond_header_turn response w) as [rt wt] eqn:Hturn.
    pose proof (respond_header_turn_extends response w wt s rt Hw Hturn) as Hext.
    destruct rt as [next| |e|]; try (by injection Hrun as <- <-).
    destruct Hext as (Hb & Hs & s0 & st & Hw0 & Hwt & Hm).
    apply (extends_trans w wt w'); [repeat split; eauto|].
    by apply (IH next wt w' st r).
Qed.

(** A block that is already committed ends the turn at once. *)
Lemma respond_header_turn_committed (response : RespondHeader) (w : World W) (s : W) :
  wallet_state_manager (node w) = Some s →
  is_Some (block_records s !! HeaderBlock.header_hash (header_block response)) →
  respond_header_turn response w = (Exit, w).
Proof.
  intros Hw Hcommitted. rewrite (respond_header_turn_cases response w s Hw).
  destruct (_shut_down (node w)); [done|]. by rewrite bool_decide_eq_true_2.
Qed.

(** A turn that goes on to a successor has committed its block. *)
Lemma respond_header_turn_continues (response next : RespondHeader)
    (w wt : World W) (s : W) :
  wallet_state_manager (node w) = Some s →
  backup_initialized (node w) = true →
  respond_header_turn response w = (Val next, wt) →
  _shut_down (node w) = false
  ∧ ∃ st, wallet_state_manager (node wt) = Some st
          ∧ is_Some (block_records st
                       !! HeaderBlock.header_hash (header_block response)).
Proof using Haccepted.
  intros Hw Hb. rewrite (respond_header_turn_cases response w s Hw). cbv zeta.
  set (block := header_block response).
  pose proof (arrive_frame (sync_mode s) block (node w))
    as (Haw & Hab & Has & _ & _).
  destruct (_shut_down (node w)); [done|].
  destruct (bool_decide _); [done|].
  destruct (bool_decide _); [done|].
  destruct (block_records s !! HeaderBlock.prev_header_hash block) eqn:Hprev;
    [|by destruct (block_records s !! lca s)].
  destruct (_ || _); [done|].
  destruct (receive_block s (without_transactions (record_of_header block))
              (Some block)) as [s' res] eqn:Hrecv.
  rewrite (block_finished_eq _ _ _ _ s s' res);
    [|by (simpl; rewrite ?Haw, ?Hab, ?Hprev)..].
  intros Hrun. split; [done|]. exists s'.
  assert (is_Some (block_records s' !! HeaderBlock.header_hash block)) as Hin.
  { destruct res; simpl in Hrun; try discriminate;
      by apply (Haccepted s (without_transactions (record_of_header block))
                  (Some block) s' _ Hrecv); eauto. }
  split; [|done].
  destruct res; simpl in Hrun; try discriminate.
  - destruct (sync_mode s'); rewrite next_block_eq in Hrun; simpl in Hrun;
      by destruct (match _ with Some _ => _ | None => _ end) as [[?|]| |?|];
      simplify_eq.
  - rewrite next_block_eq in Hrun; simpl in Hrun;
      by destruct (match _ with Some _ => _ | None => _ end) as [[?|]| |?|];
      simplify_eq.
Qed.

(** A turn that ends the handler can be replayed from the world it left:
    the replay ends the handler too and leaves the node as it found it. *)
Lemma respond_header_turn_replay (response : RespondHeader) (w wt : World W)
    (s : W) (rt : outcome RespondHeader) :
  wallet_state_manager (node w) = Some s →
  backup_initialized (node w) = true →
  respond_header_turn response w = (rt, wt) →
  (∀ next, rt ≠ Val next) →
  ∃ rt' wt', respond_header_turn response wt = (rt', wt')
             ∧ (rt' = Exit ∨ ∃ e, rt' = Raise e)
             ∧ node wt' = node wt.
Proof using Haccepted Hrejected.
  intros Hw Hb Hturn Hstop. pose proof Hturn as Hcases.
  rewrite (respond_header_turn_cases response w s Hw) in Hcases. cbv zeta in Hcases.
  set (block := header_block response) in *.
  pose proof (arrive_frame (sync_mode s) block (node w))
    as (Haw & Hab & Has & _ & _).
  destruct (_shut_down (node w)) eqn:Hshut;
    [injection Hcases as <- <-; rewrite Hturn; by eauto 6|].
  destruct (bool_decide (is_Some (block_records s !! HeaderBlock.header_hash block)))
    eqn:Hcommitted; [injection Hcases as <- <-; rewrite Hturn; by eauto 6|].
  destruct (bool_decide (HeaderBlock.height block < 1)) eqn:Hheight;
    [injection Hcases as <- <-; rewrite Hturn; by eauto 6|].
  destruct (block_records s !! HeaderBlock.prev_header_hash block) eqn:Hprev.
  - destruct (_ || _) eqn:Hfilter.
    + (* the additions are requested *)
      injection Hcases as <- <-.
      rewrite (respond_header_turn_cases response _ s)
        by (simpl; by rewrite Haw).
      cbv zeta. fold block. simpl. rewrite ?Has, ?Hshut, Hcommitted, Hheight, Hprev, Hfilter.
      do 2 eexists. split; [reflexivity|]. split; [by left|]. simpl.
      apply (cache_arrive_twice (sync_mode s) response (node w)).
    + (* the block is finished *)
      destruct (receive_block s (without_transactions (record_of_header block))
                  (Some block)) as [s' res] eqn:Hrecv.
      rewrite (block_finished_eq _ _ _ _ s s' res) in Hcases;
        [|by (simpl; rewrite ?Haw, ?Hab, ?Hprev)..].
      assert ((res = ADDED_TO_HEAD ∨ res = ADDED_AS_ORPHAN)
              ∨ ¬ (res = ADDED_TO_HEAD ∨ res = ADDED_AS_ORPHAN)) as [Hres | Hres]
        by (destruct res; (by left; eauto) || (right; by intros [|])).
      * (* accepted: the replay finds the block committed *)
        assert (wallet_state_manager (node wt) = Some s') as Hwt.
        { destruct Hres as [-> | ->].
          - destruct (sync_mode s'); rewrite next_block_eq in Hcases;
              simpl in Hcases;
              by destruct (match _ with Some _ => _ | None => _ end) as [[?|]| |?|];
              simplify_eq.
          - rewrite next_block_eq in Hcases; simpl in Hcases;
              by destruct (match _ with Some _ => _ | None => _ end) as [[?|]| |?|];
              simplify_eq. }
        rewrite (respond_header_turn_committed response wt s' Hwt); [by eauto 6|].
        by apply (Haccepted s (without_transactions (record_of_header block))
                    (Some block) s' res).
      * (* rejected: the state manager is as before *)
        assert (s' = s) as ->
          by (apply (Hrejected s (without_transactions (record_of_header block))
                       (Some block) s' res Hrecv); tauto).
        assert (wt = {| node := set_wallet_state_manager (Some s)
                                  (cache_response response
                                     (arrive (sync_mode s) block (node w)));
                        trace := trace w;
                        submitted := submitted w
                          ++ [(without_transactions (record_of_header block),
                               Some block)];
                        ticks := ticks w |}) as ->.
        { destruct res; try (exfalso; apply Hres; by eauto);
            simpl in Hcases; by simplify_eq. }
        rewrite (respond_header_turn_cases response _ s) by done.
        cbv zeta. fold block. simpl.
        rewrite ?Has, ?Hshut, Hcommitted, Hheight, Hprev, Hfilter.
        pose proof (arrive_frame (sync_mode s) block
                      (set_wallet_state_manager (Some s)
                         (cache_response response
                            (arrive (sync_mode s) block (node w)))))
          as (Haw2 & Hab2 & _).
        simpl in Haw2, Hab2. rewrite Hab, Hb in Hab2.
        rewrite (block_finished_eq _ _ _ _ s s res);
          [|by (simpl; rewrite ?Haw2, ?Hab2, ?Hprev)..].
        pose proof (receive_cache_arrive_twice (sync_mode s) response (node w)
                      (Some s)) as Htwice.
        destruct res; try (exfalso; apply Hres; by eauto); simpl; do 2 eexists;
          (split; [reflexivity|]); (split; [by left|]); simpl; exact Htwice.
  - (* the parent is missing *)
    assert (node wt = defer_to_parent block
                        (cache_response response
                           (arrive (sync_mode s) block (node w)))) as Hnode
      by (destruct (block_records s !! lca s); by injection Hcases as <- <-).
    rewrite (respond_header_turn_cases response wt s)
      by (by rewrite Hnode; simpl; rewrite Haw).
    cbv zeta. fold block. rewrite !Hnode. simpl.
    rewrite ?Has, ?Hshut, Hcommitted, Hheight, Hprev.
    pose proof (defer_cache_arrive_twice (sync_mode s) response (node w)) as Htwice.
    destruct (block_records s !! lca s); do 2 eexists;
      (split; [reflexivity|]); (split; [eauto|]); simpl; exact Htwice.
Qed.

(** C8. If the state manager commits what it accepts, changes nothing when
    it rejects, and never drops a committed block, then delivering a
    [RespondHeader] a second time, once the first delivery has been handled,
    leaves the node exactly as the first delivery left it: [cached_blocks],
    [future_block_hashes], the state manager with its committed blocks, and
    every other field. *)
Theorem respond_header_redelivery
    (fuel1 fuel2 : nat) (response : RespondHeader) (w w1 : World W)
    (r1 : outcome unit) :
  _respond_header fuel1 response w = (r1, w1) →
  r1 ≠ Fuel →
  (0 < fuel2)%nat →
  ∃ r2 w2,
    _respond_header fuel2 response w1 = (r2, w2)
    ∧ r2 ≠ Fuel
    ∧ node w2 = node w1
    ∧ cached_blocks (node w2) = cached_blocks (node w1)
    ∧ future_block_hashes (node w2) = future_block_hashes (node w1)
    ∧ (block_records <$> wallet_state_manager (node w2))
      = (block_records <$> wallet_state_manager (node w1)).
Proof using Haccepted Hrejected Hkept.
  intros Hfirst Hfuel Hfuel2.
  cut (∃ r2 w2, _respond_header fuel2 response w1 = (r2, w2)
                ∧ r2 ≠ Fuel ∧ node w2 = node w1).
  { intros (r2 & w2 & Hsecond & Hr2 & Hnode). exists r2, w2.
    rewrite Hnode. done. }
  destruct fuel2 as [|fuel2]; [lia|]. clear Hfuel2.
  unfold _respond_header, proc, bind, get_self in Hfirst. simpl in Hfirst.
  destruct (wallet_state_manager (node w)) as [s|] eqn:Hw.
  2: { injection Hfirst as <- <-. exists (Val tt), w. split; [|done].
       unfold _respond_header, proc, bind, get_self. simpl. by rewrite Hw. }
  destruct (backup_initialized (node w)) eqn:Hb.
  2: { injection Hfirst as <- <-. exists (Val tt), w. split; [|done].
       unfold _respond_header, proc, bind, get_self. simpl. by rewrite Hw, Hb. }
  destruct fuel1 as [|fuel1]; [by injection Hfirst as <- <-|].
  simpl in Hfirst. unfold bind in Hfirst.
  destruct (respond_header_turn response w) as [rt wt] eqn:Hturn.
  pose proof (respond_header_turn_extends response w wt s rt Hw Hturn)
    as (Hbt & Hst & s0 & st & Hw0 & Hwt & Hmt).
  rewrite Hw in Hw0. injection Hw0 as <-.
  destruct rt as [next| |e|].
  - (* the first turn committed the block and went on *)
    destruct (respond_header_turn_continues response next w wt s Hw Hb Hturn)
      as (Hshut & st' & Hwt' & Hcommitted).
    rewrite Hwt in Hwt'. injection Hwt' as <-.
    destruct (respond_header_loop fuel1 next wt) as [rl wl] eqn:Hloop.
    pose proof (respond_header_loop_extends fuel1 next wt wl st rl Hwt Hloop)
      as (Hbl & Hsl & s0 & sl & Hw0 & Hwl & Hml).
    rewrite Hwt in Hw0. injection Hw0 as <-.
    assert (w1 = wl) as -> by (destruct rl; by injection Hfirst as _ <-).
    exists (Val tt), wl. split; [|done].
    unfold _respond_header, proc, bind, get_self. simpl.
    rewrite Hwl, Hbl, Hbt, Hb. simpl. unfold bind.
    rewrite (respond_header_turn_committed response wl sl Hwl); [done|].
    by apply Hml.
  - injection Hfirst as <- <-.
    destruct (respond_header_turn_replay response w wt s Exit Hw Hb Hturn)
      as (rt' & wt' & Hreplay & Hrt' & Hnode); [done|].
    unfold _respond_header, proc, bind, get_self. simpl.
    rewrite Hwt, Hbt, Hb. simpl. unfold bind. rewrite Hreplay.
    destruct Hrt' as [-> | [e ->]]; eauto.
  - injection Hfirst as <- <-.
    destruct (respond_header_turn_replay response w wt s (Raise e) Hw Hb Hturn)
      as (rt' & wt' & Hreplay & Hrt' & Hnode); [done|].
    unfold _respond_header, proc, bind, get_self. simpl.
    rewrite Hwt, Hbt, Hb. simpl. unfold bind. rewrite Hreplay.
    destruct Hrt' as [-> | [e' ->]]; eauto.
  - by injection Hfirst as <- <-.
Qed.
End Redelivery.
End RespondHeaderFacts.

(** At LCA height 200 the header at 202 arrives: it is cached, queued behind
    201, and 201 is requested (scenario 3 of the specification). *)
Lemma respond_header_missing_ancestor_witness :
  ∃ w',
    _respond_header 1 (Scenario.respond 202) Scenario.steady = (Val tt, w')
    ∧ cached_blocks (node w') = {[Scenario.hash_at 202 := Scenario.cache_entry 202]}
    ∧ future_block_hashes (node w') = {[Scenario.hash_at 201 := Scenario.hash_at 202]}
    ∧ trace w' = [peer_send_message (request_header 201 (Scenario.hash_at 201))]
    ∧ submitted w' = [].
Proof.
  destruct (respond_header_missing_ancestor 0 Scenario.steady
              (Scenario.respond 202) (Scenario.manager_at 200)
              (Scenario.finished_record 200))
    as (w' & Hrun & Hcached & Hfuture & Htrace & _ & Hsubmitted).
  - reflexivity.
  - reflexivity.
  - reflexivity.
  - vm_compute. reflexivity.
  - vm_compute. discriminate.
  - vm_compute. reflexivity.
  - vm_compute. reflexivity.
  - exists w'. repeat split; [exact Hrun | rewrite Hcached | rewrite Hfuture
                              | rewrite Htrace | rewrite Hsubmitted];
      vm_compute; reflexivity.
Defined.

(** C7 as stated fails: at LCA height 200 the header at 202 arrives, then the
    one at 201 (scenario 3 of the specification).  Both get committed in the
    second call, and the entry keyed by the hash of 201 is still in
    [future_block_hashes]. *)
Lemma future_block_hashes_keeps_committed_key :
  let first := _respond_header 5 (Scenario.respond 202) Scenario.steady in
  let second := _respond_header 5 (Scenario.respond 201) first.2 in
  first.1 = Val tt
  ∧ second.1 = Val tt
  ∧ (block_records <$> wallet_state_manager (node second.2))
    = Some (<[Scenario.hash_at 202 := Scenario.finished_record 202]>
              (<[Scenario.hash_at 201 := Scenario.finished_record 201]>
                 {[Scenario.hash_at 200 := Scenario.finished_record 200]}))
  ∧ future_block_hashes (node second.2) !! Scenario.hash_at 201
    = Some (Scenario.hash_at 202).
Proof. vm_compute. repeat split. Qed.

(** The reference manager honours the three conditions of C8. *)
Lemma reference_accepted (s : Reference.t) br hb (s' : Reference.t) res :
  receive_block s br hb = (s', res) →
  res = ADDED_TO_HEAD ∨ res = ADDED_AS_ORPHAN →
  is_Some (block_records s' !! BlockRecord.header_hash br).
Proof.
  simpl. unfold Reference.receive.
  destruct (Reference.records s !! BlockRecord.header_hash br);
    [intros [= <- <-] [|]; discriminate|].
  destruct (Reference.records s !! BlockRecord.prev_header_hash br);
    [|intros [= <- <-] [|]; discriminate].
  case_bool_decide; intros [= <- <-] _; simpl; rewrite lookup_insert_eq; eauto.
Qed.

Lemma reference_rejected (s : Reference.t) br hb (s' : Reference.t) res :
  receive_block s br hb = (s', res) →
  res ≠ ADDED_TO_HEAD → res ≠ ADDED_AS_ORPHAN → s' = s.
Proof.
  simpl. unfold Reference.receive.
  destruct (Reference.records s !! BlockRecord.header_hash br);
    [by intros [= <- <-]|].
  destruct (Reference.records s !! BlockRecord.prev_header_hash br);
    [|by intros [= <- <-]].
  case_bool_decide; intros [= <- <-]; done.
Qed.

Lemma reference_kept (s : Reference.t) br hb (s' : Reference.t) res (k : N) :
  receive_block s br hb = (s', res) →
  is_Some (block_records s !! k) → is_Some (block_records s' !! k).
Proof.
  simpl. unfold Reference.receive.
  destruct (Reference.records s !! BlockRecord.header_hash br) eqn:Hnew;
    [by intros [= <- <-]|].
  destruct (Reference.records s !! BlockRecord.prev_header_hash br);
    [|by intros [= <- <-]].
  case_bool_decide; intros [= <- <-]; simpl; intros Hk;
    (destruct (decide (BlockRecord.header_hash br = k)) as [<-|Hne];
     [rewrite lookup_insert_eq; eauto | by rewrite lookup_insert_ne]).
Qed.

(** At LCA height 200 with 202 waiting for 201: the header at 201 is
    delivered (201 and 202 get committed), then delivered again. *)
Lemma respond_header_redelivery_witness :
  let first := _respond_header 5 (Scenario.respond 201) Scenario.waiting in
  ∃ r2 w2,
    _respond_header 5 (Scenario.respond 201) first.2 = (r2, w2)
    ∧ r2 ≠ Fuel
    ∧ node w2 = node first.2.
Proof.
  intros first.
  destruct (respond_header_redelivery reference_accepted reference_rejected
              reference_kept 5 5 (Scenario.respond 201) Scenario.waiting
              first.2 first.1)
    as (r2 & w2 & Hsecond & Hr2 & Hnode & _).
  - apply surjective_pairing.
  - vm_compute. discriminate.
  - lia.
  - eauto.
Defined.

(** *** The not-started guard *)

Section NotStarted.
Context {W : Type} `{StateManager W}.

(** C10. While [wallet_state_manager] is [None] or [backup_initialized] is
    [False], [_respond_header] and [_block_finished] return at once and
    leave the node (caches, sync maps and all) untouched,
    [_messages_to_resend] returns the empty list, and [_resend_queue]
    emits nothing: the world after each call is the world before it. *)
Theorem not_started_guard
    (w : World W) (action_data_of : string → option (option bytes32 * option Z)) :
  wallet_state_manager (node w) = None ∨ backup_initialized (node w) = false →
  (∀ fuel response, _respond_header fuel response w = (Val tt, w))
  ∧ (∀ br hb tf, _block_finished br hb tf w = (Val None, w))
  ∧ _messages_to_resend w = (Val [], w)
  ∧ _resend_queue action_data_of w = (Val tt, w).
Proof.
  intros Hguard. repeat split.
  - intros fuel response. unfold _respond_header, proc, bind, get_self. simpl.
    destruct Hguard as [-> | ->]; [done|].
    by destruct (wallet_state_manager (node w)).
  - intros br hb tf. unfold _block_finished, bind, get_self. simpl.
    destruct Hguard as [-> | ->]; [done|].
    by destruct (wallet_state_manager (node w)).
  - unfold _messages_to_resend, bind, get_self. simpl.
    destruct Hguard as [-> | ->]; [done|].
    by destruct (wallet_state_manager (node w)).
  - unfold _resend_queue, proc, bind, get_self. simpl.
    destruct (resend_guard (node w)) eqn:Hg; [done|].
    unfold _messages_to_resend, _action_messages, bind, get_self. simpl.
    destruct (wallet_state_manager (node w)) as [wsm|] eqn:Hw.
    + destruct Hguard as [Hnone | Hfalse]; [done|].
      rewrite Hfalse. simpl. by rewrite Hw, Hfalse.
    + unfold resend_guard in Hg. rewrite Hw in Hg. simpl in Hg.
      by rewrite orb_true_r in Hg.
Qed.
End NotStarted.

(** With the state manager open, an unsent transaction and a pending action
    on file, but the backup decision outstanding, nothing is sent. *)
Lemma not_started_guard_witness :
  _resend_queue Scenario.parse_action Scenario.awaiting_backup
  = (Val tt, Scenario.awaiting_backup)
  ∧ _messages_to_resend Scenario.awaiting_backup = (Val [], Scenario.awaiting_backup)
  ∧ _respond_header 3 (Scenario.respond 201) Scenario.awaiting_backup
    = (Val tt, Scenario.awaiting_backup).
Proof.
  destruct (not_started_guard Scenario.awaiting_backup Scenario.parse_action)
    as (Hheader & _ & Hmessages & Hqueue).
  - right. reflexivity.
  - auto.
Defined.

(** *** Peer policy *)

Section PeerPolicyFacts.
Context {W : Type}.
Variable gethostbyname : string → option string.

(** The loop over the connections closes each of them, whatever the test on
    the peer info says. *)
Lemma close_loop_closes_all (pinned resolved : PeerInfo)
    (connections : list WSChiaConnection) (w : World W) :
  ∃ w',
    for_each connections (λ connection,
      bind (if bool_decide (get_peer_info connection ≠ pinned)
               && bool_decide (get_peer_info connection ≠ resolved)
            then emit (log_info (closing_unnecessary_connection_to
                                   (get_peer_info connection)))
            else ret tt)
           (λ _, emit (connection_close connection))) w
    = (Val tt, w')
    ∧ closed_connections (trace w') = closed_connections (trace w) ++ connections.
Proof.
  revert w. induction connections as [|c connections IH]; intros w.
  - exists w. split; [done|]. by rewrite app_nil_r.
  - simpl.
    assert (∃ w1,
              bind (if bool_decide (get_peer_info c ≠ pinned)
                       && bool_decide (get_peer_info c ≠ resolved)
                    then emit (log_info (closing_unnecessary_connection_to
                                           (get_peer_info c)))
                    else ret tt)
                   (λ _, emit (connection_close c)) w = (Val tt, w1)
              ∧ closed_connections (trace w1)
                = closed_connections (trace w) ++ [c])
      as (w1 & Hstep & Hclosed).
    { unfold bind, emit, ret, closed_connections.
      destruct (_ && _); simpl; eexists; (split; [reflexivity|]); simpl;
        rewrite ?omap_app; simpl; by rewrite ?app_nil_r. }
    rewrite (bind_eq _ _ _ _ _ Hstep). destruct (IH w1) as (w' & Hrest & Hall).
    exists w'. split; [done|]. rewrite Hall, Hclosed. by rewrite <- app_assoc.
Qed.

(** Whenever the pinned peer is among the full-node connections,
    [has_full_node] returns true having scheduled every connection for
    closing. *)
Lemma has_full_node_closes_every_connection
    (w : World W) (srv : ChiaServer) (pinned : PeerInfo) (resolved_host : string) :
  server (node w) = Some srv →
  full_node_peer (config (node w)) = Some pinned →
  gethostbyname (host pinned) = Some resolved_host →
  pinned ∈ (get_peer_info <$> get_full_node_connections srv)
  ∨ {| host := resolved_host; port := port pinned |}
    ∈ (get_peer_info <$> get_full_node_connections srv) →
  ∃ w',
    has_full_node gethostbyname w = (Val true, w')
    ∧ closed_connections (trace w')
      = closed_connections (trace w) ++ get_full_node_connections srv.
Proof.
  intros Hsrv Hpinned Hresolved Hconnected.
  unfold has_full_node. unfold bind at 1, get_self at 1.
  rewrite Hsrv, Hpinned, Hresolved.
  assert (bool_decide (pinned ∈ get_peer_info <$> get_full_node_connections srv)
          || bool_decide ({| host := resolved_host; port := port pinned |}
                          ∈ get_peer_info <$> get_full_node_connections srv)
          = true) as ->.
  { destruct Hconnected as [Hin | Hin].
    - by rewrite (bool_decide_eq_true_2 _ Hin).
    - rewrite (bool_decide_eq_true_2 _ Hin). apply orb_true_r. }
  unfold bind at 1. unfold emit at 1.
  destruct (close_loop_closes_all pinned
              {| host := resolved_host; port := port pinned |}
              (get_full_node_connections srv)
              {| node := node w;
                 trace := trace w ++ [log_info (already_connected_to pinned)];
                 submitted := submitted w; ticks := ticks w |})
    as (w' & Hloop & Hclosed).
  exists w'. unfold bind at 1. rewrite Hloop. split; [done|].
  rewrite Hclosed. unfold closed_connections. simpl.
  rewrite omap_app. simpl. by rewrite app_nil_r.
Qed.
End PeerPolicyFacts.

(** C3 (the code departs from it). With the pinned peer connected under its
    resolved address next to one other full node, [has_full_node] returns
    true, logs only the other connection as unnecessary, and closes both:
    the [close] call sits outside the test on the peer info. *)
Theorem has_full_node_closes_pinned_peer :
  let run := has_full_node (W := Reference.t) Scenario.resolver Scenario.steady in
  run.1 = Val true
  ∧ trace run.2
    = [log_info (already_connected_to Scenario.pinned);
       connection_close Scenario.pinned_connection;
       log_info (closing_unnecessary_connection_to Scenario.stranger);
       connection_close Scenario.stranger_connection]
  ∧ get_peer_info Scenario.pinned_connection = Scenario.pinned_resolved.
Proof. vm_compute. repeat split. Qed.

(** *** [_sync] *)

(** Signals after [fresh_events]. *)

Lemma foldl_insert_lookup {V} (v : V) (l : list Z) (m : gmap Z V) k :
  foldl (λ m h, <[h := v]> m) m l !! k
  = if decide (k ∈ l) then Some v else m !! k.
Proof.
  revert m. induction l as [|x l IH]; intros m.
  - rewrite decide_False; [done | apply not_elem_of_nil].
  - change (foldl (λ m h, <[h := v]> m) (<[x := v]> m) l !! k
            = if decide (k ∈ x :: l) then Some v else m !! k).
    rewrite IH. destruct (decide (k ∈ l)) as [Hin|Hin].
    + rewrite decide_True; [done | by right].
    + destruct (decide (k = x)) as [->|Hne].
      * rewrite lookup_insert_eq. rewrite decide_True; [done | by left].
      * rewrite lookup_insert_ne by done.
        rewrite decide_False; [done|]. rewrite elem_of_cons. tauto.
Qed.

Lemma fresh_events_lookup (tip : Z) (events : gmap Z bool) k :
  fresh_events tip events !! k
  = if decide (0 ≤ k ≤ tip) then Some false else events !! k.
Proof.
  unfold fresh_events, range. rewrite foldl_insert_lookup.
  destruct (decide (0 ≤ k ≤ tip)) as [Hk|Hk].
  - rewrite decide_True; [done|]. apply elem_of_seqZ. lia.
  - rewrite decide_False; [done|]. rewrite elem_of_seqZ. lia.
Qed.

Section SyncFacts.
Context {W : Type} `{StateManager W}.
Variable deliver : nat → WalletNode W → WalletNode W.
Variable clock : nat → Z.
Variable random_choices : list Z → list Z → nat → option (list Z).
Variable genesis_challenge : bytes32.
Variable DIFFICULTY_STARTING : Z.

(** **** Nothing is submitted before the validation *)

Lemma keeps_bind {A B} (m : M W A) (k : A → M W B) :
  keeps_submitted m → (∀ a, keeps_submitted (k a)) → keeps_submitted (bind m k).
Proof.
  intros Hm Hk w. unfold bind. specialize (Hm w).
  destruct (m w) as [[a| |e|] w1]; simpl in *; try done.
  by rewrite Hk.
Qed.

Lemma keeps_for_fold {A S} (xs : list A) (s : S) (body : S → A → M W S) :
  (∀ s x, keeps_submitted (body s x)) → keeps_submitted (for_fold xs s body).
Proof.
  intros Hbody. revert s. induction xs as [|x xs IH]; intros s; simpl.
  - by intros w.
  - apply keeps_bind; [apply Hbody | intros s'; apply IH].
Qed.

Lemma keeps_get_wsm : keeps_submitted (W := W) get_wsm.
Proof. intros w. unfold get_wsm. by destruct (wallet_state_manager (node w)). Qed.

Lemma keeps_dict_get `{Countable K} {V} (d : gmap K V) k :
  keeps_submitted (W := W) (dict_get d k).
Proof. intros w. unfold dict_get. by destruct (d !! k). Qed.

Lemma keeps_list_get {A} (l : list A) i : keeps_submitted (W := W) (list_get l i).
Proof. intros w. unfold list_get. by destruct (py_index l i). Qed.

Lemma keeps_wait_header_hashes fuel start_wait :
  keeps_submitted (wait_header_hashes deliver clock fuel start_wait).
Proof.
  induction fuel as [|fuel IH]; simpl.
  all: repeat first
    [ match goal with Hkeeps : _ |- _ => apply Hkeeps end
    | apply keeps_bind; [|intros ?]
    | apply keeps_for_fold; intros ? ?
    | apply keeps_get_wsm | apply keeps_dict_get | apply keeps_list_get
    | progress unfold peer_send, send_to_all, wait_for_event, is_set, sample_batch
    | match goal with
      | |- keeps_submitted (if ?b then _ else _) => destruct b
      | |- keeps_submitted (match ?x with _ => _ end) => destruct x
      | |- keeps_submitted ((match ?x with _ => _ end) _) => destruct x
      end
    | by intros ? ].
Qed.

Lemma keeps_wait_proof_hashes fuel start_wait :
  keeps_submitted (wait_proof_hashes deliver clock fuel start_wait).
Proof.
  induction fuel as [|fuel IH]; simpl.
  all: repeat first
    [ match goal with Hkeeps : _ |- _ => apply Hkeeps end
    | apply keeps_bind; [|intros ?]
    | apply keeps_for_fold; intros ? ?
    | apply keeps_get_wsm | apply keeps_dict_get | apply keeps_list_get
    | progress unfold peer_send, send_to_all, wait_for_event, is_set, sample_batch
    | match goal with
      | |- keeps_submitted (if ?b then _ else _) => destruct b
      | |- keeps_submitted (match ?x with _ => _ end) => destruct x
      | |- keeps_submitted ((match ?x with _ => _ end) _) => destruct x
      end
    | by intros ? ].
Qed.

Lemma keeps_sync_skeleton fuel :
  keeps_submitted (sync_skeleton deliver clock genesis_challenge fuel).
Proof.
  unfold sync_skeleton, sync_request_skeleton.
  pose proof keeps_wait_header_hashes.
  all: repeat first
    [ match goal with Hkeeps : _ |- _ => apply Hkeeps end
    | apply keeps_bind; [|intros ?]
    | apply keeps_for_fold; intros ? ?
    | apply keeps_get_wsm | apply keeps_dict_get | apply keeps_list_get
    | progress unfold peer_send, send_to_all, wait_for_event, is_set, sample_batch
    | match goal with
      | |- keeps_submitted (if ?b then _ else _) => destruct b
      | |- keeps_submitted (match ?x with _ => _ end) => destruct x
      | |- keeps_submitted ((match ?x with _ => _ end) _) => destruct x
      end
    | by intros ? ].
Qed.

Lemma keeps_sample_wait fuel query_heights height_index slept rs :
  keeps_submitted (sample_wait deliver clock fuel query_heights height_index slept rs).
Proof.
  revert slept rs. induction fuel as [|fuel IH]; intros slept rs; simpl.
  all: repeat first
    [ match goal with Hkeeps : _ |- _ => apply Hkeeps end
    | apply keeps_bind; [|intros ?]
    | apply keeps_for_fold; intros ? ?
    | apply keeps_get_wsm | apply keeps_dict_get | apply keeps_list_get
    | progress unfold peer_send, send_to_all, wait_for_event, is_set, sample_batch
    | match goal with
      | |- keeps_submitted (if ?b then _ else _) => destruct b
      | |- keeps_submitted (match ?x with _ => _ end) => destruct x
      | |- keeps_submitted ((match ?x with _ => _ end) _) => destruct x
      end
    | by intros ? ].
Qed.

Lemma keeps_sync_sample fuel fork_point_height tip :
  keeps_submitted (sync_sample deliver clock random_choices fuel fork_point_height tip).
Proof.
  unfold sync_sample, difficulty_map.
  pose proof keeps_wait_proof_hashes. pose proof keeps_sample_wait.
  all: repeat first
    [ match goal with Hkeeps : _ |- _ => apply Hkeeps end
    | apply keeps_bind; [|intros ?]
    | apply keeps_for_fold; intros ? ?
    | apply keeps_get_wsm | apply keeps_dict_get | apply keeps_list_get
    | progress unfold peer_send, send_to_all, wait_for_event, is_set, sample_batch
    | match goal with
      | |- keeps_submitted (if ?b then _ else _) => destruct b
      | |- keeps_submitted (match ?x with _ => _ end) => destruct x
      | |- keeps_submitted ((match ?x with _ => _ end) _) => destruct x
      end
    | by intros ? ].
Qed.

(** **** When phases A and B complete *)

(** What is known once the skeleton has been fetched and the target fixed:
    [arrived] is the world in which the wait for the skeleton ended. *)
Lemma sync_skeleton_val
    (fuel : nat) (w w' : World W) (fork_point_height : Z)
    (fork_point_hash : bytes32) (tip : Z) :
  sync_skeleton deliver clock genesis_challenge fuel w
  = (Val (fork_point_height, fork_point_hash, tip), w') →
  ∃ (arrived : World W) (events : gmap Z bool),
    length (header_hashes (node arrived)) ≠ 0%nat
    ∧ tip = tip_height (header_hashes (node arrived))
    ∧ header_hashes (node w') = header_hashes (node arrived)
    ∧ potential_blocks_received (node w') = fresh_events tip events.
Proof using Type*.
  clear random_choices DIFFICULTY_STARTING.
  unfold sync_skeleton. intros Hrun.
  apply bind_val in Hrun as (? & w0 & _ & Hrun).
  apply bind_val in Hrun as (start_wait & w1 & _ & Hrun).
  apply bind_val in Hrun as (? & arrived & _ & Hrun).
  apply bind_val in Hrun as (self & w2 & Hself & Hrun).
  apply get_self_val in Hself as [-> ->].
  destruct (bool_decide (length (header_hashes (node arrived)) = 0%nat)) eqn:Hlen;
    [discriminate|].
  apply bool_decide_eq_false in Hlen.
  apply bind_val in Hrun as (wsm & w3 & Hwsm & Hrun).
  apply get_wsm_val in Hwsm as [Hwsm ->].
  apply bind_val in Hrun as (hh & w4 & Hhh & Hrun).
  apply list_get_val in Hhh as [Hhh ->].
  apply bind_val in Hrun as (? & w5 & Hcfg & Hrun).
  apply bind_val in Hrun as (? & w6 & Hevents & Hrun).
  apply modify_self_val in Hevents as ->.
  injection Hrun as <- <- <- <-.
  assert (header_hashes (node w5) = header_hashes (node arrived)) as Hsame.
  { destruct (new_wallet wsm && _).
    - apply modify_self_val in Hcfg as ->. done.
    - by injection Hcfg as _ <-. }
  exists arrived, (potential_blocks_received (node w5)). simpl.
  repeat split; done.
Qed.

(** **** The sync data at the start of a run *)

(** C4 (as amended). On a started node with a server, a [_sync] run opens
    by resetting [header_hashes] and [proof_hashes] to the empty list,
    [potential_header_hashes] to the empty map and [header_hashes_error] to
    false, then sends the request for the skeleton: that request is the
    first effect of the run, and the node the other tasks see when it goes
    out is the reset one.  [potential_blocks_received] is not part of the
    reset; once the target height is known, its entries for the heights
    [0 .. tip_height] are replaced by fresh, unset signals. *)
Theorem sync_opening_resets
    (w : World W) (srv : ChiaServer) (wsm : W) :
  server (node w) = Some srv →
  wallet_state_manager (node w) = Some wsm →
  backup_initialized (node w) = true →
  let opened := sync_reset (node w) in
  sync_request_skeleton deliver genesis_challenge w
  = (Val tt,
     {| node := deliver (ticks w) opened;
        trace := trace w ++
                 [peer_send_message
                    (request_all_header_hashes_after 0 genesis_challenge)];
        submitted := submitted w;
        ticks := S (ticks w) |})
  ∧ header_hashes opened = []
  ∧ proof_hashes opened = []
  ∧ potential_header_hashes opened = ∅
  ∧ header_hashes_error opened = false
  ∧ potential_blocks_received opened = potential_blocks_received (node w)
  ∧ (∀ fuel fork_point_height fork_point_hash tip w',
       sync_skeleton deliver clock genesis_challenge fuel w
       = (Val (fork_point_height, fork_point_hash, tip), w') →
       ∀ k, 0 ≤ k ≤ tip → potential_blocks_received (node w') !! k = Some false).
Proof using Type*.
  clear random_choices DIFFICULTY_STARTING.
  intros Hsrv Hw Hb opened. repeat split.
  - unfold sync_request_skeleton, bind, get_self. simpl. by rewrite Hsrv, Hw, Hb.
  - intros fuel fph fhash tip w' Hrun k Hk.
    destruct (sync_skeleton_val fuel w w' fph fhash tip Hrun)
      as (arrived & events & _ & _ & _ & ->).
    rewrite fresh_events_lookup. by rewrite decide_True.
Qed.

(** C2 (as amended). Whenever phases A and B of [_sync] complete, the
    skeleton is not empty and the target height is [len(header_hashes) - 5]
    if the skeleton has more than 5 hashes, and [len(header_hashes)]
    itself otherwise. *)
Theorem sync_target_height
    (fuel : nat) (w w' : World W) (fork_point_height : Z)
    (fork_point_hash : bytes32) (tip : Z) :
  sync_skeleton deliver clock genesis_challenge fuel w
  = (Val (fork_point_height, fork_point_hash, tip), w') →
  let n := Z.of_nat (length (header_hashes (node w'))) in
  tip = tip_height (header_hashes (node w'))
  ∧ 0 < n
  ∧ (n > 5 → tip = n - 5)
  ∧ (n ≤ 5 → tip = n).
Proof using Type*.
  clear random_choices DIFFICULTY_STARTING.
  intros Hrun n.
  destruct (sync_skeleton_val fuel w w' fork_point_height fork_point_hash tip Hrun)
    as (arrived & events & Hlen & -> & Hsame & _).
  subst n. rewrite Hsame. unfold tip_height.
  split; [done|].
  assert (0 < Z.of_nat (length (header_hashes (node arrived)))) as Hpos.
  { destruct (header_hashes (node arrived)); [done|]. rewrite length_cons. lia. }
  split; [done|].
  split; intros Hn;
    [rewrite bool_decide_eq_true_2 by done
    | rewrite bool_decide_eq_false_2 by lia]; done.
Qed.
(** C9 (as amended). If phases A and B complete, phase C is due (the
    starting height is not 0), the sample has been downloaded, and
    [validate_select_proofs] then returns false, the assertion on it fails
    before the loop that synthesizes block records is reached: the run
    ends there with an [AssertionError], in the very world in which the
    validator was consulted, and [_sync] has handed no record to
    [receive_block] since the run began.  The state is the one the other
    tasks left while the sample was downloaded: what the header handler
    committed in the meantime stays committed. *)
Theorem sync_aborts_on_rejected_sample
    (fuel : nat) (w0 w1 w2 : World W) (fork_point_height : Z)
    (fork_point_hash : bytes32) (tip : Z) (query_heights_odd : list Z) (wsm : W) :
  sync_skeleton deliver clock genesis_challenge fuel w0
  = (Val (fork_point_height, fork_point_hash, tip), w1) →
  starting_height (config (node w1)) ≠ 0 →
  sync_sample deliver clock random_choices fuel fork_point_height tip w1
  = (Val query_heights_odd, w2) →
  wallet_state_manager (node w2) = Some wsm →
  validate_select_proofs wsm (proof_hashes (node w2)) query_heights_odd
    (cached_blocks (node w2)) (potential_header_hashes (node w2)) = false →
  sync_fast_forward deliver DIFFICULTY_STARTING fork_point_height fork_point_hash
    tip query_heights_odd w2 = (Raise AssertionError, w2)
  ∧ _sync deliver clock random_choices genesis_challenge DIFFICULTY_STARTING fuel w0
    = (Raise AssertionError, w2)
  ∧ submitted w2 = submitted w0.
Proof using Type*.
  intros Hskeleton Hstart Hsample Hw Hinvalid.
  assert (sync_fast_forward deliver DIFFICULTY_STARTING fork_point_height
            fork_point_hash tip query_heights_odd w2 = (Raise AssertionError, w2))
    as Habort.
  { unfold sync_fast_forward, bind, get_self, get_wsm. simpl.
    by rewrite Hw, Hinvalid. }
  split; [done|]. split.
  - unfold _sync, proc. rewrite (bind_eq _ _ _ _ _ Hskeleton).
    unfold bind at 1. simpl.
    rewrite bool_decide_eq_false_2 by done.
    unfold bind at 1. rewrite (bind_eq _ _ _ _ _ Hsample).
    by rewrite Habort.
  - pose proof (keeps_sync_skeleton fuel w0) as Hk1. rewrite Hskeleton in Hk1.
    pose proof (keeps_sync_sample fuel fork_point_height tip w1) as Hk2.
    rewrite Hsample in Hk2. simpl in *. congruence.
Qed.

End SyncFacts.

(** A peer serving ten hashes: the target is height 5. *)
Lemma sync_target_height_witness :
  let run := sync_skeleton (Scenario.peer_answers 30) Scenario.wall_clock 0%N 5
               Scenario.at_genesis in
  run.1 = Val (0, Scenario.hash_at 0, 5)
  ∧ 5 = tip_height (header_hashes (node run.2)).
Proof.
  intros run.
  assert (run = (Val (0, Scenario.hash_at 0, 5), run.2)) as Hrun
    by (vm_compute; reflexivity).
  split; [by rewrite Hrun|].
  exact (proj1 (sync_target_height (Scenario.peer_answers 30) Scenario.wall_clock
                  0%N 5 Scenario.at_genesis run.2 0 (Scenario.hash_at 0) 5 Hrun)).
Defined.

(** C2 as stated fails: for a skeleton of three hashes the target is height
    3, not [max(0, 3 - 5) = 0]. *)
Lemma sync_target_not_floored :
  let run := sync_skeleton (Scenario.skeleton_only (Scenario.hash_at <$> seqZ 0 3))
               Scenario.wall_clock 0%N 5 Scenario.at_genesis in
  run.1 = Val (0, Scenario.hash_at 0, 3)
  ∧ Z.of_nat (length (header_hashes (node run.2))) = 3
  ∧ tip_height (header_hashes (node run.2))
    ≠ Z.max 0 (Z.of_nat (length (header_hashes (node run.2))) - 5).
Proof. vm_compute. repeat split. discriminate. Qed.

(** A stale signal for height 7 is still there after the reset; the heights
    up to the target get fresh signals. *)
Lemma sync_opening_resets_witness :
  let opened := sync_reset (node Scenario.stale) in
  header_hashes opened = []
  ∧ potential_blocks_received opened = {[7 := true]}
  ∧ potential_blocks_received
      (node (sync_skeleton (Scenario.skeleton_only Scenario.chain)
               Scenario.wall_clock 0%N 5 Scenario.stale).2) !! 5 = Some false.
Proof.
  intros opened.
  destruct (sync_opening_resets (Scenario.skeleton_only Scenario.chain)
              Scenario.wall_clock 0%N Scenario.stale
              {| get_full_node_connections :=
                   [Scenario.pinned_connection; Scenario.stranger_connection] |}
              (Scenario.manager_at 0) eq_refl eq_refl eq_refl)
    as (_ & Hhashes & _ & _ & _ & Hevents & Hfresh).
  split; [exact Hhashes|].
  split; [exact Hevents|].
  apply (Hfresh 5%nat 0 (Scenario.hash_at 0) 5); [vm_compute; reflexivity | lia].
Defined.

(** C4 as stated fails: a run that is shut down right after its first request
    went out leaves the signal of an earlier run in
    [potential_blocks_received]. *)
Lemma sync_keeps_stale_signals :
  let run := _sync Scenario.shut_down_at_once Scenario.wall_clock Scenario.first_k
               0%N 1 5 Scenario.stale in
  run.1 = Val tt
  ∧ trace run.2 = [peer_send_message (request_all_header_hashes_after 0 0%N)]
  ∧ potential_blocks_received (node run.2) !! 7 = Some true
  ∧ potential_blocks_received (node run.2) ≠ ∅.
Proof. vm_compute. repeat split. discriminate. Qed.

(** The peer serves a header at height 3 whose [total_iters] (31) disagrees
    with the proof hashes (30): the sampler rejects, the run fails, nothing
    was submitted (scenario 6 of the specification). *)
Lemma sync_aborts_on_rejected_sample_witness :
  _sync (Scenario.peer_answers 31) Scenario.wall_clock Scenario.first_k
    0%N 1 20 Scenario.at_genesis = (Raise AssertionError, Scenario.after_sample)
  ∧ submitted Scenario.after_sample = submitted Scenario.at_genesis.
Proof.
  assert (sync_skeleton (Scenario.peer_answers 31) Scenario.wall_clock
            0%N 20 Scenario.at_genesis
          = (Val (0, Scenario.hash_at 0, 5), Scenario.after_skeleton)) as Hskeleton
    by (vm_compute; reflexivity).
  assert (sync_sample (Scenario.peer_answers 31) Scenario.wall_clock
            Scenario.first_k 20 0 5 Scenario.after_skeleton
          = (Val [3], Scenario.after_sample)) as Hsample
    by (vm_compute; reflexivity).
  assert (starting_height (config (node Scenario.after_skeleton)) ≠ 0) as Hstart
    by (vm_compute; discriminate).
  assert (wallet_state_manager (node Scenario.after_sample)
          = Some (Scenario.manager_at 0)) as Hw
    by (vm_compute; reflexivity).
  assert (validate_select_proofs (Scenario.manager_at 0)
            (proof_hashes (node Scenario.after_sample)) [3]
            (cached_blocks (node Scenario.after_sample))
            (potential_header_hashes (node Scenario.after_sample)) = false)
    as Hrejected by (vm_compute; reflexivity).
  exact (proj2 (sync_aborts_on_rejected_sample (Scenario.peer_answers 31)
                  Scenario.wall_clock Scenario.first_k 0%N 1 20
                  Scenario.at_genesis Scenario.after_skeleton Scenario.after_sample
                  0 (Scenario.hash_at 0) 5 [3] (Scenario.manager_at 0)
                  Hskeleton Hstart Hsample Hw Hrejected)).
Defined.

(** C9 as stated fails in its last part: the state past the fork point is
    not unchanged when the sampler rejects.  The wallet has the blocks at
    heights 0 and 1, so the fork point is 1, and it starts validating at
    height 3; the sample is the pair of heights 2 and 3.  The replies to
    the two header requests are handled by [_respond_header] while [_sync]
    waits for them: it sets the signals, and it commits both blocks, since
    each has its parent committed and an empty filter.  The header at
    height 3 reports 31 iterations against 30 in the proof hashes, so
    [validate_select_proofs] answers false and the run ends with an
    [AssertionError]: [_sync] has handed nothing to [receive_block], yet
    the block at height 2, which was not committed when the run began, is
    committed when it ends, and the LCA has moved to height 3. *)
Lemma sync_rejected_sample_keeps_handler_commits :
  let w0 := SyncScenario.behind in
  let skeleton :=
    sync_skeleton SyncScenario.peer_through_handler Scenario.wall_clock 0%N 20 w0 in
  let sample :=
    sync_sample SyncScenario.peer_through_handler Scenario.wall_clock
      Scenario.first_k 20 1 5 skeleton.2 in
  let run :=
    _sync SyncScenario.peer_through_handler Scenario.wall_clock Scenario.first_k
      0%N 1 20 w0 in
  skeleton.1 = Val (1, Scenario.hash_at 1, 5)
  ∧ sample.1 = Val [3]
  ∧ (∃ wsm, wallet_state_manager (node sample.2) = Some wsm
            ∧ validate_select_proofs wsm (proof_hashes (node sample.2)) [3]
                (cached_blocks (node sample.2))
                (potential_header_hashes (node sample.2)) = false)
  ∧ run = (Raise AssertionError, sample.2)
  ∧ trace run.2
    = [peer_send_message (request_all_header_hashes_after 0 0%N);
       peer_send_message request_all_proof_hashes;
       server_send_to_all (request_header 2 (Scenario.hash_at 2));
       server_send_to_all (request_header 3 (Scenario.hash_at 3))]
  ∧ submitted run.2 = submitted w0
  ∧ (∃ wsm, wallet_state_manager (node w0) = Some wsm
            ∧ block_records wsm !! Scenario.hash_at 2 = None
            ∧ height_to_hash wsm !! 2 = None
            ∧ lca wsm = Scenario.hash_at 1)
  ∧ (∃ wsm, wallet_state_manager (node run.2) = Some wsm
            ∧ block_records wsm !! Scenario.hash_at 2
              = Some (Scenario.finished_record 2)
            ∧ height_to_hash wsm !! 2 = Some (Scenario.hash_at 2)
            ∧ lca wsm = Scenario.hash_at 3).
Proof.
  vm_compute.
  repeat split; try (eexists; repeat split; reflexivity).
Qed.

(** *** More on [_block_finished] *)

Section BlockFinishedMore.
Context {W : Type} `{StateManager W}.

(** X1. On a started node, a record whose parent is not committed, or whose
    additions or removals are still unknown, trips the assertions at the
    head of [_block_finished]: the call raises [AssertionError] before the
    state manager is consulted, and nothing has changed. *)
Theorem block_finished_rejects_unprepared_record
    (w : World W) (br : BlockRecord.t) (hb : HeaderBlock.t) (tf : option bytes)
    (wsm : W) :
  wallet_state_manager (node w) = Some wsm →
  backup_initialized (node w) = true →
  block_records wsm !! BlockRecord.prev_header_hash br = None
  ∨ BlockRecord.additions br = None
  ∨ BlockRecord.removals br = None →
  _block_finished br hb tf w = (Raise AssertionError, w).
Proof.
  intros Hw Hb Hbad. unfold _block_finished, bind, get_self. simpl.
  rewrite Hw, Hb. unfold assert_.
  destruct (block_records wsm !! BlockRecord.prev_header_hash br) as [p|] eqn:Hprev.
  - rewrite bool_decide_eq_true_2 by eauto. simpl.
    destruct Hbad as [? | [Hnone | Hnone]]; [done| |]; rewrite Hnone.
    + rewrite (bool_decide_eq_false_2 (is_Some None)) by (by intros [? ?]). done.
    + rewrite (bool_decide_eq_false_2 (is_Some None)) by (by intros [? ?]).
      by rewrite andb_false_r.
  - by rewrite (bool_decide_eq_false_2 (is_Some None)) by (by intros [? ?]).
Qed.

(** X2. Whatever the node, the record and the state manager's answer,
    [_block_finished] emits no effect, hands at most the given record (with
    its header block) to [receive_block], touches neither the sync signals
    nor the noted hashes, and never adds or alters an entry of
    [cached_blocks]: every entry present afterwards was there before, and
    entries only go when the state manager is out of sync mode. *)
Theorem block_finished_frame_of_cache
    (w : World W) (br : BlockRecord.t) (hb : HeaderBlock.t) (tf : option bytes) :
  let w' := (_block_finished br hb tf w).2 in
  trace w' = trace w
  ∧ (submitted w' = submitted w ∨ submitted w' = submitted w ++ [(br, Some hb)])
  ∧ potential_blocks_received (node w') = potential_blocks_received (node w)
  ∧ potential_header_hashes (node w') = potential_header_hashes (node w)
  ∧ (∀ hh e, cached_blocks (node w') !! hh = Some e →
             cached_blocks (node w) !! hh = Some e)
  ∧ (cached_blocks (node w') = cached_blocks (node w)
     ∨ ∃ wsm', wallet_state_manager (node w') = Some wsm'
               ∧ sync_mode wsm' = false).
Proof.
  intros w'. subst w'. unfold _block_finished, bind, get_self. simpl.
  destruct (wallet_state_manager (node w)) as [wsm|] eqn:Hw; [|by eauto 10].
  destruct (backup_initialized (node w)); [|by eauto 10].
  unfold assert_. case_bool_decide; [|by eauto 10]. simpl.
  destruct (_ && _); [|by eauto 10]. simpl.
  unfold call_receive_block. rewrite Hw.
  destruct (receive_block wsm br (Some hb)) as [wsm' res].
  destruct res; simpl; rewrite ?next_block_eq; simpl; try by eauto 10.
  destruct (sync_mode wsm') eqn:Hsync; simpl; rewrite next_block_eq; simpl;
    [by eauto 10|].
  repeat split; eauto.
  intros hh e. rewrite evict_outdated_lookup.
  destruct (cached_blocks (node w) !! hh); [|done]. by case_decide.
Qed.

(** X3. If the state manager accepts the record and [future_block_hashes]
    names a successor that is not in [cached_blocks] when it is looked up
    (never cached, or evicted by this very call), [_block_finished] raises
    [KeyError]; by then the record has been handed to the state manager and
    the node holds the manager's new state. *)
Theorem block_finished_missing_successor
    (w : World W) (br : BlockRecord.t) (hb : HeaderBlock.t) (tf : option bytes)
    (wsm wsm' : W) (res : ReceiveBlockResult) (new_hh : bytes32) :
  wallet_state_manager (node w) = Some wsm →
  backup_initialized (node w) = true →
  is_Some (block_records wsm !! BlockRecord.prev_header_hash br) →
  is_Some (BlockRecord.additions br) →
  is_Some (BlockRecord.removals br) →
  receive_block wsm br (Some hb) = (wsm', res) →
  res = ADDED_TO_HEAD ∨ res = ADDED_AS_ORPHAN →
  future_block_hashes (node w) !! BlockRecord.header_hash br = Some new_hh →
  cached_blocks (node w) !! new_hh = None
  ∨ (res = ADDED_TO_HEAD ∧ sync_mode wsm' = false
     ∧ ∃ e, cached_blocks (node w) !! new_hh = Some e
            ∧ BlockRecord.height br - BlockRecord.height e.1.1 > 100) →
  let run := _block_finished br hb tf w in
  run.1 = Raise KeyError
  ∧ wallet_state_manager (node run.2) = Some wsm'
  ∧ submitted run.2 = submitted w ++ [(br, Some hb)].
Proof.
  intros Hw Hb Hprev Ha Hr Hrecv Hres Hfut Hmissing run. subst run.
  rewrite (block_finished_eq w br hb tf wsm wsm' res) by done.
  destruct Hres as [-> | ->].
  - destruct (sync_mode wsm') eqn:Hsync; rewrite next_block_eq; simpl;
      rewrite Hfut.
    + destruct Hmissing as [-> | (_ & Hno & _)]; [done | congruence].
    + rewrite evict_outdated_lookup.
      destruct Hmissing as [-> | (_ & _ & e & -> & Hold)]; [done|].
      by rewrite decide_True.
  - rewrite next_block_eq; simpl. rewrite Hfut.
    destruct Hmissing as [-> | (Hno & _)]; [done | discriminate].
Qed.
End BlockFinishedMore.

(** *** What the header handler sends and commits *)

Section HandlerEffects.
Context {W : Type} `{StateManager W}.

(** What a call of [_block_finished] can change. *)
Lemma block_finished_effects (br : BlockRecord.t) (hb : HeaderBlock.t)
    (tf : option bytes) (w : World W) :
  let w' := (_block_finished br hb tf w).2 in
  trace w' = trace w
  ∧ (submitted w' = submitted w ∨ submitted w' = submitted w ++ [(br, Some hb)])
  ∧ potential_blocks_received (node w') = potential_blocks_received (node w)
  ∧ potential_header_hashes (node w') = potential_header_hashes (node w)
  ∧ (∀ hh e, cached_blocks (node w') !! hh = Some e →
             cached_blocks (node w) !! hh = Some e).
Proof.
  intros w'. subst w'. unfold _block_finished, bind, get_self. simpl.
  destruct (wallet_state_manager (node w)) as [wsm|] eqn:Hw; [|by eauto 10].
  destruct (backup_initialized (node w)); [|by eauto 10].
  unfold assert_. case_bool_decide; [|by eauto 10]. simpl.
  destruct (_ && _); [|by eauto 10]. simpl.
  unfold call_receive_block. rewrite Hw.
  destruct (receive_block wsm br (Some hb)) as [wsm' res].
  destruct res; simpl; rewrite ?next_block_eq; simpl; try by eauto 10.
  destruct (sync_mode wsm'); simpl; rewrite next_block_eq; simpl; [by eauto 10|].
  repeat split; eauto. intros hh e. rewrite evict_outdated_lookup.
  destruct (cached_blocks (node w) !! hh); [|done]. by case_decide.
Qed.

Lemma arrive_signals_noted (sync : bool) (block : HeaderBlock.t)
    (self : WalletNode W) :
  signals_noted self → signals_noted (arrive sync block self).
Proof.
  intros Hnoted. unfold arrive, mark_received. destruct sync; [|done].
  destruct (potential_blocks_received self !! HeaderBlock.height block); [|done].
  intros h. simpl.
  destruct (decide (h = HeaderBlock.height block)) as [->|Hne].
  - intros _. rewrite lookup_insert_eq. by eauto.
  - rewrite !lookup_insert_ne by done. apply Hnoted.
Qed.

(** What one turn of the handler can change on a started node. *)
Lemma respond_header_turn_effects (response : RespondHeader) (w w' : World W)
    (wsm : W) (r : outcome RespondHeader) :
  wallet_state_manager (node w) = Some wsm →
  respond_header_turn response w = (r, w') →
  let block := header_block response in
  is_Some (wallet_state_manager (node w'))
  ∧ backup_initialized (node w') = backup_initialized (node w)
  ∧ (∃ es, trace w' = trace w ++ es
           ∧ (length es ≤ 1)%nat
           ∧ forallb handler_request es = true
           ∧ (∀ next, r = Val next → es = []))
  ∧ (submitted w' = submitted w
     ∨ submitted w'
       = submitted w ++ [(without_transactions (record_of_header block), Some block)])
  ∧ (signals_noted (node w) → signals_noted (node w')).
Proof.
  intros Hw. rewrite (respond_header_turn_cases response w wsm Hw). cbv zeta.
  set (block := header_block response).
  pose proof (arrive_frame (sync_mode wsm) block (node w))
    as (Haw & Hab & Has & _ & _).
  pose proof (arrive_signals_noted (sync_mode wsm) block (node w)) as Hnoted.
  assert (∀ x : World W, ∃ es : list Effect,
            trace x = trace x ++ es ∧ (length es ≤ 1)%nat
            ∧ forallb handler_request es = true
            ∧ ∀ next : RespondHeader, r = Val next → es = []) as Hsilent.
  { intros x. exists []. rewrite app_nil_r. repeat split; simpl; lia. }
  destruct (_shut_down (node w));
    [intros [= <- <-]; rewrite Hw; by eauto 10|].
  destruct (bool_decide _); [intros [= <- <-]; rewrite Hw; by eauto 10|].
  destruct (bool_decide _); [intros [= <- <-]; rewrite Hw; by eauto 10|].
  clear Hsilent.
  destruct (block_records wsm !! HeaderBlock.prev_header_hash block) eqn:Hprev.
  - destruct (_ || _).
    + intros [= <- <-]. simpl. rewrite Haw, Hab.
      split; [by eauto|]. split; [done|].
      split; [|by eauto]. eexists. split; [done|]. split; [simpl; lia|done].
    + set (w1 := with_node _ w).
      pose proof (block_finished_effects
                    (without_transactions (record_of_header block)) block
                    (Some (transactions_filter response)) w1)
        as (Ht & Hs & Hp & Hh & _).
      pose proof (block_finished_frame
                    (without_transactions (record_of_header block)) block
                    (Some (transactions_filter response)) w1 wsm)
        as (Hfw & Hfb & _); [by (subst w1; simpl; rewrite Haw)|].
      cbv zeta in Ht, Hs, Hp, Hh, Hfw, Hfb.
      destruct (_block_finished _ _ _ w1) as [[[next|]| |e|] w2];
        intros [= <- <-]; simpl in *;
        (split; [done|]); (split; [by rewrite Hfb, Hab|]);
        (split; [rewrite Ht; exists []; rewrite app_nil_r;
                 repeat split; simpl; lia|]);
        (split; [done|]);
        intros Hn; specialize (Hnoted Hn);
        intros h; rewrite Hp, Hh; apply Hnoted.
  - destruct (block_records wsm !! lca wsm).
    + intros [= <- <-]. simpl. rewrite Haw, Hab.
      split; [by eauto|]. split; [done|].
      split; [|by eauto]. eexists. split; [done|].
      split; [by destruct (_ && _); simpl; lia|]. by destruct (_ && _).
    + intros [= <- <-]. simpl. rewrite Haw, Hab.
      split; [by eauto|]. split; [done|].
      split; [|by eauto]. exists []. rewrite app_nil_r.
      repeat split; simpl; lia.
Qed.

Lemma no_request (l : list Effect) :
  ∃ es, l = l ++ es ∧ (length es ≤ 1)%nat ∧ forallb handler_request es = true.
Proof. exists []. rewrite app_nil_r. repeat split. simpl. lia. Qed.

Lemma no_commit (l : list (BlockRecord.t * option HeaderBlock.t)) :
  ∃ recs, l = l ++ recs ∧ Forall bare_commit recs.
Proof. exists []. by rewrite app_nil_r. Qed.

Lemma respond_header_loop_effects (fuel : nat) :
  ∀ (response : RespondHeader) (w : World W) (wsm : W),
    wallet_state_manager (node w) = Some wsm →
    let w' := (respond_header_loop fuel response w).2 in
    (∃ es, trace w' = trace w ++ es ∧ (length es ≤ 1)%nat
           ∧ forallb handler_request es = true)
    ∧ (∃ recs, submitted w' = submitted w ++ recs ∧ Forall bare_commit recs)
    ∧ (signals_noted (node w) → signals_noted (node w')).
Proof.
  induction fuel as [|fuel IH]; intros response w wsm Hw; simpl.
  { split; [apply no_request|]. split; [apply no_commit|done]. }
  unfold bind.
  destruct (respond_header_turn response w) as [r w1] eqn:Hturn.
  pose proof (respond_header_turn_effects response w w1 wsm r Hw Hturn)
    as ([wsm1 Hw1] & _ & (es & Ht & Hlen & Hreq & Hval) & Hsub & Hnoted).
  assert (∃ recs, submitted w1 = submitted w ++ recs ∧ Forall bare_commit recs)
    as (recs & Hrecs & Hbare).
  { destruct Hsub as [-> | ->].
    - apply no_commit.
    - eexists. split; [done|]. apply Forall_singleton. by eexists. }
  destruct r as [next| |e|]; simpl;
    [|split; [by exists es|split; [exists recs; by split|done]]..].
  specialize (IH next w1 wsm1 Hw1). cbv zeta in IH.
  destruct IH as ((es' & Ht' & Hlen' & Hreq') & (recs' & Hrecs' & Hbare') & Hnoted').
  rewrite (Hval next eq_refl), app_nil_r in Ht.
  split; [exists es'; by rewrite Ht', Ht|].
  split; [|intros Hn; apply Hnoted', Hnoted, Hn].
  exists (recs ++ recs'). rewrite Hrecs', Hrecs, app_assoc.
  split; [done|]. by apply Forall_app.
Qed.

(** X4. A call of [_respond_header] sends the peer at most one message, and
    that message is a [request_header] or a [request_additions]: the
    branches that send end the handler, and committing a block sends
    nothing. *)
Theorem respond_header_sends_at_most_one_request
    (fuel : nat) (response : RespondHeader) (w : World W) :
  ∃ es, trace (_respond_header fuel response w).2 = trace w ++ es
        ∧ (length es ≤ 1)%nat
        ∧ forallb handler_request es = true.
Proof.
  unfold _respond_header, proc, bind, get_self. simpl.
  destruct (wallet_state_manager (node w)) as [wsm|] eqn:Hw;
    [|apply no_request].
  destruct (backup_initialized (node w)); [|apply no_request].
  pose proof (respond_header_loop_effects fuel response w wsm Hw) as (Ht & _).
  cbv zeta in Ht. by destruct (respond_header_loop fuel response w) as [[| | |] w'].
Qed.




(** X6. [_respond_header] keeps the two sync maps in step: if every signal
    that is set has its header hash noted before the call, the same holds
    after it, so a waiter woken by a signal finds the hash it goes on to
    read. *)
Theorem respond_header_keeps_signals_noted
    (fuel : nat) (response : RespondHeader) (w : World W) :
  signals_noted (node w) →
  signals_noted (node (_respond_header fuel response w).2).
Proof.
  intros Hnoted. unfold _respond_header, proc, bind, get_self. simpl.
  destruct (wallet_state_manager (node w)) as [wsm|] eqn:Hw; [|done].
  destruct (backup_initialized (node w)); [|done].
  pose proof (respond_header_loop_effects fuel response w wsm Hw) as (_ & _ & Hn).
  cbv zeta in Hn. specialize (Hn Hnoted).
  by destruct (respond_header_loop fuel response w) as [[| | |] w'].
Qed.
End HandlerEffects.

(** *** The header handler ends *)

Section Termination.
Context {W : Type} `{StateManager W}.

(** How a turn of the handler on a started node can end, and where the
    entries of the cache and the next response come from. *)
Lemma respond_header_turn_progress (response : RespondHeader) (w w1 : World W)
    (s : W) (r : outcome RespondHeader) :
  wallet_state_manager (node w) = Some s →
  backup_initialized (node w) = true →
  respond_header_turn response w = (r, w1) →
  (r ≠ Fuel ∧ ∀ e, r = Raise e → e = KeyError)
  ∧ (∀ k e, cached_blocks (node w1) !! k = Some e →
            cached_blocks (node w) !! k = Some e
            ∨ e.1.2 = header_block response)
  ∧ (∀ next, r = Val next →
       block_records s !! HeaderBlock.header_hash (header_block response) = None
       ∧ ∃ k e, cached_blocks (node w1) !! k = Some e
                ∧ e.1.2 = header_block next).
Proof.
  intros Hw Hb. rewrite (respond_header_turn_cases response w s Hw). cbv zeta.
  set (block := header_block response).
  pose proof (arrive_frame (sync_mode s) block (node w))
    as (Haw & Hab & Has & Hac & _).
  assert (∀ k e,
            <[HeaderBlock.header_hash block :=
                (record_of_header block, block, transactions_filter response)]>
              (cached_blocks (node w)) !! k = Some e →
            cached_blocks (node w) !! k = Some e ∨ e.1.2 = block) as Hins.
  { intros k e. destruct (decide (k = HeaderBlock.header_hash block)) as [->|Hne].
    - rewrite lookup_insert_eq. intros [= <-]. by right.
    - rewrite lookup_insert_ne by done. by left. }
  destruct (_shut_down (node w)); [intros [= <- <-]; repeat split; try done; by eauto|].
  destruct (block_records s !! HeaderBlock.header_hash block) eqn:Hknown.
  { rewrite bool_decide_eq_true_2 by eauto. intros [= <- <-]. repeat split; try done; by eauto. }
  rewrite bool_decide_eq_false_2 by (by intros [? ?]).
  destruct (bool_decide _); [intros [= <- <-]; repeat split; try done; by eauto|].
  destruct (block_records s !! HeaderBlock.prev_header_hash block) eqn:Hprev.
  - destruct (_ || _).
    { intros [= <- <-]. simpl. rewrite Hac. by repeat split. }
    destruct (receive_block s (without_transactions (record_of_header block))
                (Some block)) as [s' res] eqn:Hrecv.
    rewrite (block_finished_eq _ _ _ _ s s' res);
      [|by (simpl; rewrite ?Haw, ?Hab, ?Hprev)..].
    assert (∀ k e,
              evict_outdated (HeaderBlock.height block)
                (<[HeaderBlock.header_hash block :=
                     (record_of_header block, block, transactions_filter response)]>
                   (cached_blocks (node w))) !! k = Some e →
              cached_blocks (node w) !! k = Some e ∨ e.1.2 = block) as Hev.
    { intros k e. rewrite evict_outdated_lookup.
      destruct (_ !! k) as [e'|] eqn:Hk; [|done].
      case_decide; [done|]. intros [= <-]. by apply Hins. }
    destruct res; simpl; rewrite ?next_block_eq; simpl; rewrite ?Hac.
    + destruct (sync_mode s'); rewrite ?next_block_eq; simpl; rewrite ?Hac;
        (destruct (future_block_hashes _ !! _) as [new_hh|];
         [|intros [= <- <-]; simpl; rewrite ?Hac; repeat split; try done; by eauto]);
        (destruct (_ !! new_hh) as [[[nbr nhb] ntf]|] eqn:Hnext;
         intros [= <- <-]; simpl; rewrite ?Hac;
         (split; [split; [done|by intros ? [= <-]]|]);
         (split; [done|]); [|done..]).
      * intros next [= <-]. split; [done|]. by exists new_hh, (nbr, nhb, ntf).
      * intros next [= <-]. split; [done|]. by exists new_hh, (nbr, nhb, ntf).
    + destruct (future_block_hashes _ !! _) as [new_hh|];
        [|intros [= <- <-]; simpl; rewrite ?Hac; repeat split; try done; by eauto].
      destruct (_ !! new_hh) as [[[nbr nhb] ntf]|] eqn:Hnext;
        intros [= <- <-]; simpl; rewrite ?Hac;
        (split; [split; [done|by intros ? [= <-]]|]);
        (split; [done|]); [|done].
      intros next [= <-]. split; [done|]. by exists new_hh, (nbr, nhb, ntf).
    + intros [= <- <-]; simpl; rewrite ?Hac; repeat split; try done; by eauto.
    + intros [= <- <-]; simpl; rewrite ?Hac; repeat split; try done; by eauto.
    + intros [= <- <-]; simpl; rewrite ?Hac; repeat split; try done; by eauto.
  - destruct (block_records s !! lca s); intros [= <- <-]; simpl; rewrite ?Hac;
      (split; [split; [done|by intros ? [= <-]]|]); by split.
Qed.

Lemma size_list_to_set_le (l : list bytes32) :
  (size (list_to_set l : gset bytes32) ≤ length l)%nat.
Proof.
  induction l as [|x l IH]; [rewrite list_to_set_nil, size_empty; simpl; lia|].
  rewrite list_to_set_cons, size_union_alt, size_singleton, length_cons.
  assert (list_to_set l ∖ {[x]} ⊆ (list_to_set l : gset bytes32)) as Hsub.
  { intros y Hy. by apply elem_of_difference in Hy as [? _]. }
  apply subseteq_size in Hsub. lia.
Qed.

(** What the handler relies on from the state manager here: an accepted
    block is committed, and no commit is undone. *)
Hypothesis Haccepted : ∀ s br hb s' res,
  receive_block s br hb = (s', res) →
  res = ADDED_TO_HEAD ∨ res = ADDED_AS_ORPHAN →
  is_Some (block_records s' !! BlockRecord.header_hash br).
Hypothesis Hkept : ∀ s br hb s' res k,
  receive_block s br hb = (s', res) →
  is_Some (block_records s !! k) → is_Some (block_records s' !! k).

(** Every turn that goes on commits a header of the backlog, so the loop
    ends within as many turns as the backlog has hashes. *)
Lemma respond_header_loop_ends (fuel : nat) :
  ∀ (X : gset bytes32) (response : RespondHeader) (w : World W) (s : W),
    wallet_state_manager (node w) = Some s →
    backup_initialized (node w) = true →
    backlog_within X w →
    is_Some (block_records s !! HeaderBlock.header_hash (header_block response))
    ∨ HeaderBlock.header_hash (header_block response) ∈ X →
    (size X < fuel)%nat →
    (respond_header_loop fuel response w).1 = Exit
    ∨ (respond_header_loop fuel response w).1 = Raise KeyError.
Proof using Haccepted Hkept.
  induction fuel as [|fuel IH]; intros X response w s Hw Hb Hlog Hresp Hsize;
    [lia|].
  simpl. unfold bind.
  destruct (respond_header_turn response w) as [r w1] eqn:Hturn.
  pose proof (respond_header_turn_progress response w w1 s r Hw Hb Hturn)
    as ((Hfuel & Hraise) & Hfrom & Hnext).
  destruct r as [next| |e|]; simpl; [|by left|right; by rewrite (Hraise e)|done].
  destruct (Hnext next eq_refl) as (Hfresh & k & e & Hk & He).
  pose proof (respond_header_turn_continues Haccepted response next w w1 s Hw Hb Hturn)
    as (_ & st & Hwt & Hdone).
  pose proof (respond_header_turn_extends Hkept response w w1 s (Val next) Hw Hturn)
    as (Hb1 & _ & s0 & st' & Hw0 & Hwt' & Hgrow).
  assert (s0 = s) as -> by congruence.
  assert (st' = st) as -> by congruence.
  set (done_hash := HeaderBlock.header_hash (header_block response)) in *.
  assert (done_hash ∈ X) as Hin.
  { destruct Hresp as [[? Hc]|]; [congruence|done]. }
  assert (backlog_within (X ∖ {[done_hash]}) w1) as Hlog1.
  { intros st0 k0 e0 Hst0 Hk0. assert (st0 = st) as -> by congruence.
    destruct (decide (cached_header_hash e0 = done_hash)) as [Heq|Hne];
      [left; by rewrite Heq|].
    destruct (Hfrom k0 e0 Hk0) as [Hold|Hnew].
    - destruct (Hlog s k0 e0 Hw Hold) as [Hc|Hx]; [left; by apply Hgrow|].
      right. apply elem_of_difference. split; [done|].
      by intros ?%elem_of_singleton.
    - exfalso. apply Hne. unfold cached_header_hash. by rewrite Hnew. }
  apply (IH (X ∖ {[done_hash]}) next w1 st); [done|by rewrite Hb1|done| |].
  - rewrite <-He. apply (Hlog1 st k e Hwt Hk).
  - rewrite size_difference by (by apply singleton_subseteq_l).
    rewrite size_singleton.
    assert (size X ≠ 0)%nat; [|lia].
    intros Hz. apply size_empty_inv in Hz.
    apply (not_elem_of_empty (C := gset bytes32) done_hash). by rewrite <-Hz.
Qed.

(** X7. With more fuel than [cached_blocks] has entries plus one, the header
    handler ends by itself: it returns, or it raises [KeyError] (the LCA
    has no record, or a queued successor is not cached).  Every turn of
    its loop that goes on has committed a block that was cached and not
    yet committed. *)
Theorem respond_header_returns
    (fuel : nat) (response : RespondHeader) (w : World W) :
  (size (cached_blocks (node w)) + 1 < fuel)%nat →
  (_respond_header fuel response w).1 = Val tt
  ∨ (_respond_header fuel response w).1 = Raise KeyError.
Proof using Haccepted Hkept.
  intros Hfuel. unfold _respond_header, proc, bind, get_self. simpl.
  destruct (wallet_state_manager (node w)) as [s|] eqn:Hw; [|by left].
  destruct (backup_initialized (node w)) eqn:Hb; [|by left].
  set (X := list_to_set (cached_header_hash <$> (map_to_list (cached_blocks (node w))).*2)
            ∪ {[HeaderBlock.header_hash (header_block response)]} : gset bytes32).
  destruct (respond_header_loop_ends fuel X response w s Hw Hb) as [Hr|Hr].
  - intros s0 k e _ Hk. right. apply elem_of_union_l, elem_of_list_to_set.
    apply list_elem_of_fmap. exists e. split; [done|].
    apply list_elem_of_fmap. exists (k, e). split; [done|].
    by apply elem_of_map_to_list.
  - right. by apply elem_of_union_r, elem_of_singleton.
  - subst X. rewrite size_union_alt.
    pose proof (size_list_to_set_le
                  (cached_header_hash <$> (map_to_list (cached_blocks (node w))).*2))
      as Hle.
    rewrite !length_fmap, length_map_to_list in Hle.
    assert (size ({[HeaderBlock.header_hash (header_block response)]}
                  ∖ list_to_set (cached_header_hash
                                   <$> (map_to_list (cached_blocks (node w))).*2)
                  : gset bytes32) ≤ 1)%nat; [|lia].
    rewrite <-(size_singleton (C := gset bytes32)
                 (HeaderBlock.header_hash (header_block response))).
    apply subseteq_size. intros y Hy. by apply elem_of_difference in Hy as [? _].
  - left. destruct (respond_header_loop fuel response w) as [r w']. simpl in Hr.
    by subst r.
  - right. destruct (respond_header_loop fuel response w) as [r w']. simpl in Hr.
    by subst r.
Qed.
End Termination.

(** *** The queue of successors has no cycle *)

Lemma ranked_entries_acyclic (rank : bytes32 → nat) (m : gmap bytes32 bytes32) :
  (∀ k v, m !! k = Some v → (rank k < rank v)%nat) → acyclic m.
Proof.
  intros Hrank k Hcycle.
  assert (∀ a b, tc (queued_behind m) a b → (rank a < rank b)%nat) as Hup.
  { induction 1 as [a b Hab|a b c Hab _ IH].
    - by apply Hrank.
    - apply Hrank in Hab. lia. }
  specialize (Hup k k Hcycle). lia.
Qed.

Section Acyclic.
Context {W : Type} `{StateManager W}.
Variable rank : bytes32 → nat.

Lemma block_finished_linked (br : BlockRecord.t) (hb : HeaderBlock.t)
    (tf : option bytes) (w : World W) :
  linked rank (node w) → linked rank (node (_block_finished br hb tf w).2).
Proof.
  intros [Hfuture Hcached].
  pose proof (block_finished_future br hb tf w) as Hsame.
  pose proof (block_finished_effects br hb tf w) as (_ & _ & _ & _ & Hsub).
  cbv zeta in Hsub. split.
  - intros k v. rewrite Hsame. apply Hfuture.
  - intros k e Hk. by apply (Hcached k), Hsub.
Qed.

Lemma respond_header_loop_linked (fuel : nat) :
  ∀ (response : RespondHeader) (w w' : World W) (s : W) (r : outcome unit),
    wallet_state_manager (node w) = Some s →
    backup_initialized (node w) = true →
    linked rank (node w) →
    ranked rank (header_block response) →
    respond_header_loop fuel response w = (r, w') →
    linked rank (node w').
Proof.
  induction fuel as [|fuel IH];
    intros response w w' s r Hw Hb Hlinked Hresponse Hrun.
  { by injection Hrun as <- <-. }
  simpl in Hrun. unfold bind in Hrun.
  destruct (respond_header_turn response w) as [rt wt] eqn:Hturn.
  destruct Hlinked as [Hfuture Hcached].
  pose proof (respond_header_turn_future response w wt s rt Hw Hturn)
    as (_ & Hchange).
  pose proof (respond_header_turn_progress response w wt s rt Hw Hb Hturn)
    as (_ & Hfrom & Hnext).
  pose proof (respond_header_turn_effects response w wt s rt Hw Hturn)
    as ([st Hwt] & Hbt & _).
  assert (linked rank (node wt)) as Hlinked.
  { split.
    - intros k v Hk.
      destruct Hchange as [Hsame | (_ & _ & _ & Hins)].
      + rewrite Hsame in Hk. by apply Hfuture.
      + rewrite Hins in Hk.
        destruct (decide (k = HeaderBlock.prev_header_hash (header_block response)))
          as [->|Hne].
        * rewrite lookup_insert_eq in Hk. by injection Hk as <-.
        * rewrite lookup_insert_ne in Hk by done. by apply Hfuture.
    - intros k e Hk. destruct (Hfrom k e Hk) as [Hold | ->]; [|done].
      by apply (Hcached k). }
  destruct rt as [next| |e|]; try by injection Hrun as <- <-.
  destruct (Hnext next eq_refl) as (_ & k & e & Hk & He).
  apply (IH next wt w' st r); [done|by rewrite Hbt|done| |done].
  rewrite <-He. by apply (proj2 Hlinked k).
Qed.

(** C7 (as amended). [future_block_hashes] stays free of cycles: if its
    entries and the cached header blocks are linked along an order on
    hashes (every hash ranks above the hash of the parent), and so is the
    header that arrives, they are linked after [_respond_header] and after
    [_block_finished], and a linked map has no cycle.  What does not hold
    is the other half: [_respond_header] and [_block_finished] never
    remove an entry.  [_block_finished] leaves the map as it is, and the
    only change [_respond_header] makes is to write the entry of a block
    whose parent is not committed, under the parent's hash, as the last
    thing it does; so a key whose entry changed during a call is not
    committed when the call ends, and every key present before is present
    after. *)
Theorem future_block_hashes_entries
    (fuel : nat) (response : RespondHeader) (w : World W) :
  let w' := (_respond_header fuel response w).2 in
  (linked rank (node w) → ranked rank (header_block response) →
   linked rank (node w') ∧ acyclic (future_block_hashes (node w')))
  ∧ (linked rank (node w) →
     ∀ br hb tf,
       linked rank (node (_block_finished br hb tf w).2)
       ∧ acyclic (future_block_hashes (node (_block_finished br hb tf w).2)))
  ∧ (∀ k v, future_block_hashes (node w) !! k = Some v →
            is_Some (future_block_hashes (node w') !! k))
  ∧ (∀ k, future_block_hashes (node w') !! k ≠ future_block_hashes (node w) !! k →
          ∃ wsm', wallet_state_manager (node w') = Some wsm'
                  ∧ block_records wsm' !! k = None)
  ∧ (∀ br hb tf,
       future_block_hashes (node (_block_finished br hb tf w).2)
       = future_block_hashes (node w)).
Proof.
  intros w'.
  assert (linked rank (node w) → ranked rank (header_block response) →
          linked rank (node w')) as Hlinked.
  { intros Hl Hr. subst w'. unfold _respond_header, proc, bind, get_self. simpl.
    destruct (wallet_state_manager (node w)) as [wsm|] eqn:Hw; [|done].
    destruct (backup_initialized (node w)) eqn:Hb; [|done].
    destruct (respond_header_loop fuel response w) as [r w1] eqn:Hloop.
    pose proof (respond_header_loop_linked fuel response w w1 wsm r Hw Hb Hl Hr
                  Hloop).
    by destruct r. }
  split; [|split].
  { intros Hl Hr. split; [by apply Hlinked|].
    apply (ranked_entries_acyclic rank), (Hlinked Hl Hr). }
  { intros Hl br hb tf.
    pose proof (block_finished_linked br hb tf w Hl) as Hl'.
    split; [done|]. apply (ranked_entries_acyclic rank), Hl'. }
  split; [|split]; [| |intros; apply block_finished_future].
  all: subst w'; unfold _respond_header, proc, bind, get_self; simpl.
  all: destruct (wallet_state_manager (node w)) as [wsm|] eqn:Hw; [|by eauto].
  all: destruct (backup_initialized (node w)); [|by eauto].
  all: destruct (respond_header_loop fuel response w) as [r w1] eqn:Hloop.
  all: destruct (respond_header_loop_future fuel response w w1 wsm r Hw Hloop)
         as [Hkept Hnew].
  all: by destruct r.
Qed.
End Acyclic.

(** The blocks of the scenario are linked along their hashes: with the
    block at 202 waiting for 201, the header at 201 commits both and the
    map of queued successors has no cycle. *)
Lemma future_block_hashes_entries_witness :
  acyclic
    (future_block_hashes
       (node (_respond_header 5 (Scenario.respond 201) Scenario.waiting).2)).
Proof.
  refine (proj2 (proj1 (future_block_hashes_entries N.to_nat 5
           (Scenario.respond 201) Scenario.waiting) _ _)).
  - split.
    + intros k v Hk.
      change (future_block_hashes (node Scenario.waiting))
        with ({[Scenario.hash_at 201 := Scenario.hash_at 202]} : gmap N N) in Hk.
      apply lookup_singleton_Some in Hk as [<- <-]. vm_compute. lia.
    + intros k e Hk.
      assert (e = Scenario.cache_entry 202 ∨ e = Scenario.cache_entry 101
              ∨ e = Scenario.cache_entry 100) as [-> | [-> | ->]].
      { change (cached_blocks (node Scenario.waiting))
          with (<[Scenario.hash_at 202 := Scenario.cache_entry 202]>
                  (<[Scenario.hash_at 101 := Scenario.cache_entry 101]>
                     ({[Scenario.hash_at 100 := Scenario.cache_entry 100]}
                      : gmap N (BlockRecord.t * HeaderBlock.t * list Byte.byte))))
          in Hk.
        apply lookup_insert_Some in Hk as [[_ <-] | [_ Hk]]; [by left|].
        apply lookup_insert_Some in Hk as [[_ <-] | [_ Hk]]; [by right; left|].
        apply lookup_singleton_Some in Hk as [_ <-]. by right; right. }
      all: vm_compute; lia.
  - vm_compute. lia.
Defined.

(** Nothing in the handler checks the linking: a header whose hash is the
    hash it gives for its parent is queued behind itself. *)
Lemma future_block_hashes_self_loop :
  let self_parented := {|
    header_block := {|
      HeaderBlock.header_hash := Scenario.hash_at 300;
      HeaderBlock.prev_header_hash := Scenario.hash_at 300;
      HeaderBlock.height := 300;
      HeaderBlock.weight := 301;
      HeaderBlock.total_iters := 3000;
      HeaderBlock.challenge_hash := 3300%N;
      HeaderBlock.timestamp := 300 |};
    transactions_filter := [] |} in
  future_block_hashes
    (node (_respond_header 5 self_parented Scenario.steady).2)
  !! Scenario.hash_at 300 = Some (Scenario.hash_at 300).
Proof. vm_compute. reflexivity. Qed.

(** *** Paths of the header handler *)

Section HandlerPaths.
Context {W : Type} `{StateManager W}.

(** X8. A header is dropped without any effect when the node is shut down,
    when its block is already committed, or when its height is below 1
    (the genesis block): the node, the trace and the state manager are as
    before. *)
Theorem respond_header_drops_known_or_genesis
    (fuel : nat) (response : RespondHeader) (w : World W) (wsm : W) :
  wallet_state_manager (node w) = Some wsm →
  _shut_down (node w) = true
  ∨ is_Some (block_records wsm !! HeaderBlock.header_hash (header_block response))
  ∨ HeaderBlock.height (header_block response) < 1 →
  _respond_header (S fuel) response w = (Val tt, w).
Proof.
  intros Hw Hdrop. unfold _respond_header, proc, bind, get_self. simpl.
  rewrite Hw. destruct (backup_initialized (node w)); [|done].
  unfold bind. rewrite (respond_header_turn_cases response w wsm Hw). cbv zeta.
  destruct (_shut_down (node w)); [done|].
  destruct Hdrop as [? | [Hknown | Hlow]]; [done| |].
  - by rewrite bool_decide_eq_true_2.
  - destruct (bool_decide (is_Some _)); [done|]. by rewrite bool_decide_eq_true_2.
Qed.

(** X9. When the parent is committed and the filter shows additions or
    removals of interest, [_respond_header] caches the block under its
    hash, asks the peer for the additions (also when only removals are of
    interest) and returns: the state manager is not handed the block and
    [future_block_hashes] is as before. *)
Theorem respond_header_requests_additions
    (fuel : nat) (response : RespondHeader) (w : World W) (wsm : W)
    (additions removals : list bytes32) :
  let block := header_block response in
  wallet_state_manager (node w) = Some wsm →
  backup_initialized (node w) = true →
  _shut_down (node w) = false →
  block_records wsm !! HeaderBlock.header_hash block = None →
  1 ≤ HeaderBlock.height block →
  is_Some (block_records wsm !! HeaderBlock.prev_header_hash block) →
  get_filter_additions_removals wsm (record_of_header block)
    (transactions_filter response) = (additions, removals) →
  additions ≠ [] ∨ removals ≠ [] →
  let run := _respond_header (S fuel) response w in
  run.1 = Val tt
  ∧ trace run.2
    = trace w ++ [peer_send_message
                    (request_additions (HeaderBlock.height block)
                       (HeaderBlock.header_hash block) additions)]
  ∧ submitted run.2 = submitted w
  ∧ wallet_state_manager (node run.2) = Some wsm
  ∧ cached_blocks (node run.2)
    = <[HeaderBlock.header_hash block :=
          (record_of_header block, block, transactions_filter response)]>
        (cached_blocks (node w))
  ∧ future_block_hashes (node run.2) = future_block_hashes (node w).
Proof.
  intros block Hw Hb Hs Hnew Hheight [p Hprev] Hfilter Hcoins run. subst run.
  unfold _respond_header, proc, bind, get_self. simpl.
  rewrite Hw, Hb. unfold bind.
  rewrite (respond_header_turn_cases response w wsm Hw). cbv zeta. fold block.
  rewrite Hs, Hnew, Hprev, Hfilter.
  rewrite (bool_decide_eq_false_2 (is_Some None)) by (by intros [? ?]).
  rewrite (bool_decide_eq_false_2 (HeaderBlock.height block < 1)) by lia.
  pose proof (arrive_frame (sync_mode wsm) block (node w))
    as (Haw & _ & _ & Hac & Haf).
  cbn [fst snd].
  assert (bool_decide (0 < length additions)%nat
          || bool_decide (0 < length removals)%nat = true) as ->.
  { destruct Hcoins as [Hne | Hne].
    - destruct additions; [done|]. rewrite bool_decide_eq_true_2; [done|].
      rewrite length_cons. lia.
    - destruct removals; [done|].
      rewrite (bool_decide_eq_true_2 (0 < length (_ :: _))%nat);
        [by rewrite orb_true_r|]. rewrite length_cons. lia. }
  simpl. by rewrite Haw, Hac, Haf.
Qed.
End HandlerPaths.

Lemma block_finished_rejects_unprepared_record_witness :
  _block_finished (Scenario.pending_record 201) (Scenario.header 201) (Some [])
    Scenario.steady
  = (Raise AssertionError, Scenario.steady).
Proof.
  apply (block_finished_rejects_unprepared_record Scenario.steady
           (Scenario.pending_record 201) (Scenario.header 201) (Some [])
           (Scenario.manager_at 200)).
  - reflexivity.
  - reflexivity.
  - right. left. reflexivity.
Defined.

Lemma block_finished_missing_successor_witness :
  (_block_finished (Scenario.finished_record 201) (Scenario.header 201) (Some [])
     MoreScenario.stale_successor).1 = Raise KeyError.
Proof.
  refine (proj1 (block_finished_missing_successor MoreScenario.stale_successor
           (Scenario.finished_record 201) (Scenario.header 201) (Some [])
           (Scenario.manager_at 200)
           (Reference.receive (Scenario.manager_at 200)
              (Scenario.finished_record 201) (Some (Scenario.header 201))).1
           ADDED_TO_HEAD (Scenario.hash_at 1201) _ _ _ _ _ _ _ _ _)).
  - reflexivity.
  - reflexivity.
  - vm_compute. eauto.
  - vm_compute. eauto.
  - vm_compute. eauto.
  - vm_compute. reflexivity.
  - left. reflexivity.
  - vm_compute. reflexivity.
  - right. split; [reflexivity|]. split; [reflexivity|].
    exists (Scenario.cache_entry 100). split; [vm_compute; reflexivity|].
    vm_compute. reflexivity.
Defined.

Lemma respond_header_drops_known_or_genesis_witness :
  _respond_header 1 (Scenario.respond 200) Scenario.steady = (Val tt, Scenario.steady).
Proof.
  apply (respond_header_drops_known_or_genesis 0 (Scenario.respond 200)
           Scenario.steady (Scenario.manager_at 200)).
  - reflexivity.
  - right. left. vm_compute. eauto.
Defined.

Lemma respond_header_requests_additions_witness :
  trace (_respond_header 1 (MoreScenario.respond_with_filter 201)
           MoreScenario.watching).2
  = [peer_send_message (request_additions 201 (Scenario.hash_at 201) [77%N])]
  ∧ submitted (_respond_header 1 (MoreScenario.respond_with_filter 201)
                 MoreScenario.watching).2 = [].
Proof.
  pose proof (respond_header_requests_additions 0
                (MoreScenario.respond_with_filter 201) MoreScenario.watching
                {| Watching.inner := Scenario.manager_at 200; Watching.watched := 77%N |}
                [77%N] []) as Hrun.
  cbv zeta in Hrun.
  destruct Hrun as (_ & Htrace & Hsubmitted & _).
  - reflexivity.
  - reflexivity.
  - reflexivity.
  - vm_compute. reflexivity.
  - vm_compute. discriminate.
  - vm_compute. eauto.
  - reflexivity.
  - left. discriminate.
  - split; [exact Htrace | exact Hsubmitted].
Defined.

Lemma respond_header_keeps_signals_noted_witness :
  signals_noted (node (_respond_header 3 (Scenario.respond 202)
                         MoreScenario.mid_sync).2).
Proof.
  apply (respond_header_keeps_signals_noted 3 (Scenario.respond 202)
           MoreScenario.mid_sync).
  intros h. vm_compute.
  destruct h as [|p|p]; try discriminate.
  do 8 (destruct p as [p|p|]; try discriminate). eauto.
Defined.

Lemma respond_header_returns_witness :
  (_respond_header 5 (Scenario.respond 201) Scenario.waiting).1 = Val tt
  ∨ (_respond_header 5 (Scenario.respond 201) Scenario.waiting).1 = Raise KeyError.
Proof.
  apply (respond_header_returns reference_accepted reference_kept 5
           (Scenario.respond 201) Scenario.waiting).
  vm_compute. lia.
Defined.

(** *** The resend queue *)

Section ResendFacts.
Context {W : Type} `{StateManager W}.
Variable action_data_of : string → option (option bytes32 * option Z).

Lemma with_effects_nil (w : World W) : with_effects [] w = w.
Proof. destruct w. unfold with_effects. simpl. by rewrite app_nil_r. Qed.

Lemma with_effects_app (es es' : list Effect) (w : World W) :
  with_effects es' (with_effects es w) = with_effects (es ++ es') w.
Proof. unfold with_effects. simpl. by rewrite app_assoc. Qed.

Lemma for_each_emit {A} (f : A → Effect) (xs : list A) (w : World W) :
  for_each xs (λ x, emit (f x)) w = (Val tt, with_effects (f <$> xs) w).
Proof.
  revert w. induction xs as [|x xs IH]; intros w; simpl.
  - by rewrite with_effects_nil.
  - unfold bind, emit at 1. rewrite IH. unfold with_effects. simpl.
    by rewrite <-app_assoc.
Qed.

Lemma omap_spend_bundle (records : list TransactionRecord) :
  omap (λ record,
          match spend_bundle record with
          | None => None
          | Some sb => Some (send_transaction sb)
          end) records
  = send_transaction <$> omap spend_bundle records.
Proof.
  induction records as [|record records IH]; [done|]. csimpl.
  destruct (spend_bundle record); csimpl; by rewrite IH.
Qed.

Lemma messages_to_resend_eq (w : World W) (wsm : W) :
  wallet_state_manager (node w) = Some wsm →
  _messages_to_resend w
  = (Val (if negb (backup_initialized (node w)) || _shut_down (node w)
          then [] else unsent_transactions wsm), w).
Proof.
  intros Hw. unfold _messages_to_resend, bind, get_self. simpl. rewrite Hw.
  destruct (_ || _); [done|]. unfold ret, unsent_transactions.
  by rewrite omap_spend_bundle.
Qed.

(** X10. On a started node [_on_connect] sends the peer one
    [send_transaction] per unsent record that has a spend bundle, in the
    order of the store, and nothing else; a node that is shut down sends
    nothing.  The node itself is not changed. *)
Theorem on_connect_sends_unsent_transactions (w : World W) (wsm : W) :
  wallet_state_manager (node w) = Some wsm →
  backup_initialized (node w) = true →
  _on_connect w
  = (Val tt,
     with_effects
       (if _shut_down (node w) then []
        else peer_send_message <$> unsent_transactions wsm) w).
Proof.
  intros Hw Hb. unfold _on_connect, proc, bind at 1, get_self at 1.
  rewrite Hw, Hb. unfold bind. rewrite (messages_to_resend_eq w wsm Hw), Hb.
  simpl. rewrite (for_each_emit peer_send_message).
  by destruct (_shut_down (node w)).
Qed.

Lemma action_messages_loop_pure (actions : list WalletAction) :
  ∀ (result : list Message) (w : World W),
    (action_messages_loop action_data_of actions result w).2 = w.
Proof.
  induction actions as [|action actions IH]; intros result w; simpl; [done|].
  destruct (action_data_of (action_data action)) as [[hh ht]|]; [|done].
  destruct (String.eqb _ _); [|apply IH].
  destruct hh, ht; first [apply IH | done].
Qed.

Lemma action_messages_loop_val (actions : list WalletAction) :
  ∀ (result : list Message) (w : World W),
    Forall (λ action, ¬ malformed action_data_of action) actions →
    (action_messages_loop action_data_of actions result w).1
    = Val (result ++ omap (generator_request action_data_of) actions).
Proof.
  induction actions as [|action actions IH]; intros result w Hgood; simpl.
  { by rewrite app_nil_r. }
  apply Forall_cons in Hgood as [Hhead Hgood].
  unfold malformed, generator_request in *.
  destruct (action_data_of (action_data action)) as [[hh ht]|]; [|done].
  destruct (String.eqb (action_name action) "request_generator") eqn:Hname.
  - apply String.eqb_eq in Hname.
    destruct hh as [hh|]; [|exfalso; apply Hhead; by eauto].
    destruct ht as [ht|]; [|exfalso; apply Hhead; by eauto].
    rewrite (IH _ w Hgood). by rewrite <-app_assoc.
  - by rewrite (IH _ w Hgood).
Qed.

Lemma action_messages_loop_raise (actions : list WalletAction) :
  ∀ (result : list Message) (w : World W),
    Exists (malformed action_data_of) actions →
    (action_messages_loop action_data_of actions result w).1 = Raise ValueError.
Proof.
  induction actions as [|action actions IH]; intros result w Hbad; simpl.
  { by apply Exists_nil in Hbad. }
  destruct (decide (action_data_of (action_data action) = None)) as [->|Hparsed];
    [done|].
  destruct (action_data_of (action_data action)) as [[hh ht]|] eqn:Hdata; [|done].
  apply Exists_cons in Hbad.
  destruct (String.eqb (action_name action) "request_generator") eqn:Hname.
  - destruct hh as [hh|]; [|done]. destruct ht as [ht|]; [|done].
    apply IH. destruct Hbad as [Hhead|Htail]; [|done].
    unfold malformed in Hhead. rewrite Hdata in Hhead.
    by destruct Hhead as [_ [?|?]].
  - apply IH. destruct Hbad as [Hhead|Htail]; [|done].
    unfold malformed in Hhead. rewrite Hdata in Hhead.
    destruct Hhead as [Heq _]. apply String.eqb_neq in Hname. done.
Qed.

(** X11. [_action_messages] reads the data of every pending action, whatever
    its name.  On a started node it answers with one [request_generator]
    per well-formed action of that name, in the order of the store, when
    no pending action is malformed, and raises otherwise; it changes
    nothing. *)
Theorem action_messages_reads_every_action (w : World W) (wsm : W) :
  wallet_state_manager (node w) = Some wsm →
  backup_initialized (node w) = true →
  let actions := action_store_get_all_pending_actions wsm in
  (_action_messages action_data_of w).2 = w
  ∧ (Forall (λ action, ¬ malformed action_data_of action) actions →
     (_action_messages action_data_of w).1
     = Val (omap (generator_request action_data_of) actions))
  ∧ (Exists (malformed action_data_of) actions →
     (_action_messages action_data_of w).1 = Raise ValueError).
Proof.
  intros Hw Hb actions. unfold _action_messages, bind, get_self. simpl.
  rewrite Hw, Hb. split; [apply action_messages_loop_pure|].
  split; intros Hactions.
  - by rewrite action_messages_loop_val.
  - by apply action_messages_loop_raise.
Qed.

Lemma resend_each_running (msgs : list Message) (w : World W) :
  resend_guard (node w) = false →
  resend_each msgs w = (Val tt, with_effects (server_send_to_all <$> msgs) w).
Proof.
  intros Hguard. unfold resend_each.
  revert w Hguard. induction msgs as [|msg msgs IH]; intros w Hguard; simpl.
  - by rewrite with_effects_nil.
  - unfold bind at 1, bind at 1, get_self at 1. rewrite Hguard.
    unfold emit at 1. rewrite IH by done. unfold with_effects. simpl.
    by rewrite <-app_assoc.
Qed.

(** X12. On a running node [_resend_queue] broadcasts the unsent
    transactions and then the generator requests of the pending actions,
    each as one [send_to_all], and changes nothing else.  If a pending
    action is malformed it raises instead of broadcasting any request,
    but only after the transactions have gone out. *)
Theorem resend_queue_broadcasts (w : World W) (srv : ChiaServer) (wsm : W) :
  _shut_down (node w) = false →
  server (node w) = Some srv →
  wallet_state_manager (node w) = Some wsm →
  backup_initialized (node w) = true →
  let actions := action_store_get_all_pending_actions wsm in
  (Forall (λ action, ¬ malformed action_data_of action) actions →
   _resend_queue action_data_of w
   = (Val tt,
      with_effects
        (server_send_to_all
           <$> (unsent_transactions wsm
                ++ omap (generator_request action_data_of) actions)) w))
  ∧ (Exists (malformed action_data_of) actions →
     _resend_queue action_data_of w
     = (Raise ValueError,
        with_effects (server_send_to_all <$> unsent_transactions wsm) w)).
Proof.
  intros Hs Hsrv Hw Hb actions.
  assert (resend_guard (node w) = false) as Hguard.
  { unfold resend_guard. by rewrite Hs, Hsrv, Hw. }
  assert (_resend_queue action_data_of w
          = match _action_messages action_data_of
                    (with_effects (server_send_to_all <$> unsent_transactions wsm) w)
            with
            | (Val msgs, w1) =>
                (Val tt, with_effects (server_send_to_all <$> msgs) w1)
            | (Exit, w1) => (Val tt, w1)
            | (Raise e, w1) => (Raise e, w1)
            | (Fuel, w1) => (Fuel, w1)
            end) as ->.
  { unfold _resend_queue, proc, bind at 1, get_self at 1. rewrite Hguard.
    unfold bind at 1. rewrite (messages_to_resend_eq w wsm Hw), Hb, Hs. simpl.
    unfold bind at 1. rewrite (resend_each_running _ w Hguard).
    unfold bind at 1.
    destruct (_action_messages _ _) as [[msgs| |e|] w1] eqn:Hactions; try done.
    rewrite resend_each_running; [done|].
    assert (w1 = with_effects (server_send_to_all <$> unsent_transactions wsm) w)
      as ->; [|done].
    unfold _action_messages, bind, get_self in Hactions. simpl in Hactions.
    rewrite Hw, Hb in Hactions.
    pose proof (action_messages_loop_pure actions []
                  (with_effects (server_send_to_all <$> unsent_transactions wsm) w))
      as Hpure.
    fold actions in Hactions. by rewrite Hactions in Hpure. }
  set (w0 := with_effects (server_send_to_all <$> unsent_transactions wsm) w).
  assert ((_action_messages action_data_of w0).2 = w0
          ∧ (_action_messages action_data_of w0).1
            = (action_messages_loop action_data_of actions [] w0).1)
    as [Hpure Hrun].
  { unfold _action_messages, bind, get_self. simpl. rewrite Hw, Hb.
    split; [apply action_messages_loop_pure|done]. }
  split; intros Hactions.
  - rewrite (action_messages_loop_val actions [] w0 Hactions) in Hrun.
    destruct (_action_messages action_data_of w0) as [r w1].
    simpl in Hpure, Hrun. subst r w1. simpl.
    subst w0. by rewrite with_effects_app, fmap_app.
  - rewrite (action_messages_loop_raise actions [] w0 Hactions) in Hrun.
    destruct (_action_messages action_data_of w0) as [r w1].
    simpl in Hpure, Hrun. by subst r w1.
Qed.
End ResendFacts.

(** *** The verdict of [has_full_node] *)

Section PeerVerdict.
Context {W : Type}.
Variable gethostbyname : string → option string.

Lemma close_loop_val (pinned resolved : PeerInfo)
    (connections : list WSChiaConnection) (w : World W) :
  (for_each connections (λ connection,
     bind (if bool_decide (get_peer_info connection ≠ pinned)
              && bool_decide (get_peer_info connection ≠ resolved)
           then emit (log_info (closing_unnecessary_connection_to
                                  (get_peer_info connection)))
           else ret tt)
          (λ _, emit (connection_close connection))) w).1 = Val tt.
Proof.
  destruct (close_loop_closes_all pinned resolved connections w) as (w' & -> & _).
  done.
Qed.

(** X13. [has_full_node] answers [True] exactly when a server is set, a
    full-node peer is configured, its host name resolves, and one of the
    full-node connections goes to the peer under its configured or its
    resolved address.  In every other case (the answer [False], the failed
    assertion on the server, the failed name resolution) nothing is
    logged and no connection is closed. *)
Theorem has_full_node_verdict (w : World W) :
  ((has_full_node gethostbyname w).1 = Val true
   ↔ ∃ srv pinned resolved_host,
       server (node w) = Some srv
       ∧ full_node_peer (config (node w)) = Some pinned
       ∧ gethostbyname (host pinned) = Some resolved_host
       ∧ (pinned ∈ (get_peer_info <$> get_full_node_connections srv)
          ∨ {| host := resolved_host; port := port pinned |}
            ∈ (get_peer_info <$> get_full_node_connections srv)))
  ∧ ((has_full_node gethostbyname w).1 ≠ Val true →
     (has_full_node gethostbyname w).2 = w).
Proof.
  destruct (has_full_node gethostbyname w) as [r w'] eqn:Hrun. simpl.
  unfold has_full_node in Hrun. unfold bind at 1, get_self in Hrun.
  destruct (server (node w)) as [srv|] eqn:Hsrv.
  2: { injection Hrun as <- <-. split; [|done]. split; [done|].
       by intros (? & ? & ? & ? & _). }
  destruct (full_node_peer (config (node w))) as [pinned|] eqn:Hpinned.
  2: { injection Hrun as <- <-. split; [|done]. split; [done|].
       by intros (? & ? & ? & _ & ? & _). }
  destruct (gethostbyname (host pinned)) as [resolved_host|] eqn:Hresolved.
  2: { injection Hrun as <- <-. split; [|done]. split; [done|].
       intros (? & p & ? & _ & [= <-] & ? & _). congruence. }
  destruct (bool_decide (pinned ∈ _) || bool_decide (_ ∈ _)) eqn:Hconnected.
  - unfold bind at 1, emit at 1 in Hrun. unfold bind at 1 in Hrun.
    set (w1 := {| node := node w;
                  trace := trace w ++ [log_info (already_connected_to pinned)];
                  submitted := submitted w; ticks := ticks w |}) in Hrun.
    pose proof (close_loop_val pinned
                  {| host := resolved_host; port := port pinned |}
                  (get_full_node_connections srv) w1) as Hloop.
    destruct (for_each _ _ w1) as [r2 w2]. simpl in Hloop. subst r2.
    injection Hrun as <- <-.
    split; [|done]. split; [|done]. intros _.
    exists srv, pinned, resolved_host. repeat split; try done.
    apply orb_true_iff in Hconnected as [Hin|Hin];
      apply bool_decide_eq_true in Hin; by eauto.
  - injection Hrun as <- <-. split; [|done]. split; [done|].
    intros (? & p & r & [= <-] & [= <-] & Hr & Hin). exfalso.
    assert (r = resolved_host) as -> by congruence.
    apply orb_false_iff in Hconnected as [Hout1 Hout2].
    apply bool_decide_eq_false in Hout1, Hout2. by destruct Hin.
Qed.
End PeerVerdict.

(** *** The sampler *)

Section SamplerFacts.
Context {W : Type} `{StateManager W}.

Lemma difficulty_at_step (proofs : list ProofHashTriple) (a : Z)
    (triple : ProofHashTriple) :
  0 ≤ a →
  proofs !! Z.to_nat a = Some triple →
  difficulty_at proofs a = default (difficulty_at proofs (a - 1)) triple.1.2.
Proof.
  intros Ha Hlook. unfold difficulty_at.
  replace (Z.to_nat (a + 1)) with (S (Z.to_nat a)) by lia.
  replace (Z.to_nat (a - 1 + 1)) with (Z.to_nat a) by lia.
  rewrite (take_S_r _ _ _ Hlook), foldl_app. done.
Qed.

Lemma difficulty_map_loop (fork_point_height : Z) (proofs : list ProofHashTriple)
    (n : nat) :
  ∀ (a : Z) (heights weights : list Z) (difficulty : Z) (w : World W),
    0 ≤ a →
    a + Z.of_nat n ≤ Z.of_nat (length proofs) →
    difficulty = difficulty_at proofs (a - 1) →
    for_fold (seqZ a (Z.of_nat n)) (heights, weights, difficulty)
      (λ '(heights, difficulty_weights, difficulty) i,
         let* triple := list_get proofs i in
         let difficulty :=
           match triple.1.2 with
           | Some d => d
           | None => difficulty
           end in
         if bool_decide (i > fork_point_height + 1) && bool_decide (i `mod` 2 = 1)
         then ret (heights ++ [i], difficulty_weights ++ [difficulty], difficulty)
         else ret (heights, difficulty_weights, difficulty)) w
    = (Val (heights ++ filter (candidate fork_point_height) (seqZ a (Z.of_nat n)),
            weights ++ (difficulty_at proofs
                          <$> filter (candidate fork_point_height)
                                (seqZ a (Z.of_nat n))),
            difficulty_at proofs (a + Z.of_nat n - 1)), w).
Proof.
  induction n as [|n IH]; intros a heights weights difficulty w Ha Hlen ->.
  { simpl. rewrite !app_nil_r.
    by replace (a + Z.of_nat 0 - 1) with (a - 1) by lia. }
  replace (Z.of_nat (S n)) with (Z.succ (Z.of_nat n)) by lia.
  rewrite seqZ_cons by lia.
  replace (Z.pred (Z.succ (Z.of_nat n))) with (Z.of_nat n) by lia.
  destruct (proofs !! Z.to_nat a) as [triple|] eqn:Hlook.
  2: { apply lookup_ge_None in Hlook. lia. }
  cbn [for_fold]. unfold bind at 1. unfold bind at 1, list_get, py_index.
  rewrite decide_True by lia. rewrite Hlook. cbn [ret].
  pose proof (difficulty_at_step proofs a triple Ha Hlook) as Hstep.
  assert (match triple.1.2 with
          | Some d => d
          | None => difficulty_at proofs (a - 1)
          end = difficulty_at proofs a) as ->.
  { rewrite Hstep. by destruct (triple.1.2). }
  replace (a + Z.succ (Z.of_nat n) - 1) with (Z.succ a + Z.of_nat n - 1) by lia.
  rewrite filter_cons.
  destruct (decide (candidate fork_point_height a)) as [[Hc1 Hc2]|Hnc].
  - rewrite !bool_decide_eq_true_2 by done. simpl.
    rewrite IH; [|lia|lia|f_equal; lia]. by rewrite <-!app_assoc.
  - assert (bool_decide (a > fork_point_height + 1) && bool_decide (a `mod` 2 = 1)
            = false) as ->.
    { apply andb_false_iff.
      destruct (decide (a > fork_point_height + 1));
        [right|left]; apply bool_decide_eq_false_2; [|done].
      intros ?. by apply Hnc. }
    simpl. rewrite IH; [done|lia|lia|f_equal; lia].
Qed.

(** X14. Given at least [tip] proof hashes, the map from height to
    difficulty lists every odd height above [fork_point_height + 1] and
    below [tip], in ascending order, and weighs each by the difficulty in
    force at that height: the last change recorded up to it, and 0 before
    the first change. *)
Theorem difficulty_map_lists_odd_heights
    (fork_point_height tip : Z) (proofs : list ProofHashTriple) (w : World W) :
  tip ≤ Z.of_nat (length proofs) →
  difficulty_map fork_point_height tip proofs w
  = (Val (filter (candidate fork_point_height) (range 0 tip),
          difficulty_at proofs
            <$> filter (candidate fork_point_height) (range 0 tip)), w).
Proof.
  intros Hlen. unfold difficulty_map, range.
  replace (tip - 0) with tip by lia.
  destruct (decide (0 ≤ tip)) as [Hpos|Hneg].
  - assert (tip = Z.of_nat (Z.to_nat tip)) as Htip by lia.
    revert Hlen. rewrite Htip. generalize (Z.to_nat tip). intros n Hlen.
    by rewrite (bind_eq _ _ _ _ _
                  (difficulty_map_loop fork_point_height proofs n 0 [] [] 0 w
                     ltac:(lia) ltac:(lia) eq_refl)).
  - unfold seqZ. by replace (Z.to_nat tip) with 0%nat by lia.
Qed.
End SamplerFacts.

Lemma expand_query_heights_bind (l : list Z) :
  expand_query_heights l = l ≫= (λ h, [h - 1; h]).
Proof.
  unfold expand_query_heights.
  assert (∀ acc, foldl (λ query_heights odd_height,
                          query_heights ++ [odd_height - 1; odd_height]) acc l
                 = acc ++ (l ≫= (λ h, [h - 1; h]))) as Hgen.
  { induction l as [|h l IH]; intros acc; simpl.
    - by rewrite app_nil_r.
    - rewrite IH. by rewrite <-app_assoc. }
  apply (Hgen []).
Qed.

Lemma StronglySorted_le_NoDup (l : list Z) :
  StronglySorted Z.le l → NoDup l → StronglySorted Z.lt l.
Proof.
  induction 1 as [|x l Hl IH Hall]; intros Hnodup; [constructor|].
  apply NoDup_cons in Hnodup as [Hx Hnodup].
  constructor; [by apply IH|].
  apply Forall_forall. intros y Hy.
  pose proof (proj1 (Forall_forall _ _) Hall y Hy) as Hle.
  assert (x ≠ y) by (intros ->; done). lia.
Qed.

Lemma sorted_set_strict (xs : list Z) :
  StronglySorted Z.lt (sorted_set xs) ∧ ∀ x, x ∈ sorted_set xs ↔ x ∈ xs.
Proof.
  unfold sorted_set.
  assert (merge_sort Z.le (remove_dups xs) ≡ₚ remove_dups xs) as Hperm
    by apply merge_sort_Permutation.
  split.
  - apply StronglySorted_le_NoDup.
    + apply StronglySorted_merge_sort; apply _.
    + rewrite Hperm. apply NoDup_remove_dups.
  - intros x. rewrite Hperm. apply elem_of_remove_dups.
Qed.

(** X15. The heights requested during the sampling come out of
    [random.choices] as follows: duplicates are dropped, the rest is
    sorted, and every sampled odd height [h] contributes [h - 1] and [h].
    The resulting list is strictly ascending and holds exactly these
    heights, two per distinct sample. *)
Theorem query_heights_ascending (chosen : list Z) :
  Forall (λ h, h `mod` 2 = 1) chosen →
  let query_heights := expand_query_heights (sorted_set chosen) in
  StronglySorted Z.lt query_heights
  ∧ (∀ q, q ∈ query_heights ↔ ∃ h, h ∈ chosen ∧ (q = h - 1 ∨ q = h))
  ∧ length query_heights = (2 * length (sorted_set chosen))%nat.
Proof.
  intros Hodd query_heights. subst query_heights.
  rewrite expand_query_heights_bind.
  destruct (sorted_set_strict chosen) as [Hsorted Hsame].
  assert (Forall (λ h, h `mod` 2 = 1) (sorted_set chosen)) as Hodd'.
  { apply Forall_forall. intros h Hh. apply Hsame in Hh.
    by apply (proj1 (Forall_forall _ _) Hodd). }
  assert (∀ l q, q ∈ l ≫= (λ h, [h - 1; h]) ↔ ∃ h, h ∈ l ∧ (q = h - 1 ∨ q = h))
    as Hmem.
  { intros l q. rewrite list_elem_of_bind. split.
    - intros (h & Hq & Hh). exists h. split; [done|].
      apply elem_of_cons in Hq as [->|Hq]; [by left|].
      apply list_elem_of_singleton in Hq. by right.
    - intros (h & Hh & Hq). exists h. split; [|done].
      destruct Hq as [-> | ->]; [by left|]. right. by left. }
  split; [|split].
  - clear Hsame Hodd. revert Hodd'.
    induction Hsorted as [|h l Hl IH Hall]; intros Hodd'; [constructor|].
    apply Forall_cons in Hodd' as [Hh Hodd']. simpl.
    assert (Forall (Z.lt h) (l ≫= (λ h, [h - 1; h]))) as Hbelow.
    { apply Forall_forall. intros q Hq. apply Hmem in Hq as (h' & Hh' & Hq).
      pose proof (proj1 (Forall_forall _ _) Hall h' Hh') as Hlt.
      pose proof (proj1 (Forall_forall _ _) Hodd' h' Hh') as Hodd2.
      assert (h + 2 ≤ h').
      { destruct (decide (h' = h + 1)) as [->|]; [|lia].
        rewrite <-Z.add_mod_idemp_l, Hh in Hodd2 by lia. done. }
      lia. }
    constructor; [constructor; [by apply IH|done]|].
    constructor; [lia|]. eapply Forall_impl; [exact Hbelow|]. simpl. lia.
  - intros q. rewrite Hmem. split; intros (h & Hh & Hq); exists h;
      (split; [by apply Hsame|done]).
  - clear Hsorted Hsame Hodd'.
    induction (sorted_set chosen) as [|h l IH]; [done|].
    rewrite bind_cons, length_app, IH. simpl. lia.
Qed.

Lemma query_heights_ascending_witness :
  expand_query_heights (sorted_set [5; 3; 5; 9]) = [2; 3; 4; 5; 8; 9]
  ∧ StronglySorted Z.lt (expand_query_heights (sorted_set [5; 3; 5; 9])).
Proof.
  split; [vm_compute; reflexivity|].
  apply (query_heights_ascending [5; 3; 5; 9]).
  repeat constructor.
Defined.

(** *** Guards, waits and the fast sync of [_sync] *)

Section SyncMore.
Context {W : Type} `{StateManager W}.
Variable deliver : nat → WalletNode W → WalletNode W.
Variable clock : nat → Z.
Variable random_choices : list Z → list Z → nat → option (list Z).
Variable genesis_challenge : bytes32.
Variable DIFFICULTY_STARTING : Z.

(** X16. Without a server, or before the node is started, [_sync] returns at
    once: the sync data is not reset, nothing is requested from the peer
    and the clock is not read. *)
Theorem sync_needs_server_and_started_node (fuel : nat) (w : World W) :
  server (node w) = None
  ∨ wallet_state_manager (node w) = None
  ∨ backup_initialized (node w) = false →
  _sync deliver clock random_choices genesis_challenge DIFFICULTY_STARTING fuel w
  = (Val tt, w).
Proof using Type*.
  intros Hguard. unfold _sync, proc. unfold bind at 1.
  unfold sync_skeleton. unfold bind at 1.
  unfold sync_request_skeleton. unfold bind at 1, get_self at 1.
  destruct Hguard as [-> | [Hw | Hb]]; [done| |].
  - destruct (server (node w)); [|done]. by rewrite Hw.
  - destruct (server (node w)); [|done]. rewrite Hb.
    by destruct (wallet_state_manager (node w)).
Qed.










Lemma submit_synthesized_effects (block_record : BlockRecord.t) (w : World W) :
  let w' := (submit_synthesized deliver block_record w).2 in
  trace w' = trace w
  ∧ (submitted w' = submitted w ++ [(block_record, None)]
     ∨ (submitted w' = submitted w
        ∧ ∀ u, (submit_synthesized deliver block_record w).1 ≠ Val u)).
Proof.
  unfold submit_synthesized, bind, call_receive_block, suspend, assert_.
  destruct (wallet_state_manager (node w)); [|simpl; by eauto].
  destruct (receive_block _ _ _) as [s' res]. by destruct res; simpl; eauto.
Qed.

Lemma for_fold_appends {A S} (R : A → BlockRecord.t * option HeaderBlock.t → Prop)
    (xs : list A) (body : S → A → M W S) :
  (∀ s x w,
     trace (body s x w).2 = trace w
     ∧ ((∃ entry, submitted (body s x w).2 = submitted w ++ [entry] ∧ R x entry)
        ∨ (submitted (body s x w).2 = submitted w
           ∧ ∀ v, (body s x w).1 ≠ Val v))) →
  ∀ s w,
    trace (for_fold xs s body w).2 = trace w
    ∧ ∃ recs, submitted (for_fold xs s body w).2 = submitted w ++ recs
              ∧ Forall2 R (take (length recs) xs) recs.
Proof.
  intros Hbody. induction xs as [|x xs IH]; intros s w.
  { simpl. split; [done|]. exists []. rewrite app_nil_r. by split. }
  cbn [for_fold]. unfold bind. destruct (Hbody s x w) as [Ht Hs].
  destruct (body s x w) as [r w1]. simpl in Ht, Hs.
  assert (submitted w1 = submitted w →
          trace w1 = trace w
          ∧ ∃ recs, submitted w1 = submitted w ++ recs
                    ∧ Forall2 R (take (length recs) (x :: xs)) recs) as Hstop.
  { intros Hsame. split; [done|]. exists []. rewrite app_nil_r. by split. }
  destruct Hs as [(entry & Hs & Hentry) | [Hs Hno]].
  - assert (trace w1 = trace w
            ∧ ∃ recs, submitted w1 = submitted w ++ recs
                      ∧ Forall2 R (take (length recs) (x :: xs)) recs) as Hone.
    { split; [done|]. exists [entry]. split; [done|]. simpl. rewrite take_0.
      by constructor. }
    destruct r as [s1| |e|]; simpl; try done.
    destruct (IH s1 w1) as (Ht' & recs & Hs' & Hall).
    split; [by rewrite Ht'|]. exists (entry :: recs).
    rewrite Hs', Hs, <-app_assoc. split; [done|]. simpl. by constructor.
  - destruct r as [s1| |e|]; simpl; try (by apply Hstop). by destruct (Hno s1).
Qed.

Lemma take_seqZ (a m : Z) (k : nat) :
  (k ≤ Z.to_nat m)%nat → take k (seqZ a m) = seqZ a (Z.of_nat k).
Proof.
  intros Hk. destruct (decide (0 ≤ m)) as [Hm|Hm].
  - replace m with (Z.of_nat k + (m - Z.of_nat k)) by lia.
    rewrite seqZ_app by lia. apply take_app_length'.
    rewrite length_seqZ. lia.
  - replace k with 0%nat by lia. by rewrite take_0.
Qed.

Lemma synthesized_heights (xs : list Z)
    (recs : list (BlockRecord.t * option HeaderBlock.t)) :
  Forall2 (λ height entry,
             synthesized entry ∧ BlockRecord.height entry.1 = height) xs recs →
  Forall synthesized recs
  ∧ (λ entry, BlockRecord.height entry.1) <$> recs = xs.
Proof.
  induction 1 as [|x entry xs recs [Hsyn Hheight] Hall [IH1 IH2]]; [done|].
  split; [by constructor|]. rewrite fmap_cons. by f_equal.
Qed.

(** X18. The fast sync hands the state manager nothing but synthesized
    records (no header block, empty additions and removals, no challenge
    hash, timestamp 0), one per height and in ascending order from
    [fork_point_height + 1] on, and it sends no message. *)
Theorem sync_fast_forward_submits_synthesized
    (fork_point_height : Z) (fork_point_hash : bytes32) (tip : Z)
    (query_heights_odd : list Z) (w : World W) :
  let run :=
    sync_fast_forward deliver DIFFICULTY_STARTING fork_point_height
      fork_point_hash tip query_heights_odd w in
  trace run.2 = trace w
  ∧ ∃ recs, submitted run.2 = submitted w ++ recs
            ∧ Forall synthesized recs
            ∧ (λ entry, BlockRecord.height entry.1) <$> recs
              = seqZ (fork_point_height + 1) (Z.of_nat (length recs)).
Proof using Type*.
  clear clock random_choices genesis_challenge.
  intros run. subst run.
  assert (∀ x : World W,
            trace x = trace w ∧ submitted x = submitted w →
            trace x = trace w
            ∧ ∃ recs, submitted x = submitted w ++ recs
                      ∧ Forall synthesized recs
                      ∧ (λ entry, BlockRecord.height entry.1) <$> recs
                        = seqZ (fork_point_height + 1) (Z.of_nat (length recs)))
    as Hstop.
  { intros x [Ht Hs]. split; [done|]. exists []. rewrite app_nil_r.
    repeat split; done. }
  destruct (sync_fast_forward _ _ _ _ _ _ w) as [r w'] eqn:Hrun. simpl.
  unfold sync_fast_forward in Hrun. unfold bind at 1, get_self at 1 in Hrun.
  unfold bind at 1, get_wsm at 1 in Hrun.
  destruct (wallet_state_manager (node w)) as [wsm|];
    [|injection Hrun as <- <-; by apply Hstop].
  unfold bind at 1, assert_ at 1 in Hrun.
  destruct (validate_select_proofs _ _ _ _ _);
    [|injection Hrun as <- <-; by apply Hstop].
  cbn [ret] in Hrun. unfold bind at 1, dict_get at 1 in Hrun.
  destruct (block_records wsm !! fork_point_hash) as [fork_record|];
    [|injection Hrun as <- <-; by apply Hstop].
  cbn [ret] in Hrun. unfold bind at 1 in Hrun.
  match type of Hrun with
  | context [(if bool_decide (fork_point_height = 0) then ?x else ?y) w] =>
      assert (∃ r0, (if bool_decide (fork_point_height = 0) then x else y) w
                    = (r0, w)) as [r0 Hm]
  end.
  { case_bool_decide; [by eexists|].
    unfold bind, dict_get. destruct (block_records wsm !! _); by eexists. }
  rewrite Hm in Hrun.
  destruct r0 as [difficulty| |e|];
    try (injection Hrun as <- <-; by apply Hstop).
  unfold bind at 1 in Hrun.
  match type of Hrun with
  | context [for_fold ?xs ?s ?body w] =>
      set (body0 := body) in *;
      pose proof (for_fold_appends
                    (λ height entry,
                       synthesized entry ∧ BlockRecord.height entry.1 = height)
                    xs body0) as Hloop;
      destruct (for_fold xs s body0 w) as [r1 w1] eqn:Hfold
  end.
  assert (∀ s x w0,
            trace (body0 s x w0).2 = trace w0
            ∧ ((∃ entry, submitted (body0 s x w0).2 = submitted w0 ++ [entry]
                         ∧ synthesized entry ∧ BlockRecord.height entry.1 = x)
               ∨ (submitted (body0 s x w0).2 = submitted w0
                  ∧ ∀ v, (body0 s x w0).1 ≠ Val v))) as Hbody.
  { intros [weight difficulty0] height w0. subst body0.
    unfold submit_synthesized, call_receive_block, suspend, assert_.
    unfold bind, get_self, list_get. simpl.
    destruct (py_index (proof_hashes (node w0)) height) as [[[ph change] iters]|];
      simpl; [|split; [done|right; by split]].
    destruct (py_index (header_hashes (node w0)) height); simpl;
      [|split; [done|right; by split]].
    destruct (py_index (header_hashes (node w0)) (height - 1)); simpl;
      [|split; [done|right; by split]].
    destruct (wallet_state_manager (node w0)); simpl;
      [|split; [done|right; by split]].
    destruct (receive_block _ _ _) as [s' res].
    destruct res; simpl; (split; [done|]); left; eexists; by split. }
  destruct (Hloop Hbody (BlockRecord.weight fork_record, difficulty) w) as (Ht & recs & Hs & Hall).
  rewrite Hfold in Ht, Hs. simpl in Ht, Hs.
  pose proof (Forall2_length _ _ _ Hall) as Hlen.
  apply synthesized_heights in Hall as [Hsyn Hheights].
  assert (trace w1 = trace w
          ∧ ∃ recs, submitted w1 = submitted w ++ recs
                    ∧ Forall synthesized recs
                    ∧ (λ entry, BlockRecord.height entry.1) <$> recs
                      = seqZ (fork_point_height + 1) (Z.of_nat (length recs)))
    as Hdone.
  { split; [done|]. exists recs. split; [done|]. split; [done|].
    rewrite Hheights. unfold range in *. apply take_seqZ.
    rewrite length_take, length_seqZ in Hlen. lia. }
  destruct r1 as [v| |e|]; by injection Hrun as <- <-.
Qed.
End SyncMore.

(** *** Timeouts of [_sync] *)

Section SilentPeer.
Context {W : Type} `{StateManager W}.
Variable deliver : nat → WalletNode W → WalletNode W.
Variable clock : nat → Z.
Variable random_choices : list Z → list Z → nat → option (list Z).
Variable genesis_challenge : bytes32.
Variable DIFFICULTY_STARTING : Z.

(** The peer never answers and no other task touches the node. *)
Hypothesis Hsilent : ∀ t self, deliver t self = self.

Lemma wait_header_hashes_times_out (k : nat) :
  ∀ (fuel : nat) (start_wait : Z) (w : World W),
    (k < fuel)%nat →
    _shut_down (node w) = false →
    header_hashes_error (node w) = false →
    header_hashes (node w) = [] →
    (∀ j, (j < k)%nat → clock (ticks w + 2 * j)%nat - start_wait < 1000 * timeout) →
    1000 * timeout ≤ clock (ticks w + 2 * k)%nat - start_wait →
    wait_header_hashes deliver clock fuel start_wait w
    = (Val tt, {| node := node w; trace := trace w; submitted := submitted w;
                  ticks := S (ticks w + 2 * k) |}).
Proof using Hsilent.
  induction k as [|k IH]; intros fuel start_wait w Hfuel Hs He Hh Hbefore Hafter;
    (destruct fuel as [|fuel]; [lia|]); cbn [wait_header_hashes];
    unfold bind at 1, time_time at 1.
  - replace (ticks w + 2 * 0)%nat with (ticks w) in Hafter by lia.
    rewrite bool_decide_eq_false_2 by lia.
    by replace (ticks w + 2 * 0)%nat with (ticks w) by lia.
  - pose proof (Hbefore 0%nat ltac:(lia)) as Hnow.
    replace (ticks w + 2 * 0)%nat with (ticks w) in Hnow by lia.
    rewrite bool_decide_eq_true_2 by lia.
    unfold bind at 1, get_self at 1. cbn [node]. rewrite Hs, He, Hh. simpl.
    unfold bind at 1, suspend at 1. cbn [node ticks trace submitted].
    rewrite Hsilent.
    rewrite (IH fuel start_wait); cbn [node ticks trace submitted];
      [|lia|done|done|done| |].
    + do 2 f_equal. f_equal. lia.
    + intros j Hj. specialize (Hbefore (S j) ltac:(lia)).
      by replace (S (S (ticks w)) + 2 * j)%nat with (ticks w + 2 * S j)%nat by lia.
    + by replace (S (S (ticks w)) + 2 * k)%nat with (ticks w + 2 * S k)%nat by lia.
Qed.

(** X19. If the peer never answers the request for the skeleton, [_sync]
    gives up once the clock has advanced by [timeout] seconds since the
    request: it raises [TimeoutError], having reset the sync data and sent
    the one request, and nothing else. *)
Theorem sync_times_out_without_skeleton
    (fuel k : nat) (w : World W) (srv : ChiaServer) (wsm : W) :
  server (node w) = Some srv →
  wallet_state_manager (node w) = Some wsm →
  backup_initialized (node w) = true →
  _shut_down (node w) = false →
  (k < fuel)%nat →
  (∀ j, (j < k)%nat →
        clock (ticks w + 2 + 2 * j)%nat - clock (S (ticks w)) < 1000 * timeout) →
  1000 * timeout ≤ clock (ticks w + 2 + 2 * k)%nat - clock (S (ticks w)) →
  let run :=
    _sync deliver clock random_choices genesis_challenge DIFFICULTY_STARTING
      fuel w in
  run.1 = Raise TimeoutError
  ∧ node run.2 = sync_reset (node w)
  ∧ trace run.2
    = trace w ++ [peer_send_message
                    (request_all_header_hashes_after 0 genesis_challenge)]
  ∧ submitted run.2 = submitted w.
Proof using Hsilent.
  intros Hsrv Hw Hb Hs Hfuel Hbefore Hafter run. subst run.
  assert (∃ t,
            _sync deliver clock random_choices genesis_challenge
              DIFFICULTY_STARTING fuel w
            = (Raise TimeoutError,
               {| node := sync_reset (node w);
                  trace := trace w
                           ++ [peer_send_message
                                 (request_all_header_hashes_after 0
                                    genesis_challenge)];
                  submitted := submitted w; ticks := t |})) as [t ->]; [|done].
  eexists.
  unfold _sync, proc. unfold bind at 1. unfold sync_skeleton.
  unfold bind at 1. unfold sync_request_skeleton.
  unfold bind at 1, get_self at 1. rewrite Hsrv, Hw, Hb.
  unfold bind at 1, modify_self at 1. unfold peer_send.
  unfold bind at 1, emit at 1. unfold suspend at 1.
  cbn [node ticks trace submitted]. rewrite Hsilent.
  unfold bind at 1, time_time at 1. cbn [node ticks trace submitted].
  unfold bind at 1.
  rewrite (wait_header_hashes_times_out k fuel);
    cbn [node ticks trace submitted]; [|done..| |].
  - unfold bind at 1, get_self at 1. cbn [node]. simpl. reflexivity.
  - intros j Hj. specialize (Hbefore j Hj).
    by replace (S (S (ticks w)) + 2 * j)%nat with (ticks w + 2 + 2 * j)%nat by lia.
  - by replace (S (S (ticks w)) + 2 * k)%nat with (ticks w + 2 + 2 * k)%nat by lia.
Qed.

Lemma forward_wait_spins (fuel : nat) :
  ∀ (tip height_checkpoint total_time_slept : Z) (rs : RequestState) (w : World W),
    num_sync_batches (config (node w)) ≤ 0 →
    potential_blocks_received (node w) !! height_checkpoint = Some false →
    ∃ t,
      forward_wait deliver clock fuel tip height_checkpoint total_time_slept rs w
      = (Fuel, {| node := node w; trace := trace w; submitted := submitted w;
                  ticks := t |}).
Proof using Hsilent.
  induction fuel as [|fuel IH];
    intros tip height_checkpoint slept rs w Hbatches Hevent.
  { exists (ticks w). by destruct w. }
  cbn [forward_wait]. unfold bind at 1, get_self at 1.
  unfold range. rewrite seqZ_nil by lia. cbn [for_fold].
  unfold bind at 1, ret at 1. unfold bind at 1.
  assert (∃ rs' t,
            (if request_made rs
             then
               let* now := time_time clock in
               ret {| last_request_time := now;
                      highest_height_requested := highest_height_requested rs;
                      request_made := false |}
             else ret rs) w
            = (Val rs', {| node := node w; trace := trace w;
                           submitted := submitted w; ticks := t |}))
    as (rs' & t & ->).
  { destruct (request_made rs); [by eexists _, _|].
    exists rs, (ticks w). by destruct w. }
  unfold bind at 1. unfold wait_for_event.
  unfold bind at 1, get_self at 1. cbn [node].
  unfold bind at 1, is_set, dict_get. rewrite Hevent. cbn [ret].
  unfold bind at 1, suspend at 1. cbn [node ticks trace submitted].
  rewrite Hsilent. unfold bind at 1, get_self at 1. cbn [node ret].
  rewrite Hevent. cbn [default negb].
  apply (IH tip height_checkpoint (slept + sleep_interval) rs'
           {| node := node w; trace := trace w; submitted := submitted w;
              ticks := S t |}); done.
Qed.

(** X20. With [num_sync_batches] at 0 (or below) the forward loop has no
    batch to walk, and the checks for shutdown and for the time budget
    sit inside the walk: while the signal for the checkpoint stays unset
    every turn only waits again.  The loop requests nothing, never times
    out and does not notice that the node was shut down. *)
Theorem forward_wait_spins_without_batches
    (fuel : nat) (tip height_checkpoint total_time_slept : Z) (rs : RequestState)
    (w : World W) :
  num_sync_batches (config (node w)) ≤ 0 →
  potential_blocks_received (node w) !! height_checkpoint = Some false →
  let run :=
    forward_wait deliver clock fuel tip height_checkpoint total_time_slept rs w in
  run.1 = Fuel
  ∧ node run.2 = node w ∧ trace run.2 = trace w ∧ submitted run.2 = submitted w.
Proof using Hsilent.
  clear random_choices genesis_challenge DIFFICULTY_STARTING.
  intros Hbatches Hevent run. subst run.
  by destruct (forward_wait_spins fuel tip height_checkpoint total_time_slept rs w
                 Hbatches Hevent) as [t ->].
Qed.
End SilentPeer.

Section ForwardChecks.
Context {W : Type} `{StateManager W}.
Variable deliver : nat → WalletNode W → WalletNode W.
Variable clock : nat → Z.

(** X21. With at least one batch configured and a checkpoint not above the
    tip, a turn of the forward loop starts with the two checks: a node
    that is shut down leaves the loop at once, and otherwise a time budget
    that is used up raises [TimeoutError]; in both cases nothing has been
    requested and nothing has changed. *)
Theorem forward_wait_checks_first
    (fuel : nat) (tip height_checkpoint total_time_slept : Z) (rs : RequestState)
    (w : World W) :
  1 ≤ num_sync_batches (config (node w)) →
  height_checkpoint ≤ tip →
  (_shut_down (node w) = true →
   forward_wait deliver clock (S fuel) tip height_checkpoint total_time_slept rs w
   = (Exit, w))
  ∧ (_shut_down (node w) = false →
     total_time_slept > timeout →
     forward_wait deliver clock (S fuel) tip height_checkpoint total_time_slept rs w
     = (Raise TimeoutError, w)).
Proof.
  intros Hbatches Htip.
  split; [intros Hs | intros Hs Hslept];
    cbn [forward_wait]; unfold bind at 1, get_self at 1;
    unfold range; rewrite seqZ_cons by lia; cbn [for_fold];
    unfold bind at 1; unfold bind at 1; unfold forward_batch at 1;
    unfold bind at 1, get_self at 1; rewrite Hs; [done|].
  by rewrite bool_decide_eq_true_2.
Qed.
End ForwardChecks.

(** *** Keys and life cycle *)

Section KeyFacts.
Variable get_fingerprint : PrivateKey → Z.

Lemma first_with_fingerprint_spec (fingerprint : Z)
    (private_keys : list (PrivateKey * bytes)) :
  match first_with_fingerprint get_fingerprint fingerprint private_keys with
  | Some sk =>
      ∃ before seed after,
        private_keys = before ++ (sk, seed) :: after
        ∧ get_fingerprint sk = fingerprint
        ∧ Forall (λ entry, get_fingerprint entry.1 ≠ fingerprint) before
  | None => Forall (λ entry, get_fingerprint entry.1 ≠ fingerprint) private_keys
  end.
Proof.
  induction private_keys as [|[sk seed] rest IH]; simpl; [done|].
  case_bool_decide as Hmatch.
  - exists [], seed, rest. by repeat split.
  - destruct (first_with_fingerprint get_fingerprint fingerprint rest) as [found|].
    + destruct IH as (before & seed' & after & -> & Hfound & Hbefore).
      exists ((sk, seed) :: before), seed', after. repeat split; try done.
      by constructor.
    + by constructor.
Qed.

(** X22. [get_key_for_fingerprint] answers with a key of the keychain: the
    first one when no fingerprint is asked for, and otherwise the first
    one whose fingerprint is the one asked for.  It answers [None] only
    for an empty keychain or a fingerprint that no key has. *)
Theorem get_key_for_fingerprint_picks_first
    (private_keys : list (PrivateKey * bytes)) (fingerprint : option Z) :
  match get_key_for_fingerprint get_fingerprint private_keys fingerprint with
  | Some sk =>
      ∃ before seed after,
        private_keys = before ++ (sk, seed) :: after
        ∧ match fingerprint with
          | Some wanted =>
              get_fingerprint sk = wanted
              ∧ Forall (λ entry, get_fingerprint entry.1 ≠ wanted) before
          | None => before = []
          end
  | None =>
      private_keys = []
      ∨ ∃ wanted, fingerprint = Some wanted
                  ∧ Forall (λ entry, get_fingerprint entry.1 ≠ wanted) private_keys
  end.
Proof.
  unfold get_key_for_fingerprint.
  destruct private_keys as [|[sk seed] rest]; [by left|].
  rewrite bool_decide_eq_false_2 by done.
  destruct fingerprint as [wanted|].
  - pose proof (first_with_fingerprint_spec wanted ((sk, seed) :: rest)) as Hspec.
    destruct (first_with_fingerprint _ _ _) as [found|].
    + destruct Hspec as (before & seed' & after & Hkeys & Hfound & Hbefore).
      by exists before, seed', after.
    + right. by exists wanted.
  - by exists [], seed, rest.
Qed.
End KeyFacts.

Section LifeCycleFacts.
Context {W : Type} `{StateManager W} `{Launcher W}.
Variable gethostbyname : string → option string.
Variable deliver : nat → WalletNode W → WalletNode W.

Lemma close_loop_keeps_node (pinned resolved : PeerInfo)
    (connections : list WSChiaConnection) :
  ∀ (w : World W) r w',
    for_each connections (λ connection,
      bind (if bool_decide (get_peer_info connection ≠ pinned)
               && bool_decide (get_peer_info connection ≠ resolved)
            then emit (log_info (closing_unnecessary_connection_to
                                   (get_peer_info connection)))
            else ret tt)
           (λ _, emit (connection_close connection))) w = (r, w') →
    r = Val tt ∧ node w' = node w ∧ ticks w' = ticks w
    ∧ submitted w' = submitted w.
Proof.
  induction connections as [|c connections IH]; intros w r w' Hrun.
  { by injection Hrun as <- <-. }
  simpl in Hrun. unfold bind at 1 in Hrun. unfold bind at 1 in Hrun.
  destruct (_ && _); simpl in Hrun; apply IH in Hrun; simpl in Hrun; done.
Qed.

Lemma has_full_node_keeps_node (w : World W) r w' :
  has_full_node gethostbyname w = (r, w') →
  node w' = node w ∧ ticks w' = ticks w ∧ submitted w' = submitted w ∧ r ≠ Fuel.
Proof.
  unfold has_full_node. unfold bind at 1, get_self.
  destruct (server (node w)) as [srv|]; [|by intros [= <- <-]].
  destruct (full_node_peer (config (node w))) as [pinned|]; [|by intros [= <- <-]].
  destruct (gethostbyname (host pinned)) as [resolved|]; [|by intros [= <- <-]].
  destruct (_ || _); [|by intros [= <- <-]].
  unfold bind at 1, emit at 1. unfold bind at 1.
  destruct (for_each _ _ _) as [r1 w1] eqn:Hloop.
  apply close_loop_keeps_node in Hloop as (-> & Hn & Ht & Hs). simpl in *.
  by intros [= <- <-].
Qed.

(** [has_full_node] either leaves the world as it was, or answers [True]
    having scheduled every full-node connection of the server for
    closing. *)
Lemma has_full_node_outcome (w : World W) r w' :
  has_full_node gethostbyname w = (r, w') →
  (r ≠ Val true ∧ r ≠ Fuel ∧ w' = w)
  ∨ (r = Val true ∧ node w' = node w ∧ ticks w' = ticks w
     ∧ ∃ srv, server (node w) = Some srv
              ∧ closed_connections (trace w')
                = closed_connections (trace w) ++ get_full_node_connections srv).
Proof.
  intros Hrun.
  pose proof (has_full_node_keeps_node _ _ _ Hrun) as (Hn & Ht & _).
  revert Hrun. unfold has_full_node. unfold bind at 1, get_self.
  destruct (server (node w)) as [srv|] eqn:Hsrv; [|intros [= <- <-]; by left].
  destruct (full_node_peer (config (node w))) as [pinned|] eqn:Hpinned;
    [|intros [= <- <-]; by left].
  destruct (gethostbyname (host pinned)) as [resolved|] eqn:Hresolved;
    [|intros [= <- <-]; by left].
  destruct (bool_decide (pinned ∈ _) || bool_decide (_ ∈ _)) eqn:Hconnected;
    [|intros [= <- <-]; by left].
  intros Hrun. right.
  destruct (has_full_node_closes_every_connection gethostbyname w srv pinned
              resolved Hsrv Hpinned Hresolved) as (w2 & Hrun2 & Hclosed).
  { apply orb_true_iff in Hconnected as [Hin | Hin];
      apply bool_decide_eq_true_1 in Hin; [by left | by right]. }
  unfold has_full_node in Hrun2. unfold bind at 1, get_self in Hrun2.
  rewrite Hsrv, Hpinned, Hresolved, Hconnected in Hrun2.
  rewrite Hrun in Hrun2. injection Hrun2 as -> ->.
  repeat split; try done. by exists srv.
Qed.

Lemma check_full_node_loop_run (fuel : nat) :
  ∀ (tries : Z) (rt : Runtime W) r rt',
    0 ≤ tries ≤ 5 →
    5 - tries < Z.of_nat fuel →
    check_full_node_loop gethostbyname deliver fuel tries rt = (r, rt') →
    r ≠ Fuel
    ∧ Z.of_nat (ticks (world rt')) ≤ Z.of_nat (ticks (world rt)) + (5 - tries)
    ∧ ((trace (world rt') = trace (world rt) ∧ awaited rt' = awaited rt)
       ∨ ∃ srv,
           server (node (world rt')) = Some srv
           ∧ closed_connections (trace (world rt'))
             = closed_connections (trace (world rt)) ++ get_full_node_connections srv
           ∧ ((r = Val tt
               ∧ awaited rt' = awaited rt ++ [wallet_peers_ensure_is_closed])
              ∨ (r = Raise AttributeError ∧ awaited rt' = awaited rt
                 ∧ wallet_peers rt' = None))).
Proof.
  induction fuel as [|fuel IH]; intros tries rt r rt' Htries Hfuel; [lia|].
  cbn [check_full_node_loop].
  destruct (_shut_down (node (world rt))); cbn [negb andb];
    [intros [= <- <-]; repeat split; try done; [lia|by left]|].
  case_bool_decide as Hlt;
    [|intros [= <- <-]; repeat split; try done; [lia|by left]].
  unfold lift at 1.
  destruct (has_full_node gethostbyname (world rt)) as [answer w1] eqn:Hanswer.
  apply has_full_node_outcome in Hanswer
    as [(Hnot & Hfuel1 & ->) | (-> & Hn & Ht & srv & Hsrv & Hclosed)].
  - destruct answer as [[|]| |e|]; try done.
    + unfold lift, suspend. simpl. intros Hrun.
      apply IH in Hrun as (Hr & Ht' & Hrest); [|lia..].
      simpl in *. repeat split; try done. lia.
    + intros [= <- <-]. repeat split; try done; [simpl; lia|by left].
    + intros [= <- <-]. repeat split; try done; [simpl; lia|by left].
  - cbn [wallet_peers].
    destruct (wallet_peers rt) eqn:Hpeers; intros [= <- <-]; simpl;
      rewrite ?Ht; (repeat split; try done; [lia|]);
      right; exists srv; rewrite Hn; (repeat split; try done);
      [left|right]; by repeat split.
Qed.

(** X23. The periodic check for the pinned full node ends after at most
    five tries, whatever the other tasks do in between: with fuel for six
    turns it never runs out, and it sleeps at most five times.  Either it
    logs nothing, schedules no connection for closing and awaits nothing;
    or [has_full_node] answered [True] in its last turn: then every
    full-node connection of the server has been scheduled for closing,
    once, and the check has either awaited the closing of peer discovery
    and returned, or raised [AttributeError] because [wallet_peers] was
    never assigned. *)
Theorem periodic_check_is_bounded (fuel : nat) (rt : Runtime W) :
  (6 ≤ fuel)%nat →
  let run := _periodically_check_full_node gethostbyname deliver fuel rt in
  run.1 ≠ Fuel
  ∧ (ticks (world run.2) ≤ ticks (world rt) + 5)%nat
  ∧ ((trace (world run.2) = trace (world rt) ∧ awaited run.2 = awaited rt)
     ∨ ∃ srv,
         server (node (world run.2)) = Some srv
         ∧ closed_connections (trace (world run.2))
           = closed_connections (trace (world rt)) ++ get_full_node_connections srv
         ∧ ((run.1 = Val tt
             ∧ awaited run.2 = awaited rt ++ [wallet_peers_ensure_is_closed])
            ∨ (run.1 = Raise AttributeError ∧ awaited run.2 = awaited rt
               ∧ wallet_peers run.2 = None))).
Proof.
  intros Hfuel run. subst run. unfold _periodically_check_full_node.
  destruct (check_full_node_loop gethostbyname deliver fuel 0 rt) as [r rt'] eqn:Hrun.
  apply check_full_node_loop_run in Hrun as (? & ? & ?); [|lia..].
  simpl. repeat split; try done. lia.
Qed.

(** X24. While the node is up and the pinned full node is among its
    connections (under its configured or its resolved address), the
    first turn of the periodic check schedules every full-node
    connection for closing, the one to the pinned node included, and
    then closes peer discovery; it does not sleep. *)
Theorem periodic_check_closes_connections_and_discovery
    (fuel : nat) (rt : Runtime W) (srv discovery : ChiaServer)
    (pinned : PeerInfo) (resolved_host : string) :
  _shut_down (node (world rt)) = false →
  server (node (world rt)) = Some srv →
  full_node_peer (config (node (world rt))) = Some pinned →
  gethostbyname (host pinned) = Some resolved_host →
  pinned ∈ (get_peer_info <$> get_full_node_connections srv)
  ∨ {| host := resolved_host; port := port pinned |}
    ∈ (get_peer_info <$> get_full_node_connections srv) →
  wallet_peers rt = Some discovery →
  let run := _periodically_check_full_node gethostbyname deliver (S fuel) rt in
  run.1 = Val tt
  ∧ closed_connections (trace (world run.2))
    = closed_connections (trace (world rt)) ++ get_full_node_connections srv
  ∧ awaited run.2 = awaited rt ++ [wallet_peers_ensure_is_closed]
  ∧ ticks (world run.2) = ticks (world rt).
Proof.
  intros Hs Hsrv Hpinned Hresolved Hconnected Hdiscovery run. subst run.
  unfold _periodically_check_full_node. cbn [check_full_node_loop].
  rewrite Hs. cbn [negb andb]. rewrite bool_decide_eq_true_2 by lia.
  destruct (has_full_node_closes_every_connection gethostbyname (world rt) srv
              pinned resolved_host Hsrv Hpinned Hresolved Hconnected)
    as (w' & Hrun & Hclosed).
  pose proof (has_full_node_keeps_node _ _ _ Hrun) as (_ & Ht & _).
  unfold lift. rewrite Hrun. cbn [wallet_peers]. rewrite Hdiscovery. by simpl.
Qed.

(** X25. On a started node, [_set_server] followed by [_close] and
    [_await_closed] shuts the node down in order: peer discovery is
    started, the shutdown flag is raised, the stores of the state manager
    are closed by a task that is created once and awaited once, the
    closing of peer discovery is handed to a further task, and the state
    manager is dropped. *)
Theorem close_then_await_closed
    (rt : Runtime W) (wsm : W) (srv : ChiaServer) :
  wallet_state_manager (node (world rt)) = Some wsm →
  backup_initialized (node (world rt)) = true →
  let served := _set_server srv rt in
  let closed := _close served.2 in
  let run := _await_closed closed.2 in
  served.1 = Val tt
  ∧ closed.1 = Val tt
  ∧ run.1 = Val tt
  ∧ server (node (world run.2)) = Some srv
  ∧ _shut_down (node (world run.2)) = true
  ∧ wallet_state_manager (node (world run.2)) = None
  ∧ created run.2
    = created rt ++ [wallet_peers_start; close_all_stores wsm;
                     wallet_peers_ensure_is_closed]
  ∧ awaited run.2 = awaited rt ++ [close_all_stores wsm]
  ∧ wsm_close_task run.2 = None.
Proof.
  intros Hw Hb served closed run. subst run closed served.
  unfold _set_server, _close. simpl. rewrite Hw. simpl.
  unfold _await_closed. simpl. rewrite Hw, Hb. simpl.
  by rewrite <-!app_assoc.
Qed.

(** X26. [_close] reads [self.wallet_peers], which only [_set_server]
    assigns.  On a started node whose server was never set it raises
    [AttributeError], after it has raised the shutdown flag and created
    the task that closes the stores; no task for peer discovery is
    created. *)
Theorem close_without_server (rt : Runtime W) (wsm : W) :
  wallet_state_manager (node (world rt)) = Some wsm →
  wallet_peers rt = None →
  (_close rt).1 = Raise AttributeError
  ∧ _shut_down (node (world (_close rt).2)) = true
  ∧ wsm_close_task (_close rt).2 = Some (close_all_stores wsm)
  ∧ created (_close rt).2 = created rt ++ [close_all_stores wsm]
  ∧ wallet_peers_task (_close rt).2 = wallet_peers_task rt.
Proof.
  intros Hw Hdiscovery. unfold _close. simpl. rewrite Hw. simpl.
  by rewrite Hdiscovery.
Qed.

(** X27. [_await_closed] awaits the task that closes the stores only if
    [_close] has created one.  Called on a started node that was not
    closed, it drops the state manager all the same: no store is closed,
    nothing is awaited and the shutdown flag stays down. *)
Theorem await_closed_without_close (rt : Runtime W) (wsm : W) :
  wallet_state_manager (node (world rt)) = Some wsm →
  backup_initialized (node (world rt)) = true →
  wsm_close_task rt = None →
  let run := _await_closed rt in
  run.1 = Val tt
  ∧ wallet_state_manager (node (world run.2)) = None
  ∧ _shut_down (node (world run.2)) = _shut_down (node (world rt))
  ∧ awaited run.2 = awaited rt
  ∧ created run.2 = created rt.
Proof.
  intros Hw Hb Htask run. subst run. unfold _await_closed.
  by rewrite Hw, Hb, Htask.
Qed.

(** X28. [_pending_tx_handler] does not look at the shutdown flag: between
    [_close] and [_await_closed] it still hands a [_resend_queue] to the
    event loop, and that run of [_resend_queue] returns at its first guard
    without sending anything.  Once [_await_closed] has dropped the state
    manager the handler schedules nothing. *)
Theorem pending_tx_after_close
    (action_data_of : string → option (option bytes32 * option Z))
    (rt : Runtime W) (wsm : W) (discovery : ChiaServer) :
  wallet_state_manager (node (world rt)) = Some wsm →
  backup_initialized (node (world rt)) = true →
  wallet_peers rt = Some discovery →
  let closed := (_close rt).2 in
  created (_pending_tx_handler closed).2 = created closed ++ [resend_queue]
  ∧ _resend_queue action_data_of (world (_pending_tx_handler closed).2)
    = (Val tt, world closed)
  ∧ _pending_tx_handler (_await_closed closed).2
    = (Val tt, (_await_closed closed).2).
Proof.
  intros Hw Hb Hdiscovery closed. subst closed.
  unfold _close. simpl. rewrite Hw. simpl. rewrite Hdiscovery.
  unfold _pending_tx_handler, _await_closed. simpl. rewrite Hw, Hb. simpl.
  split; [done|]. split; [|done].
  unfold _resend_queue, proc, bind, get_self, resend_guard. by simpl.
Qed.

Section StartFacts.
Variable get_fingerprint : PrivateKey → Z.

(** X29. How [_start] can end.  If it answers [True] the node is started
    (state manager set, backup decision made, shutdown flag down), its
    starting height is not negative, and the one task it has created is
    the periodic check.  If it answers [False] it has created no task,
    and either no key was found and nothing has changed, or the backup
    decision is outstanding and the state manager has been closed and
    dropped again.  If the backup file cannot be read the exception
    leaves the node with its state manager set and the backup decision
    made, but without the periodic check. *)
Theorem start_outcomes
    (fingerprint : option Z) (new_wallet : bool)
    (backup_file : option BackupFile) (skip_backup_import : bool)
    (rt : Runtime W) :
  let run :=
    _start get_fingerprint fingerprint new_wallet backup_file
      skip_backup_import rt in
  let self := node (world run.2) in
  match run.1 with
  | Val true =>
      is_Some (wallet_state_manager self)
      ∧ backup_initialized self = true
      ∧ _shut_down self = false
      ∧ 0 ≤ starting_height (config self)
      ∧ (backup_file = None → starting_height (config self) = 0)
      ∧ wsm_close_task run.2 = None
      ∧ created run.2 = created rt ++ [periodically_check_full_node]
      ∧ awaited run.2 = awaited rt
  | Val false =>
      created run.2 = created rt
      ∧ ((get_key_for_fingerprint get_fingerprint (keychain rt) fingerprint = None
          ∧ run.2 = rt)
         ∨ (wallet_state_manager self = None
            ∧ backup_initialized self = false
            ∧ new_wallet = false ∧ skip_backup_import = false
            ∧ backup_file = None
            ∧ ∃ wsm, awaited run.2 = awaited rt ++ [close_all_stores wsm]))
  | Raise _ =>
      is_Some backup_file
      ∧ is_Some (wallet_state_manager self)
      ∧ backup_initialized self = true
      ∧ _shut_down self = _shut_down (node (world rt))
      ∧ created run.2 = created rt
  | Exit | Fuel => False
  end.
Proof.
  intros run self. subst self run. unfold _start.
  destruct (get_key_for_fingerprint _ _ _) as [sk|]; [|simpl; by eauto].
  set (wsm := create sk (config (node (world rt)))).
  destruct (user_initialized wsm) eqn:Hinit.
  - destruct backup_file as [file|]; simpl.
    + destruct (open_backup_file file (private_key wsm)) as [[start|]|]; simpl;
        repeat split; try done; try lia; by eauto.
    + repeat split; try done; by eauto.
  - destruct new_wallet.
    { destruct backup_file as [file|]; simpl.
      + destruct (open_backup_file file _) as [[start|]|]; simpl;
          repeat split; try done; try lia; by eauto.
      + repeat split; try done; by eauto. }
    destruct skip_backup_import.
    { destruct backup_file as [file|]; simpl.
      + destruct (open_backup_file file _) as [[start|]|]; simpl;
          repeat split; try done; try lia; by eauto.
      + repeat split; try done; by eauto. }
    destruct backup_file as [file|]; simpl.
    + destruct (open_backup_file file _) as [[start|]|]; simpl;
        repeat split; try done; try lia; by eauto.
    + split; [done|]. right. repeat split; try done. by exists wsm.
Qed.

(** X30. A callback registered with [_set_state_changed_callback] before
    the node is started is only stored; [_start] then installs it, and
    after it the pending-transaction handler, in the state manager it
    creates. *)
Theorem start_installs_registered_callback
    (callback : Callback) (fingerprint : option Z) (new_wallet : bool)
    (backup_file : option BackupFile) (skip_backup_import : bool)
    (rt : Runtime W) :
  wallet_state_manager (node (world rt)) = None →
  let registered := _set_state_changed_callback callback rt in
  let run :=
    _start get_fingerprint fingerprint new_wallet backup_file
      skip_backup_import registered.2 in
  registered.1 = Val tt
  ∧ world registered.2 = world rt
  ∧ state_changed_callback run.2 = Some callback
  ∧ (run.1 = Val true →
     ∃ wsm, wallet_state_manager (node (world run.2))
            = Some (set_pending_callback (set_callback callback wsm))).
Proof.
  intros Hw registered run. subst run registered.
  unfold _set_state_changed_callback. simpl. rewrite Hw. simpl.
  split; [done|]. split; [done|].
  unfold _start. simpl.
  destruct (get_key_for_fingerprint _ _ _) as [sk|]; [|done].
  set (wsm := create sk (config (node (world rt)))).
  destruct (user_initialized wsm), new_wallet, skip_backup_import,
    backup_file as [file|]; simpl;
    try (destruct (open_backup_file file _) as [[start|]|]; simpl);
    (split; [done|]); try done; intros _; by eexists.
Qed.
End StartFacts.
End LifeCycleFacts.

(** *** Further concrete runs *)

Lemma on_connect_sends_unsent_transactions_witness :
  _on_connect (MoreScenario.with_queue [])
  = (Val tt,
     with_effects [peer_send_message (send_transaction 77);
                   peer_send_message (send_transaction 99)]
       (MoreScenario.with_queue [])).
Proof.
  refine (on_connect_sends_unsent_transactions (MoreScenario.with_queue [])
            (MoreScenario.queue_manager []) _ _).
  - reflexivity.
  - reflexivity.
Defined.

Lemma action_messages_reads_every_action_witness :
  (_action_messages MoreScenario.read_action
     (MoreScenario.with_queue
        [MoreScenario.generator_action; MoreScenario.garbled_action])).1
  = Raise ValueError.
Proof.
  refine (proj2 (proj2 (action_messages_reads_every_action MoreScenario.read_action
           (MoreScenario.with_queue
              [MoreScenario.generator_action; MoreScenario.garbled_action])
           (MoreScenario.queue_manager
              [MoreScenario.generator_action; MoreScenario.garbled_action])
           _ _)) _).
  - reflexivity.
  - reflexivity.
  - right. left. vm_compute. exact I.
Defined.

Lemma resend_queue_broadcasts_witness :
  _resend_queue MoreScenario.read_action
    (MoreScenario.with_queue
       [MoreScenario.generator_action; MoreScenario.other_action])
  = (Val tt,
     with_effects
       [server_send_to_all (send_transaction 77);
        server_send_to_all (send_transaction 99);
        server_send_to_all (request_generator 200 (Scenario.hash_at 200))]
       (MoreScenario.with_queue
          [MoreScenario.generator_action; MoreScenario.other_action])).
Proof.
  refine (proj1 (resend_queue_broadcasts MoreScenario.read_action
           (MoreScenario.with_queue
              [MoreScenario.generator_action; MoreScenario.other_action])
           LifeScenario.the_server
           (MoreScenario.queue_manager
              [MoreScenario.generator_action; MoreScenario.other_action])
           _ _ _ _) _).
  - reflexivity.
  - reflexivity.
  - reflexivity.
  - reflexivity.
  - repeat constructor.
    + intros [_ [Hnone | Hnone]]; vm_compute in Hnone; discriminate.
    + intros [Hname _]; vm_compute in Hname; discriminate.
Defined.

Lemma difficulty_map_lists_odd_heights_witness :
  difficulty_map 0 6 MoreScenario.proofs_with_changes Scenario.steady
  = (Val ([3; 5], [7; 9]), Scenario.steady).
Proof.
  refine (difficulty_map_lists_odd_heights 0 6 MoreScenario.proofs_with_changes
            Scenario.steady _).
  vm_compute. discriminate.
Defined.

Lemma sync_needs_server_and_started_node_witness :
  _sync MoreScenario.nobody MoreScenario.slow_clock Scenario.first_k 0%N 1 3
    Scenario.awaiting_backup
  = (Val tt, Scenario.awaiting_backup).
Proof.
  refine (sync_needs_server_and_started_node MoreScenario.nobody
            MoreScenario.slow_clock Scenario.first_k 0%N 1 3
            Scenario.awaiting_backup _).
  right. right. reflexivity.
Defined.


Lemma sync_times_out_without_skeleton_witness :
  (_sync MoreScenario.nobody MoreScenario.slow_clock Scenario.first_k 0%N 1 2
     Scenario.steady).1 = Raise TimeoutError.
Proof.
  refine (proj1 (sync_times_out_without_skeleton MoreScenario.nobody
           MoreScenario.slow_clock Scenario.first_k 0%N 1
           (λ t self, eq_refl) 2 1 Scenario.steady LifeScenario.the_server
           (Scenario.manager_at 200) _ _ _ _ _ _ _)).
  - reflexivity.
  - reflexivity.
  - reflexivity.
  - reflexivity.
  - lia.
  - intros j Hj. assert (j = 0%nat) as -> by lia. vm_compute. reflexivity.
  - vm_compute. discriminate.
Defined.

Lemma forward_wait_spins_without_batches_witness :
  (forward_wait MoreScenario.nobody MoreScenario.slow_clock 30 5 5 0
     {| last_request_time := 0; highest_height_requested := 0;
        request_made := false |} MoreScenario.no_batches).1 = Fuel.
Proof.
  refine (proj1 (forward_wait_spins_without_batches MoreScenario.nobody
           MoreScenario.slow_clock (λ t self, eq_refl) 30 5 5 0 _
           MoreScenario.no_batches _ _)).
  - vm_compute. discriminate.
  - vm_compute. reflexivity.
Defined.

Lemma forward_wait_checks_first_witness :
  forward_wait MoreScenario.nobody MoreScenario.slow_clock 1 5 5 51
    {| last_request_time := 0; highest_height_requested := 0;
       request_made := false |} Scenario.steady
  = (Raise TimeoutError, Scenario.steady).
Proof.
  refine (proj2 (forward_wait_checks_first MoreScenario.nobody
           MoreScenario.slow_clock 0 5 5 51 _ Scenario.steady _ _) _ _).
  - vm_compute. discriminate.
  - lia.
  - reflexivity.
  - vm_compute. reflexivity.
Defined.

Lemma periodic_check_is_bounded_witness :
  (_periodically_check_full_node Scenario.resolver MoreScenario.nobody 6
     (LifeScenario.running None)).1 ≠ Fuel.
Proof.
  refine (proj1 (periodic_check_is_bounded Scenario.resolver MoreScenario.nobody 6
           (LifeScenario.running None) _)).
  lia.
Defined.

Lemma periodic_check_closes_connections_and_discovery_witness :
  closed_connections
    (trace (world (_periodically_check_full_node Scenario.resolver
                     MoreScenario.nobody 1
                     (LifeScenario.running (Some LifeScenario.the_server))).2))
  = [Scenario.pinned_connection; Scenario.stranger_connection].
Proof.
  refine (proj1 (proj2 (periodic_check_closes_connections_and_discovery
           Scenario.resolver MoreScenario.nobody 0
           (LifeScenario.running (Some LifeScenario.the_server))
           LifeScenario.the_server LifeScenario.the_server
           Scenario.pinned "10.0.0.1" _ _ _ _ _ _))).
  - reflexivity.
  - reflexivity.
  - reflexivity.
  - reflexivity.
  - right. vm_compute. apply list_elem_of_here.
  - reflexivity.
Defined.

Lemma close_then_await_closed_witness :
  wallet_state_manager
    (node (world (_await_closed
                    (_close (_set_server LifeScenario.the_server
                               (LifeScenario.running None)).2).2).2)) = None.
Proof.
  refine (proj1 (proj2 (proj2 (proj2 (proj2 (proj2 (close_then_await_closed
           (LifeScenario.running None) (Scenario.manager_at 200)
           LifeScenario.the_server _ _))))))).
  - reflexivity.
  - reflexivity.
Defined.

Lemma pending_tx_after_close_witness :
  created (_pending_tx_handler
             (_close (LifeScenario.running (Some LifeScenario.the_server))).2).2
  = [close_all_stores (Scenario.manager_at 200); wallet_peers_ensure_is_closed;
     resend_queue].
Proof.
  refine (proj1 (pending_tx_after_close Scenario.parse_action
           (LifeScenario.running (Some LifeScenario.the_server))
           (Scenario.manager_at 200) LifeScenario.the_server _ _ _)).
  - reflexivity.
  - reflexivity.
  - reflexivity.
Defined.

Lemma close_without_server_witness :
  (_close (LifeScenario.running None)).1 = Raise AttributeError.
Proof.
  refine (proj1 (close_without_server (LifeScenario.running None)
           (Scenario.manager_at 200) _ _)).
  - reflexivity.
  - reflexivity.
Defined.

Lemma await_closed_without_close_witness :
  awaited (_await_closed (LifeScenario.running (Some LifeScenario.the_server))).2
  = [].
Proof.
  refine (proj1 (proj2 (proj2 (proj2 (await_closed_without_close
           (LifeScenario.running (Some LifeScenario.the_server))
           (Scenario.manager_at 200) _ _ _))))).
  - reflexivity.
  - reflexivity.
  - reflexivity.
Defined.

Lemma start_installs_registered_callback_witness :
  state_changed_callback
    (_start LifeScenario.fingerprint_of (Some 12) true None false
       (_set_state_changed_callback 9%N
          (init_runtime (Scenario.settings 0) [(11%N, []); (12%N, [])])).2).2
  = Some 9%N.
Proof.
  refine (proj1 (proj2 (proj2 (start_installs_registered_callback
           LifeScenario.fingerprint_of 9%N (Some 12) true None false
           (init_runtime (Scenario.settings 0) [(11%N, []); (12%N, [])]) _)))).
  reflexivity.
Defined.
